(** * Genotype-phenotype maps: a shallow embedding of [seqspace/gpm.py]

    The development follows the Python module function by function.
    Phenotype values are kept abstract (a type [V] with the few numeric
    operations the module calls); NumPy arrays are lists, tagged with
    their number of axes where the code depends on it; Python exceptions
    are an error monad; the process-wide random generator is threaded
    explicitly. *)

From Stdlib Require Import ZArith QArith Qround Lqa Ascii String List Lia.
From stdpp Require Import base option list gmap strings sorting.

Local Open Scope string_scope.
Local Open Scope nat_scope.

(** ** Python exceptions *)

Inductive exn : Type :=
| IndexError
| KeyError
| AttributeError
| TypeError (msg : string)
| ValueError (msg : string)
| PyException (msg : string).

Inductive result (A : Type) : Type :=
| Ok (a : A)
| Raise (e : exn).
Arguments Ok {A} a.
Arguments Raise {A} e.

Definition bind {A B} (r : result A) (k : A -> result B) : result B :=
  match r with
  | Ok a => k a
  | Raise e => Raise e
  end.

Declare Scope py_scope.
Delimit Scope py_scope with py.
Notation "'do' x <- r ; k" := (bind r (fun x => k))
  (at level 10, x pattern, r at level 100, k at level 200) : py_scope.
Local Open Scope py_scope.

(** [o.attr]: reading an attribute that may not have been assigned. *)
Definition getattr {A} (o : option A) : result A :=
  match o with
  | Some a => Ok a
  | None => Raise AttributeError
  end.

(** [l[i]] on a list or one-axis array, for a non-negative [i]. *)
Definition getitem {A} (l : list A) (i : nat) : result A :=
  match l !! i with
  | Some a => Ok a
  | None => Raise IndexError
  end.

(** [d[k]] on a dict. *)
Definition dict_get {A} (d : gmap string A) (k : string) : result A :=
  match d !! k with
  | Some a => Ok a
  | None => Raise KeyError
  end.

(** A list comprehension whose body may raise: elements are evaluated
    left to right and the first exception escapes. *)
Fixpoint traverse {A B} (f : A -> result B) (l : list A) : result (list B) :=
  match l with
  | [] => Ok []
  | a :: l' =>
      do b <- f a;
      do bs <- traverse f l';
      Ok (b :: bs)
  end.

(** ** NumPy arrays

    Only the number of axes matters to the code: [np.array] of a flat
    list has one axis, [np.empty((r, c))] has two. *)

Inductive ndarray (A : Type) : Type :=
| Array1 (xs : list A)
| Array2 (ncols : nat) (rows : list (list A)).
Arguments Array1 {A} xs.
Arguments Array2 {A} ncols rows.

Definition shape {A} (a : ndarray A) : list nat :=
  match a with
  | Array1 xs => [length xs]
  | Array2 c rows => [length rows; c]
  end.

(** [a[:,0]]: two indices on a one-axis array raise [IndexError], and so
    does column 0 of an array with no column. *)
Definition column0 {A} (a : ndarray A) : result (list A) :=
  match a with
  | Array1 _ => Raise IndexError
  | Array2 c rows =>
      match c with
      | O => Raise IndexError
      | S _ => traverse (fun row => getitem row 0) rows
      end
  end.

(** [f(a, axis=1)] for a reduction [f]: a one-axis array has no axis 1
    ([numpy.AxisError], an [IndexError]). *)
Definition reduce_axis1 {A B} (f : list A -> B) (a : ndarray A) : result (list B) :=
  match a with
  | Array1 _ => Raise IndexError
  | Array2 _ rows => Ok (map f rows)
  end.


(** ** Numbers

    Phenotypes and standard deviations are floating-point values.  The
    module only adds and multiplies them and hands them to NumPy
    reductions, so they stay abstract. *)

Class Numeric (V : Type) : Type := {
  fadd : V -> V -> V;
  fmul : V -> V -> V;
  (** [np.mean] and [np.std(ddof=1)] of one row *)
  np_mean : list V -> V;
  np_std_ddof1 : list V -> V
}.

(** The [fraction] argument of [sample] is a double, hence a rational
    number; it is compared with 0 and 1, which is exact. *)
Definition py_lt (x y : Q) : bool := negb (Qle_bool y x).
Definition py_gt (x y : Q) : bool := py_lt y x.

(** [int(q)]: truncation toward zero. *)
Definition py_int (q : Q) : Z := Z.quot (Qnum q) (Z.pos (Qden q)).

(** [fraction * self.n] is a product of doubles: the double nearest to
    the exact product, which can be an integer when the exact product
    is not.  [round_double] stands for that rounding.  What the module
    relies on: rounding keeps the order, and it leaves an integer as it
    is (the integers at hand are array lengths, far below 2^53, where
    every integer is a double). *)
Class Rounding : Type := {
  round_double : Q -> Q;
  round_double_proper : forall p q : Q, (p == q)%Q -> (round_double p == round_double q)%Q;
  round_double_le : forall p q : Q, (p <= q)%Q -> (round_double p <= round_double q)%Q;
  round_double_whole : forall z : Z, (round_double (inject_Z z) == inject_Z z)%Q
}.

(** ** The random generator

    [np.random] is a process-wide generator; its state is passed
    explicitly.  [random_choice g n k] stands for
    [np.random.choice(range(n), size=k, replace=False)] and
    [random_normal] for one standard normal draw. *)

Class RandomState (G V : Type) : Type := {
  random_choice : G -> nat -> nat -> list nat * G;
  random_normal : G -> V * G
}.

(** [np.random.randn(k)]: [k] successive draws. *)
Fixpoint randn {G V} `{RandomState G V} (g : G) (k : nat) : list V * G :=
  match k with
  | O => ([], g)
  | S k' =>
      let '(z, g1) := random_normal g in
      let '(zs, g2) := randn g1 k' in
      (z :: zs, g2)
  end.

(** What [np.random.choice] without replacement guarantees. *)
Definition choice_ok {G V} `{RandomState G V} : Prop :=
  forall (g : G) (n k : nat), k <= n ->
    length (random_choice g n k).1 = k /\
    Forall (fun i => i < n) (random_choice g n k).1.

(** ** Collaborating views

    The uncertainty, raw, binary and mutation views are classes of other
    modules of the package, which are not part of the sources at hand;
    this module only constructs them and reads or assigns their
    attributes.  Each is modelled as the record of what the module
    passes to it or assigns on it. *)

Section Views.
Context {V : Type}.

(** Modelled from the spec: [StandardDeviationMap] of [seqspace.errors],
    constructed from [(phenotypes, stdeviations, log_transform=,
    logbase=)]; the record of its constructor arguments. *)
Record StandardDeviationMap : Type := {
  sd_phenotypes : list V;
  sd_stdeviations : list V;
  sd_log_transform : bool;
  sd_logbase : V -> V
}.

(** Modelled from the spec: [StandardErrorMap] of [seqspace.errors],
    constructed from [(phenotypes, stdeviations, log_transform=,
    n_replicates=, logbase=)]; the record of its constructor
    arguments. *)
Record StandardErrorMap : Type := {
  se_phenotypes : list V;
  se_stdeviations : list V;
  se_log_transform : bool;
  se_n_replicates : nat;
  se_logbase : V -> V
}.

(** Modelled from the spec: [RawMap] of [seqspace.raw], the holder of
    the untransformed arrays.  An attribute that was never assigned is
    [None]; the standard deviations may be assigned Python's [None],
    hence the nested option. *)
Record RawMap : Type := {
  raw_genotypes : list string;
  raw_phenotypes : list V;
  raw_stdeviations : option (option (list V));
  raw_std : option StandardDeviationMap;
  raw_err : option StandardErrorMap
}.

(** Modelled from the spec: [BinaryMap] of [seqspace.binary], as far as
    this module assigns its attributes. *)
Record BinaryMap : Type := {
  bin_phenotypes : list V;
  bin_std : option StandardDeviationMap;
  bin_err : option StandardErrorMap
}.

(** Modelled from the spec: [MutationMap] of [seqspace.mutations], as
    far as this module assigns its attributes. *)
Record MutationMap : Type := {
  mm_mutations : option (gmap nat (list ascii));
  mm_wildtype : option string;
  mm_n : option nat
}.

Definition MutationMap_new : MutationMap :=
  {| mm_mutations := None; mm_wildtype := None; mm_n := None |}.
End Views.
Arguments StandardDeviationMap V : clear implicits.
Arguments StandardErrorMap V : clear implicits.
Arguments RawMap V : clear implicits.
Arguments BinaryMap V : clear implicits.

(** Modelled from the spec: the [upper] property of a standard-error
    view, an array of error magnitudes, one per phenotype.  How it is
    computed is left open. *)
Class ErrorBounds (V : Type) : Type := {
  upper : StandardErrorMap V -> list V
}.

(** The array is aligned with the phenotypes the view was built from,
    when the standard deviations it was built from are. *)
Definition upper_aligned {V} `{ErrorBounds V} : Prop :=
  forall e : StandardErrorMap V,
    length (se_stdeviations e) = length (se_phenotypes e) ->
    length (upper e) = length (se_phenotypes e).

(** ** Sequence utilities

    [seqspace.utils] is imported by the module but is not part of the
    sources at hand; its functions are modelled from the specification
    of the package. *)

(** Modelled from the spec: [hamming_distance(a, b)], the number of
    sites at which two sequences differ. *)
Definition hamming_distance (a b : string) : nat :=
  length (filter (fun p : ascii * ascii => p.1 <> p.2)
            (zip (list_ascii_of_string a) (list_ascii_of_string b))).

(** Modelled from the spec: [farthest_genotype(wildtype, genotypes)],
    the observed genotype at the largest Hamming distance from the
    reference (the first one among equals). *)
Definition farthest_genotype (wildtype : string) (genotypes : list string) : string :=
  foldl (fun best g =>
           if hamming_distance wildtype best <? hamming_distance wildtype g
           then g else best)
        wildtype genotypes.

(** The alphabet of one site of a wildtype-versus-mutant pair: the
    wildtype symbol, and the mutant symbol where it differs. *)
Definition site_alphabet (a b : ascii) : list ascii :=
  if decide (a = b) then [a] else [a; b].

(** Modelled from the spec: [binary_mutations_map(seq_a, seq_b)], the
    dict from site index to the symbols allowed at that site. *)
Definition binary_mutations_map (wildtype mutant : string) : gmap nat (list ascii) :=
  map_seq 0 (zip_with site_alphabet
               (list_ascii_of_string wildtype) (list_ascii_of_string mutant)).

(** Modelled from the spec: [encode_mutations(genotype, mutations)], the
    per-site alphabets in site order; a site the dict does not mention
    keeps the symbol of the reference genotype. *)
Definition encode_mutations (wildtype : string) (mutations : gmap nat (list ascii))
  : list (list ascii) :=
  imap (fun i c => default [c] (mutations !! i)) (list_ascii_of_string wildtype).

(** Every sequence obtained by choosing one symbol per site, each with
    the per-site indices of the chosen symbols. *)
Fixpoint site_product (encoding : list (list ascii)) : list (list ascii * list nat) :=
  match encoding with
  | [] => [([], [])]
  | alphabet :: rest =>
      let tails := site_product rest in
      mjoin (imap (fun j c => map (fun t : list ascii * list nat => (c :: t.1, j :: t.2)) tails)
               alphabet)
  end.

(** Modelled from the spec: [construct_genotypes(encoding)], the
    complete combinatorial genotype set of an encoding together with its
    binary representation. *)
Definition construct_genotypes (encoding : list (list ascii))
  : list string * list (list nat) :=
  let all := site_product encoding in
  (map (fun t => string_of_list_ascii t.1) all, map snd all).

(** The genotypes of the sub-lattice spanned by two endpoints: what
    [subspace] gets from the three calls above. *)
Definition sublattice (genotype1 genotype2 : string) : list string :=
  (construct_genotypes
     (encode_mutations genotype1 (binary_mutations_map genotype1 genotype2))).1.

(** ** [BaseMap] *)

(** [BaseMap._map(keys, values)]: a later pair with the same key
    replaces an earlier one; [values[i]] raises when [values] is the
    shorter array. *)
Definition _map {A} (keys : list string) (values : list A) : result (gmap string A) :=
  do pairs <- traverse (fun i =>
                 do k <- getitem keys i;
                 do v <- getitem values i;
                 Ok (k, v)) (seq 0 (length keys));
  Ok (list_to_map (reverse pairs)).

(** ** [GenotypePhenotypeMap] *)

(** The two forms the [phenotypes] setter accepts. *)
Inductive phenotypes_arg (V : Type) : Type :=
| ByArray (values : list V)
| ByDict (dictionary : gmap string V).
Arguments ByArray {V} values.
Arguments ByDict {V} dictionary.

(** The [logbase] argument of the constructor. *)
Inductive logbase_arg (V : Type) : Type :=
| Callable (f : V -> V)
| NotCallable.
Arguments Callable {V} f.
Arguments NotCallable {V}.

(** The attributes of a map object.  [Raw], [Binary], [std] and [err]
    are [None] while the attribute has not been assigned;
    [stdeviations] is [None] for Python's [None]. *)
Record GenotypePhenotypeMap (V : Type) : Type := {
  _mutations : gmap nat (list ascii);
  Mutations : MutationMap;
  logbase : V -> V;
  _wildtype : string;
  _n : nat;
  _length : nat;
  _genotypes : list string;
  _indices : list nat;
  _log_transform : bool;
  _phenotypes : list V;
  _n_replicates : nat;
  Raw : option (RawMap V);
  Binary : option (BinaryMap V);
  _missing_genotypes : list string;
  stdeviations : option (list V);
  std : option (StandardDeviationMap V);
  err : option (StandardErrorMap V)
}.
Arguments _mutations {V} _.
Arguments Mutations {V} _.
Arguments logbase {V} _ _.
Arguments _wildtype {V} _.
Arguments _n {V} _.
Arguments _length {V} _.
Arguments _genotypes {V} _.
Arguments _indices {V} _.
Arguments _log_transform {V} _.
Arguments _phenotypes {V} _.
Arguments _n_replicates {V} _.
Arguments Raw {V} _.
Arguments Binary {V} _.
Arguments _missing_genotypes {V} _.
Arguments stdeviations {V} _.
Arguments std {V} _.
Arguments err {V} _.

Section Map.
Context {V : Type}.

Local Abbreviation gpm := (GenotypePhenotypeMap V).

(** *** Properties *)

Definition complete_genotypes (self : gpm) : list string :=
  _genotypes self ++ _missing_genotypes self.

(** *** Setters *)

Definition log_transform_setter (self : gpm) (boolean : bool) : gpm :=
  {| _mutations := _mutations self; Mutations := Mutations self;
     logbase := logbase self; _wildtype := _wildtype self;
     _n := _n self; _length := _length self;
     _genotypes := _genotypes self; _indices := _indices self;
     _log_transform := boolean;
     _phenotypes := _phenotypes self; _n_replicates := _n_replicates self;
     Raw := Raw self; Binary := Binary self;
     _missing_genotypes := _missing_genotypes self;
     stdeviations := stdeviations self; std := std self; err := err self |}.

(** [len(genotypes[0])] raises on an empty array.  (The assignment to
    [_n] that precedes it in the source is not observable here: a
    raising setter yields no object.) *)
Definition genotypes_setter (self : gpm) (genotypes : list string) : result gpm :=
  do first <- getitem genotypes 0;
  Ok {| _mutations := _mutations self; Mutations := Mutations self;
        logbase := logbase self; _wildtype := _wildtype self;
        _n := length genotypes;
        _length := String.length first;
        _genotypes := genotypes;
        _indices := seq 0 (length genotypes);
        _log_transform := _log_transform self;
        _phenotypes := _phenotypes self; _n_replicates := _n_replicates self;
        Raw := Raw self; Binary := Binary self;
        _missing_genotypes := _missing_genotypes self;
        stdeviations := stdeviations self; std := std self; err := err self |}.

Definition wildtype_setter (self : gpm) (wildtype : string) : gpm :=
  {| _mutations := _mutations self;
     Mutations := {| mm_mutations := mm_mutations (Mutations self);
                     mm_wildtype := Some wildtype;
                     mm_n := mm_n (Mutations self) |};
     logbase := logbase self;
     _wildtype := wildtype;
     _n := _n self; _length := _length self;
     _genotypes := _genotypes self; _indices := _indices self;
     _log_transform := _log_transform self;
     _phenotypes := _phenotypes self; _n_replicates := _n_replicates self;
     Raw := Raw self; Binary := Binary self;
     _missing_genotypes := _missing_genotypes self;
     stdeviations := stdeviations self; std := std self; err := err self |}.

(** The argument is a dict by its type, so the [TypeError] branch of the
    source cannot be taken. *)
Definition mutations_setter (self : gpm) (mutations : gmap nat (list ascii)) : gpm :=
  {| _mutations := mutations;
     Mutations := {| mm_mutations := Some mutations;
                     mm_wildtype := None;
                     mm_n := Some (size mutations) |};
     logbase := logbase self; _wildtype := _wildtype self;
     _n := _n self; _length := _length self;
     _genotypes := _genotypes self; _indices := _indices self;
     _log_transform := _log_transform self;
     _phenotypes := _phenotypes self; _n_replicates := _n_replicates self;
     Raw := Raw self; Binary := Binary self;
     _missing_genotypes := _missing_genotypes self;
     stdeviations := stdeviations self; std := std self; err := err self |}.

Definition n_replicates_setter (self : gpm) (n_replicates : nat) : gpm :=
  {| _mutations := _mutations self; Mutations := Mutations self;
     logbase := logbase self; _wildtype := _wildtype self;
     _n := _n self; _length := _length self;
     _genotypes := _genotypes self; _indices := _indices self;
     _log_transform := _log_transform self;
     _phenotypes := _phenotypes self; _n_replicates := n_replicates;
     Raw := Raw self; Binary := Binary self;
     _missing_genotypes := _missing_genotypes self;
     stdeviations := stdeviations self; std := std self; err := err self |}.

(** [BaseMap._if_dict] *)
Definition _if_dict (self : gpm) (dictionary : gmap string V) : result (list V) :=
  traverse (fun i =>
              do g <- getitem (_genotypes self) i;
              dict_get dictionary g)
           (seq 0 (_n self)).

(** The array the setter works on, before any transformation. *)
Definition resolve_phenotypes (self : gpm) (phenotypes : phenotypes_arg V)
  : result (list V) :=
  match phenotypes with
  | ByDict dictionary => _if_dict self dictionary
  | ByArray values =>
      if negb (length values =? length (_genotypes self))
      then Raise (ValueError "Number of phenotypes does not equal number of genotypes.")
      else Ok values
  end.

(** [RawMap(self)] followed by the assignment of its genotypes and
    phenotypes: a new object, none of whose other attributes is set. *)
Definition RawMap_new (genotypes : list string) (phenotypes : list V) : RawMap V :=
  {| raw_genotypes := genotypes; raw_phenotypes := phenotypes;
     raw_stdeviations := None; raw_std := None; raw_err := None |}.

Definition phenotypes_setter (self : gpm) (phenotypes : phenotypes_arg V) : result gpm :=
  do _phenotypes0 <- resolve_phenotypes self phenotypes;
  let Raw1 :=
    if _log_transform self
    then Some (RawMap_new (_genotypes self) _phenotypes0)
    else Raw self in
  let _phenotypes1 :=
    if _log_transform self then map (logbase self) _phenotypes0 else _phenotypes0 in
  let Binary1 :=
    match Binary self with
    | Some b => Some {| bin_phenotypes := _phenotypes1;
                        bin_std := bin_std b; bin_err := bin_err b |}
    | None => None
    end in
  Ok {| _mutations := _mutations self; Mutations := Mutations self;
        logbase := logbase self; _wildtype := _wildtype self;
        _n := _n self; _length := _length self;
        _genotypes := _genotypes self; _indices := _indices self;
        _log_transform := _log_transform self;
        _phenotypes := _phenotypes1;
        _n_replicates := _n_replicates self;
        Raw := Raw1; Binary := Binary1;
        _missing_genotypes := _missing_genotypes self;
        stdeviations := stdeviations self; std := std self; err := err self |}.

(** *** Construction *)

(** Modelled from the spec: [BinaryMap(self)], which builds the complete
    combinatorial space of the map's mutations, stores the genotypes
    absent from the data on the map as [_missing_genotypes], and mirrors
    the map's phenotypes. *)
Definition BinaryMap_new (self : gpm) : gpm :=
  let complete :=
    (construct_genotypes (encode_mutations (_wildtype self) (_mutations self))).1 in
  {| _mutations := _mutations self; Mutations := Mutations self;
     logbase := logbase self; _wildtype := _wildtype self;
     _n := _n self; _length := _length self;
     _genotypes := _genotypes self; _indices := _indices self;
     _log_transform := _log_transform self;
     _phenotypes := _phenotypes self; _n_replicates := _n_replicates self;
     Raw := Raw self;
     Binary := Some {| bin_phenotypes := _phenotypes self;
                       bin_std := None; bin_err := None |};
     _missing_genotypes := filter (fun g => g ∉ _genotypes self) complete;
     stdeviations := stdeviations self; std := std self; err := err self |}.

(** [Binary.std] and [Binary.err] are assigned only when the map has a
    binary view. *)
Definition Binary_with_errors (Binary0 : option (BinaryMap V))
    (std0 : StandardDeviationMap V) (err0 : StandardErrorMap V) : option (BinaryMap V) :=
  match Binary0 with
  | Some b =>
      Some {| bin_phenotypes := bin_phenotypes b;
              bin_std := Some std0; bin_err := Some err0 |}
  | None => None
  end.

(** The attributes [_construct_errors] assigns. *)
Definition with_errors (self : gpm) (stdeviations0 : option (list V))
    (Raw0 : option (RawMap V)) (Binary0 : option (BinaryMap V))
    (std0 : option (StandardDeviationMap V)) (err0 : option (StandardErrorMap V)) : gpm :=
  {| _mutations := _mutations self; Mutations := Mutations self;
     logbase := logbase self; _wildtype := _wildtype self;
     _n := _n self; _length := _length self;
     _genotypes := _genotypes self; _indices := _indices self;
     _log_transform := _log_transform self;
     _phenotypes := _phenotypes self; _n_replicates := _n_replicates self;
     Raw := Raw0; Binary := Binary0;
     _missing_genotypes := _missing_genotypes self;
     stdeviations := stdeviations0; std := std0; err := err0 |}.

Definition _construct_errors (self : gpm) (stdeviations0 : option (list V)) : result gpm :=
  match stdeviations0 with
  | Some sd =>
      if _log_transform self then
        match Raw self with
        | None =>
            Raise (PyException
              "A RawMap must be initialized as an attribute before we can transform the errors.")
        | Some raw =>
            let Raw_std :=
              {| sd_phenotypes := _phenotypes self; sd_stdeviations := sd;
                 sd_log_transform := false; sd_logbase := logbase self |} in
            let Raw_err :=
              {| se_phenotypes := _phenotypes self; se_stdeviations := sd;
                 se_log_transform := false;
                 se_n_replicates := _n_replicates self;
                 se_logbase := logbase self |} in
            let raw1 :=
              {| raw_genotypes := raw_genotypes raw;
                 raw_phenotypes := raw_phenotypes raw;
                 raw_stdeviations := Some (Some sd);
                 raw_std := Some Raw_std; raw_err := Some Raw_err |} in
            let std0 :=
              {| sd_phenotypes := raw_phenotypes raw1; sd_stdeviations := sd;
                 sd_log_transform := _log_transform self;
                 sd_logbase := logbase self |} in
            let err0 :=
              {| se_phenotypes := raw_phenotypes raw1; se_stdeviations := sd;
                 se_log_transform := _log_transform self;
                 se_n_replicates := _n_replicates self;
                 se_logbase := logbase self |} in
            Ok (with_errors self (Some sd) (Some raw1)
                  (Binary_with_errors (Binary self) std0 err0)
                  (Some std0) (Some err0))
        end
      else
        let std0 :=
          {| sd_phenotypes := _phenotypes self; sd_stdeviations := sd;
             sd_log_transform := _log_transform self;
             sd_logbase := logbase self |} in
        let err0 :=
          {| se_phenotypes := _phenotypes self; se_stdeviations := sd;
             se_log_transform := _log_transform self;
             se_n_replicates := _n_replicates self;
             se_logbase := logbase self |} in
        Ok (with_errors self (Some sd) (Raw self)
              (Binary_with_errors (Binary self) std0 err0)
              (Some std0) (Some err0))
  | None =>
      if _log_transform self then
        do raw <- getattr (Raw self);
        let raw1 :=
          {| raw_genotypes := raw_genotypes raw;
             raw_phenotypes := raw_phenotypes raw;
             raw_stdeviations := Some None;
             raw_std := raw_std raw; raw_err := raw_err raw |} in
        Ok (with_errors self None (Some raw1) (Binary self) (std self) (err self))
      else
        Ok (with_errors self None (Raw self) (Binary self) (std self) (err self))
  end.

(** The object at the entry of [__init__]: no attribute is assigned yet.
    Every field is written by the constructor before it is read, apart
    from [Raw], [Binary], [std] and [err], whose absence is tested. *)
Definition blank : gpm :=
  {| _mutations := ∅; Mutations := MutationMap_new;
     logbase := fun x => x; _wildtype := "";
     _n := 0; _length := 0; _genotypes := []; _indices := [];
     _log_transform := false; _phenotypes := []; _n_replicates := 0;
     Raw := None; Binary := None; _missing_genotypes := [];
     stdeviations := None; std := None; err := None |}.

Definition with_logbase (self : gpm) (f : V -> V) : gpm :=
  {| _mutations := _mutations self; Mutations := Mutations self;
     logbase := f; _wildtype := _wildtype self;
     _n := _n self; _length := _length self;
     _genotypes := _genotypes self; _indices := _indices self;
     _log_transform := _log_transform self;
     _phenotypes := _phenotypes self; _n_replicates := _n_replicates self;
     Raw := Raw self; Binary := Binary self;
     _missing_genotypes := _missing_genotypes self;
     stdeviations := stdeviations self; std := std self; err := err self |}.

Definition with_Mutations (self : gpm) (m : MutationMap) : gpm :=
  {| _mutations := _mutations self; Mutations := m;
     logbase := logbase self; _wildtype := _wildtype self;
     _n := _n self; _length := _length self;
     _genotypes := _genotypes self; _indices := _indices self;
     _log_transform := _log_transform self;
     _phenotypes := _phenotypes self; _n_replicates := _n_replicates self;
     Raw := Raw self; Binary := Binary self;
     _missing_genotypes := _missing_genotypes self;
     stdeviations := stdeviations self; std := std self; err := err self |}.

(** [GenotypePhenotypeMap.__init__].  The [mutations] argument is a
    dict whose keys are site numbers already, so the [int(key)] coercion
    is the identity and the copy the map keeps equals the argument the
    [Mutations] view is given.  (With string keys the map would keep the
    int-keyed copy and the view the original; the model identifies the
    two, and no statement below reads the dict of the view.) *)
Definition GenotypePhenotypeMap_init
    (wildtype : string) (genotypes : list string) (phenotypes : list V)
    (stdeviations0 : option (list V)) (log_transform : bool)
    (mutations : option (gmap nat (list ascii))) (n_replicates : nat)
    (logbase0 : logbase_arg V) : result gpm :=
  let mutations1 :=
    match mutations with
    | Some m => m
    | None => binary_mutations_map wildtype (farthest_genotype wildtype genotypes)
    end in
  let self := mutations_setter blank mutations1 in
  do self <- match logbase0 with
             | Callable f => Ok (with_logbase self f)
             | NotCallable =>
                 Raise (PyException
                   "Logbase must be a callable function to transform             phenotypes.(i.e. np.log(...)).")
             end;
  let self := wildtype_setter self wildtype in
  do self <- genotypes_setter self genotypes;
  let self := log_transform_setter self log_transform in
  do self <- phenotypes_setter self (ByArray phenotypes);
  let self := n_replicates_setter self n_replicates in
  let self := with_Mutations self
                {| mm_mutations := Some mutations1;
                   mm_wildtype := Some wildtype;
                   mm_n := None |} in
  let self := BinaryMap_new self in
  _construct_errors self stdeviations0.

(** *** Sampling *)

Record Sample : Type := {
  sample_gpm : gpm;
  replicate_genotypes : ndarray string;
  replicate_phenotypes : ndarray V;
  sample_genotypes : list string;
  sample_phenotypes : list V;
  sample_stdeviations : list V;
  sample_indices : list nat
}.

Context `{Numeric V} `{ErrorBounds V}.

(** [Sample.__init__] *)
Definition Sample_init (self : gpm) (genotypes : ndarray string) (phenotypes : ndarray V)
    (indices : list nat) : result Sample :=
  do genotypes0 <- column0 genotypes;
  do phenotypes0 <- reduce_axis1 np_mean phenotypes;
  do stdeviations0 <- reduce_axis1 np_std_ddof1 phenotypes;
  Ok {| sample_gpm := self;
        replicate_genotypes := genotypes;
        replicate_phenotypes := phenotypes;
        sample_genotypes := genotypes0;
        sample_phenotypes := phenotypes0;
        sample_stdeviations := stdeviations0;
        sample_indices := indices |}.

(** Modelled from the spec: [self.map("genotypes", attr)], the lookup
    from the map's genotypes to another of its arrays.  The method
    [map] is not in the sources at hand; it is taken to build its dict
    as [BaseMap._map] does. *)
Definition map_genotypes {A} (self : gpm) (values : list A) : result (gmap string A) :=
  _map (_genotypes self) values.

(** [a[-1] = x] on a one-axis array. *)
Definition set_last {A} (a : list A) (x : A) : result (list A) :=
  match length a with
  | O => Raise IndexError
  | S m => Ok (<[m := x]> a)
  end.

(** A string stored in an array of dtype [<U width] keeps its first
    [width] characters. *)
Definition store_U (width : nat) (s : string) : string := substring 0 width s.

Section Sampling.
Context {G : Type} `{RandomState G V} `{Rounding}.

(** The error magnitudes and the centres of the distributions to draw
    from: those of the raw view when the map is log-transformed. *)
Definition sampling_stdevs (self : gpm) : result (list V) :=
  if _log_transform self then
    do raw <- getattr (Raw self);
    do e <- getattr (raw_err raw);
    Ok (upper e)
  else
    do e <- getattr (err self);
    Ok (upper e).

Definition sampling_centres (self : gpm) : result (list V) :=
  if _log_transform self then
    do raw <- getattr (Raw self);
    Ok (raw_phenotypes raw)
  else Ok (_phenotypes self).

(** The body of the [try] block: one row of genotypes and one row of
    phenotypes per selected index.  The generator advances by
    [n_samples] draws per row, also when the row then raises. *)
Fixpoint sample_rows (self : gpm) (n_samples : nat) (random_indices : list nat) (g : G)
  : result (list (list string) * list (list V)) * G :=
  match random_indices with
  | [] => (Ok ([], []), g)
  | index :: rest =>
      match (do seq0 <- getitem (_genotypes self) index;
             do stdevs <- sampling_stdevs self;
             do s <- getitem stdevs index;
             Ok (seq0, s)) with
      | Raise e => (Raise e, g)
      | Ok (seq0, s) =>
          let '(zs, g1) := randn g n_samples in
          match (do centres <- sampling_centres self; getitem centres index) with
          | Raise e => (Raise e, g1)
          | Ok c =>
              let grow := replicate n_samples (store_U (_length self) seq0) in
              let prow := map (fun z => fadd (fmul s z) c) zs in
              match sample_rows self n_samples rest g1 with
              | (Ok (grows, prows), g2) => (Ok (grow :: grows, prow :: prows), g2)
              | (Raise e, g2) => (Raise e, g2)
              end
          end
      end
  end.

(** The selection of the indices to sample.  After the range check the
    product [fraction * n], rounded, lies between 0 and [n], so
    [np.random.choice] is asked for at most [n] indices. *)
Definition select_indices (self : gpm) (genotypes : option (list string))
    (fraction : Q) (derived : bool) (g : G) : result (list nat) * G :=
  match genotypes with
  | None =>
      if py_lt fraction 0 || py_gt fraction 1 then
        (Raise (PyException "fraction is invalid."), g)
      else
        let frac_length :=
          py_int (round_double (fraction * inject_Z (Z.of_nat (_n self)))) in
        let '(chosen, g1) := random_choice g (_n self) (Z.to_nat frac_length) in
        let random_indices := merge_sort le chosen in
        if derived then (set_last random_indices (_n self - 1), g1)
        else (Ok random_indices, g1)
  | Some genotypes0 =>
      (do mapping <- map_genotypes self (_indices self);
       traverse (dict_get mapping) genotypes0, g)
  end.

(** [GenotypePhenotypeMap.sample] *)
Definition sample (self : gpm) (g : G) (n_samples : nat) (genotypes : option (list string))
    (fraction : Q) (derived : bool) : result Sample * G :=
  match select_indices self genotypes fraction derived g with
  | (Raise e, g1) => (Raise e, g1)
  | (Ok random_indices, g1) =>
      match sample_rows self n_samples random_indices g1 with
      | (Ok (grows, prows), g2) =>
          (Sample_init self (Array2 n_samples grows) (Array2 n_samples prows)
             random_indices, g2)
      | (Raise _, g2) =>
          if negb (n_samples =? 1) then
            (Raise (PyException "Won't create samples if sample error is not given."), g2)
          else
            (do genotypes1 <- traverse (getitem (_genotypes self)) random_indices;
             do phenotypes1 <- traverse (getitem (_phenotypes self)) random_indices;
             Sample_init self (Array1 genotypes1) (Array1 phenotypes1) random_indices,
             g2)
      end
  end.

End Sampling.

(** *** Subspaces *)

(** [GenotypePhenotypeMap.subspace] *)
Definition subspace (self : gpm) (genotype1 genotype2 : string) : result gpm :=
  let mutations := binary_mutations_map genotype1 genotype2 in
  let encoding := encode_mutations genotype1 mutations in
  do ms <-
    (if _log_transform self then
       do raw <- getattr (Raw self);
       do mapping <- map_genotypes self (raw_phenotypes raw);
       do stdeviations0 <- getattr (raw_stdeviations raw);
       Ok (mapping, stdeviations0)
     else
       do mapping <- map_genotypes self (_phenotypes self);
       Ok (mapping, stdeviations self));
  let wildtype := genotype1 in
  let '(genotypes, binary) := construct_genotypes encoding in
  do phenotypes <- traverse (dict_get ms.1) genotypes;
  GenotypePhenotypeMap_init wildtype genotypes phenotypes ms.2
    (_log_transform self) (Some mutations) (_n_replicates self)
    (Callable (logbase self)).

End Map.

(** ** Views of a constructed map *)

(** The uncertainty views of a constructed map, as functions of the
    constructor's arguments. *)
Definition built_std {V} (phenotypes : list V) (log_transform : bool) (f : V -> V)
    (sd : list V)
  : StandardDeviationMap V :=
  {| sd_phenotypes := phenotypes; sd_stdeviations := sd;
     sd_log_transform := log_transform; sd_logbase := f |}.

Definition built_err {V} (phenotypes : list V) (log_transform : bool)
    (n_replicates : nat) (f : V -> V) (sd : list V) : StandardErrorMap V :=
  {| se_phenotypes := phenotypes; se_stdeviations := sd;
     se_log_transform := log_transform; se_n_replicates := n_replicates;
     se_logbase := f |}.

(** ** Assignments after construction

    Every public attribute with a setter can be assigned on a live
    object; the object then goes through the same setter code as during
    construction. *)

Inductive assignment (V : Type) : Type :=
| SetGenotypes (genotypes : list string)
| SetPhenotypes (phenotypes : phenotypes_arg V)
| SetWildtype (wildtype : string)
| SetMutations (mutations : gmap nat (list ascii))
| SetLogTransform (boolean : bool)
| SetNReplicates (n_replicates : nat).
Arguments SetGenotypes {V} genotypes.
Arguments SetPhenotypes {V} phenotypes.
Arguments SetWildtype {V} wildtype.
Arguments SetMutations {V} mutations.
Arguments SetLogTransform {V} boolean.
Arguments SetNReplicates {V} n_replicates.

Definition assign {V} (self : GenotypePhenotypeMap V) (a : assignment V)
  : result (GenotypePhenotypeMap V) :=
  match a with
  | SetGenotypes genotypes => genotypes_setter self genotypes
  | SetPhenotypes phenotypes => phenotypes_setter self phenotypes
  | SetWildtype wildtype => Ok (wildtype_setter self wildtype)
  | SetMutations mutations => Ok (mutations_setter self mutations)
  | SetLogTransform boolean => Ok (log_transform_setter self boolean)
  | SetNReplicates n_replicates => Ok (n_replicates_setter self n_replicates)
  end.

(** The objects a program can hold: a constructed map, possibly followed
    by assignments that returned normally, each of them permitted by
    [allowed]. *)
Inductive reachable {V} (allowed : GenotypePhenotypeMap V -> assignment V -> Prop)
  : GenotypePhenotypeMap V -> Prop :=
| reachable_init wildtype genotypes phenotypes stdeviations0 log_transform
    mutations n_replicates logbase0 self :
    GenotypePhenotypeMap_init wildtype genotypes phenotypes stdeviations0
      log_transform mutations n_replicates logbase0 = Ok self ->
    reachable allowed self
| reachable_assign self a self' :
    reachable allowed self ->
    allowed self a ->
    assign self a = Ok self' ->
    reachable allowed self'.

(** An assignment that leaves the number of genotypes as it is. *)
Definition keeps_count {V} (self : GenotypePhenotypeMap V) (a : assignment V) : Prop :=
  match a with
  | SetGenotypes genotypes => length genotypes = _n self
  | _ => True
  end.

(** ** A concrete instance

    Integer-valued phenotypes, with [Z.log2] in the role of the
    logarithm (on powers of two it agrees with [np.log2]), error
    magnitudes equal to the standard deviations, a generator that
    selects the first indices and always draws 0, and products rounded
    to 53 binary places. *)

Module Demo.

#[global] Instance Numeric_Z : Numeric Z := {|
  fadd := Z.add;
  fmul := Z.mul;
  np_mean := fun row => (foldr Z.add 0 row / Z.of_nat (length row))%Z;
  np_std_ddof1 := fun _ => 0%Z
|}.

#[global] Instance ErrorBounds_Z : ErrorBounds Z := {|
  upper := fun e => se_stdeviations e
|}.

#[global] Instance RandomState_unit : RandomState unit Z := {|
  random_choice := fun g n k => (seq 0 k, g);
  random_normal := fun g => (0%Z, g)
|}.

Definition genotypes4 : list string := ["AA"; "AT"; "TA"; "TT"].

(** wildtype [AA], phenotypes [1, 2, 2, 4], no standard deviations *)
Definition plain : result (GenotypePhenotypeMap Z) :=
  GenotypePhenotypeMap_init "AA" genotypes4 [1; 2; 2; 4]%Z None false None 1
    (Callable Z.log2).

(** the same data with standard deviations *)
Definition plain_sd : result (GenotypePhenotypeMap Z) :=
  GenotypePhenotypeMap_init "AA" genotypes4 [1; 2; 2; 4]%Z (Some [1; 1; 1; 2]%Z)
    false None 4 (Callable Z.log2).

(** log-transformed, with standard deviations *)
Definition logged : result (GenotypePhenotypeMap Z) :=
  GenotypePhenotypeMap_init "AA" genotypes4 [4; 16; 16; 256]%Z (Some [1; 1; 1; 2]%Z)
    true None 4 (Callable Z.log2).

(** The three maps, evaluated. *)
Definition built (r : result (GenotypePhenotypeMap Z)) : GenotypePhenotypeMap Z :=
  match r with
  | Ok self => self
  | Raise _ => blank
  end.

Definition plain_map : GenotypePhenotypeMap Z := Eval vm_compute in built plain.
Definition plain_sd_map : GenotypePhenotypeMap Z := Eval vm_compute in built plain_sd.
Definition logged_map : GenotypePhenotypeMap Z := Eval vm_compute in built logged.

(** three genotypes [AA, AT, TA], phenotypes [1, 2, 2], with standard
    deviations *)
Definition three_sd : result (GenotypePhenotypeMap Z) :=
  GenotypePhenotypeMap_init "AA" ["AA"; "AT"; "TA"] [1; 2; 2]%Z (Some [1; 1; 1]%Z)
    false None 4 (Callable Z.log2).

Definition three_sd_map : GenotypePhenotypeMap Z := Eval vm_compute in built three_sd.

(** *** Rounding

    Between 1/2 and 1 the doubles are the multiples of 2^-53.  The
    instance rounds to the nearest multiple of 2^-53, a tie going to
    the even one: on products between 1/2 and 1 it is the rounding of
    IEEE binary64 products. *)

Definition round_half_even (q : Q) : Z :=
  match (q - inject_Z (Qfloor q) ?= 1 # 2)%Q with
  | Lt => Qfloor q
  | Eq => if Z.even (Qfloor q) then Qfloor q else (Qfloor q + 1)%Z
  | Gt => (Qfloor q + 1)%Z
  end.

Definition round_53 (q : Q) : Q :=
  (inject_Z (round_half_even (q * inject_Z (2 ^ 53))) / inject_Z (2 ^ 53))%Q.

(** The double nearest to 1/3, Python's [1/3]. *)
Definition third : Q := 6004799503160661 # 18014398509481984.

Lemma round_half_even_proper (p q : Q) :
  (p == q)%Q -> round_half_even p = round_half_even q.
Proof.
  intros Heq. unfold round_half_even.
  rewrite (Qfloor_comp _ _ Heq).
  assert ((p - inject_Z (Qfloor q) ?= 1 # 2) = (q - inject_Z (Qfloor q) ?= 1 # 2))%Q as ->.
  { apply Qcompare_comp; [|reflexivity]. rewrite Heq. reflexivity. }
  reflexivity.
Qed.

Lemma round_half_even_le (p q : Q) :
  (p <= q)%Q -> (round_half_even p <= round_half_even q)%Z.
Proof.
  intros Hle. pose proof (Qfloor_resp_le _ _ Hle) as Hfloor.
  unfold round_half_even.
  destruct (Z.eq_dec (Qfloor p) (Qfloor q)) as [Heq|Hne].
  - rewrite Heq.
    destruct (Qcompare_spec (p - inject_Z (Qfloor q)) (1 # 2)) as [Hp|Hp|Hp];
      destruct (Qcompare_spec (q - inject_Z (Qfloor q)) (1 # 2)) as [Hq|Hq|Hq];
      try destruct (Z.even (Qfloor q)); try lia; exfalso; lra.
  - assert (Qfloor p + 1 <= Qfloor q)%Z by lia.
    destruct (p - inject_Z (Qfloor p) ?= 1 # 2)%Q;
      destruct (q - inject_Z (Qfloor q) ?= 1 # 2)%Q;
      try destruct (Z.even (Qfloor p)); try destruct (Z.even (Qfloor q)); lia.
Qed.

Lemma round_half_even_whole (z : Z) : round_half_even (inject_Z z) = z.
Proof.
  unfold round_half_even. rewrite Qfloor_Z.
  assert ((inject_Z z - inject_Z z ?= 1 # 2)%Q = Lt) as ->; [|reflexivity].
  apply Qlt_alt. assert (inject_Z z - inject_Z z == 0)%Q as -> by ring. reflexivity.
Qed.

Lemma round_53_proper (p q : Q) : (p == q)%Q -> (round_53 p == round_53 q)%Q.
Proof.
  intros Heq. unfold round_53.
  rewrite (round_half_even_proper (p * inject_Z (2 ^ 53)) (q * inject_Z (2 ^ 53))).
  - reflexivity.
  - rewrite Heq. reflexivity.
Qed.

Lemma round_53_le (p q : Q) : (p <= q)%Q -> (round_53 p <= round_53 q)%Q.
Proof.
  intros Hle. unfold round_53.
  apply Qmult_le_compat_r; [|discriminate].
  rewrite <- Zle_Qle. apply round_half_even_le.
  apply Qmult_le_compat_r; [assumption|discriminate].
Qed.

Lemma round_53_whole (z : Z) : (round_53 (inject_Z z) == inject_Z z)%Q.
Proof.
  unfold round_53.
  rewrite (round_half_even_proper _ (inject_Z (z * 2 ^ 53))).
  - rewrite round_half_even_whole, inject_Z_mult. field. discriminate.
  - rewrite inject_Z_mult. reflexivity.
Qed.

#[global] Instance Rounding_53 : Rounding := {|
  round_double := round_53;
  round_double_proper := round_53_proper;
  round_double_le := round_53_le;
  round_double_whole := round_53_whole
|}.

End Demo.

(** ** [Sample.get_gpm] *)

(** A map built from the per-genotype means and sample standard
    deviations of a sample; everything else comes from the sampled
    map.  (The [mutations] property of a map is its dict, never
    [None].) *)
Definition get_gpm {V} (s : @Sample V) : result (GenotypePhenotypeMap V) :=
  GenotypePhenotypeMap_init
    (_wildtype (sample_gpm s)) (sample_genotypes s) (sample_phenotypes s)
    (Some (sample_stdeviations s))
    (_log_transform (sample_gpm s))
    (Some (_mutations (sample_gpm s)))
    (_n_replicates (sample_gpm s))
    (Callable (logbase (sample_gpm s))).

(** ** [GenotypePhenotypeMap.from_json]

    The method reads a file and parses it; the model starts from the
    parsed object.  Its entries are typed: a key is present with a value
    of the type the constructor expects, or absent.  [stdeviations] and
    [mutations] may be present with the value [null]. *)

Record json_data (V : Type) : Type := {
  data_wildtype : option string;
  data_genotypes : option (list string);
  data_phenotypes : option (list V);
  data_stdeviations : option (option (list V));
  data_log_transform : option bool;
  data_mutations : option (option (gmap nat (list ascii)));
  data_n_replicates : option nat;
  data_logbase : option (logbase_arg V)
}.
Arguments data_wildtype {V} _.
Arguments data_genotypes {V} _.
Arguments data_phenotypes {V} _.
Arguments data_stdeviations {V} _.
Arguments data_log_transform {V} _.
Arguments data_mutations {V} _.
Arguments data_n_replicates {V} _.
Arguments data_logbase {V} _.

(** The keyword arguments of [from_json] that name an option of the
    constructor. *)
Record json_kwargs (V : Type) : Type := {
  kw_stdeviations : option (option (list V));
  kw_log_transform : option bool;
  kw_mutations : option (option (gmap nat (list ascii)));
  kw_n_replicates : option nat;
  kw_logbase : option (logbase_arg V)
}.
Arguments kw_stdeviations {V} _.
Arguments kw_log_transform {V} _.
Arguments kw_mutations {V} _.
Arguments kw_n_replicates {V} _.
Arguments kw_logbase {V} _.

(** What [from_json] ends with: a map, a [LoadingException], or an
    exception of the constructor. *)
Inductive loaded (A : Type) : Type :=
| Loaded (a : A)
| LoadingException (msg : string)
| ConstructorRaised (e : exn).
Arguments Loaded {A} a.
Arguments LoadingException {A} msg.
Arguments ConstructorRaised {A} e.

Definition loading_message (key : string) : string :=
  "No `" ++ key ++ "` property in json data. Must have " ++ key
    ++ " for GPM construction. ".

(** [options[key] = data[key]] where the key is present, then
    [options.update(kwargs)]. *)
Definition option_value {A} (default : A) (data kwargs : option A) : A :=
  match kwargs with
  | Some a => a
  | None =>
      match data with
      | Some a => a
      | None => default
      end
  end.

(** [np_log10] is the default of the [logbase] option. *)
Definition from_json {V} (np_log10 : V -> V) (data : json_data V) (kwargs : json_kwargs V)
  : loaded (GenotypePhenotypeMap V) :=
  match data_wildtype data with
  | None => LoadingException (loading_message "wildtype")
  | Some wildtype =>
      match data_genotypes data with
      | None => LoadingException (loading_message "genotypes")
      | Some genotypes =>
          match data_phenotypes data with
          | None => LoadingException (loading_message "phenotypes")
          | Some phenotypes =>
              match GenotypePhenotypeMap_init wildtype genotypes phenotypes
                      (option_value None (data_stdeviations data) (kw_stdeviations kwargs))
                      (option_value false (data_log_transform data)
                         (kw_log_transform kwargs))
                      (option_value None (data_mutations data) (kw_mutations kwargs))
                      (option_value 1 (data_n_replicates data) (kw_n_replicates kwargs))
                      (option_value (Callable np_log10) (data_logbase data)
                         (kw_logbase kwargs)) with
              | Ok gpm => Loaded gpm
              | Raise e => ConstructorRaised e
              end
          end
      end
  end.

(** [np.random.choice(..., replace=False)] returns no index twice. *)
Definition choice_distinct {G V} `{RandomState G V} : Prop :=
  forall (g : G) (n k : nat), k <= n -> NoDup (random_choice g n k).1.

(** * Properties *)

(** ** Comprehensions *)

Section Traverse.
Context {A B : Type}.
Implicit Types (f : A -> result B) (l : list A) (bs : list B).

Lemma traverse_Forall2 f l bs :
  traverse f l = Ok bs <-> Forall2 (fun a b => f a = Ok b) l bs.
Proof.
  revert bs. induction l as [|a l IH]; intros bs; simpl.
  - split.
    + intros [= <-]. constructor.
    + intros Hall. inversion Hall. reflexivity.
  - split.
    + destruct (f a) as [b|e] eqn:Hfa; simpl; [|discriminate].
      destruct (traverse f l) as [bs'|e] eqn:Hrest; simpl; [|discriminate].
      intros [= <-]. constructor; [assumption|]. apply IH. reflexivity.
    + intros Hall. inversion Hall as [|a0 b l0 bs' Hfa Hrest]; subst.
      rewrite Hfa. simpl. apply IH in Hrest. rewrite Hrest. reflexivity.
Qed.

Lemma traverse_length f l bs : traverse f l = Ok bs -> length bs = length l.
Proof.
  intros Htr. apply traverse_Forall2 in Htr.
  symmetry. exact (Forall2_length _ _ _ Htr).
Qed.

Lemma traverse_lookup f l bs i a :
  traverse f l = Ok bs -> l !! i = Some a ->
  exists b, f a = Ok b /\ bs !! i = Some b.
Proof.
  intros Htr Hi. apply traverse_Forall2 in Htr.
  destruct (Forall2_lookup_l _ _ _ _ _ Htr Hi) as (b & Hb & Hfa). eauto.
Qed.

Lemma traverse_total f l :
  Forall (fun a => exists b, f a = Ok b) l -> exists bs, traverse f l = Ok bs.
Proof.
  induction 1 as [|a l [b Hfa] _ [bs Hbs]]; simpl.
  - eauto.
  - rewrite Hfa. simpl. rewrite Hbs. simpl. eauto.
Qed.

(** When every failure of the body is the same exception, a
    comprehension with a failing element raises it. *)
Lemma traverse_raise f l e :
  (forall a e', f a = Raise e' -> e' = e) ->
  ~ Forall (fun a => exists b, f a = Ok b) l ->
  traverse f l = Raise e.
Proof.
  intros Hexn. induction l as [|a l IH]; intros Hnot; simpl.
  - destruct Hnot. constructor.
  - destruct (f a) as [b|e'] eqn:Hfa; simpl.
    + rewrite IH; [reflexivity|].
      intros Hall. apply Hnot. constructor; eauto.
    + rewrite (Hexn _ _ Hfa). reflexivity.
Qed.

Lemma traverse_fmap {A'} (h : A' -> A) f (l' : list A') :
  traverse f (h <$> l') = traverse (fun a => f (h a)) l'.
Proof.
  induction l' as [|a l' IH]; csimpl; [reflexivity|].
  rewrite IH. reflexivity.
Qed.

Lemma traverse_ext f1 f2 l :
  (forall a, f1 a = f2 a) -> traverse f1 l = traverse f2 l.
Proof.
  intros Hext. induction l as [|a l IH]; simpl; [reflexivity|].
  rewrite Hext, IH. reflexivity.
Qed.

End Traverse.

Lemma getitem_Some {A} (l : list A) i a : l !! i = Some a -> getitem l i = Ok a.
Proof. unfold getitem. intros ->. reflexivity. Qed.

Lemma getitem_Ok {A} (l : list A) i a : getitem l i = Ok a -> l !! i = Some a.
Proof. unfold getitem. destruct (l !! i); [intros [= ->]; reflexivity | discriminate]. Qed.

Lemma dict_get_Ok {A} (d : gmap string A) k a : dict_get d k = Ok a <-> d !! k = Some a.
Proof.
  unfold dict_get. destruct (d !! k); split; intros Heq; try discriminate.
  - injection Heq as ->. reflexivity.
  - injection Heq as ->. reflexivity.
Qed.

Lemma dict_get_raise {A} (d : gmap string A) k e : dict_get d k = Raise e -> e = KeyError.
Proof. unfold dict_get. destruct (d !! k); [discriminate | intros [= <-]; reflexivity]. Qed.

(** ** [BaseMap._map] *)

Lemma traverse_pairs {A} (keys : list string) (values : list A) :
  length keys <= length values ->
  traverse (fun i => do k <- getitem keys i; do v <- getitem values i; Ok (k, v))
    (seq 0 (length keys)) = Ok (zip keys (take (length keys) values)).
Proof.
  revert values. induction keys as [|k keys IH]; intros values Hlen; simpl.
  - reflexivity.
  - destruct values as [|v values]; simpl in Hlen; [lia|].
    rewrite <- fmap_S_seq, traverse_fmap. cbn [getitem lookup list_lookup bind].
    rewrite (traverse_ext _
               (fun i => do k0 <- getitem keys i; do v0 <- getitem values i; Ok (k0, v0)))
      by reflexivity.
    rewrite (IH values) by lia. reflexivity.
Qed.

Lemma _map_Ok {A} (keys : list string) (values : list A) :
  length keys = length values ->
  _map keys values = Ok (list_to_map (reverse (zip keys values))).
Proof.
  intros Hlen. unfold _map. rewrite traverse_pairs by lia.
  rewrite Hlen, firstn_all. reflexivity.
Qed.

Lemma _map_lookup {A} (keys : list string) (values : list A) m k v :
  length keys = length values ->
  _map keys values = Ok m -> m !! k = Some v ->
  exists j, keys !! j = Some k /\ values !! j = Some v.
Proof.
  intros Hlen Hmap Hk. rewrite _map_Ok in Hmap by assumption.
  injection Hmap as <-.
  apply elem_of_list_to_map_2 in Hk.
  rewrite elem_of_reverse in Hk.
  apply list_elem_of_lookup in Hk. destruct Hk as [j Hj].
  apply lookup_zip_with_Some in Hj. destruct Hj as (k' & v' & [= <- <-] & ? & ?).
  eauto.
Qed.

Lemma _map_is_Some {A} (keys : list string) (values : list A) m k :
  length keys = length values ->
  _map keys values = Ok m -> k ∈ keys -> is_Some (m !! k).
Proof.
  intros Hlen Hmap Hk. rewrite _map_Ok in Hmap by assumption.
  injection Hmap as <-.
  destruct (list_to_map (reverse (zip keys values)) !! k) eqn:Hnone; [eauto|].
  apply not_elem_of_list_to_map in Hnone. destruct Hnone.
  rewrite fmap_reverse, elem_of_reverse, fst_zip by lia. assumption.
Qed.

Lemma _map_None {A} (keys : list string) (values : list A) m k :
  length keys = length values ->
  _map keys values = Ok m -> k ∉ keys -> m !! k = None.
Proof.
  intros Hlen Hmap Hk. rewrite _map_Ok in Hmap by assumption.
  injection Hmap as <-.
  apply not_elem_of_list_to_map.
  rewrite fmap_reverse, elem_of_reverse, fst_zip by lia. assumption.
Qed.

(** ** What the constructor builds *)

Section Construction.
Context {V : Type}.
Implicit Types (self : GenotypePhenotypeMap V) (f : V -> V).

Lemma init_Ok_inv wildtype genotypes phenotypes stdeviations0 log_transform mutations
    n_replicates logbase0 self :
  GenotypePhenotypeMap_init wildtype genotypes phenotypes stdeviations0 log_transform
    mutations n_replicates logbase0 = Ok self ->
  exists f,
    logbase0 = Callable f /\
    0 < length genotypes /\
    length phenotypes = length genotypes /\
    _wildtype self = wildtype /\
    _genotypes self = genotypes /\
    _n self = length genotypes /\
    _indices self = seq 0 (length genotypes) /\
    _log_transform self = log_transform /\
    logbase self = f /\
    _n_replicates self = n_replicates /\
    _phenotypes self = (if log_transform then map f phenotypes else phenotypes) /\
    stdeviations self = stdeviations0 /\
    std self = built_std phenotypes log_transform f <$> stdeviations0 /\
    err self = built_err phenotypes log_transform n_replicates f <$> stdeviations0 /\
    Raw self =
      (if log_transform then
         Some {| raw_genotypes := genotypes;
                 raw_phenotypes := phenotypes;
                 raw_stdeviations := Some stdeviations0;
                 raw_std := built_std (map f phenotypes) false f <$> stdeviations0;
                 raw_err := built_err (map f phenotypes) false n_replicates f
                              <$> stdeviations0 |}
       else None) /\
    Binary self =
      Some {| bin_phenotypes := (if log_transform then map f phenotypes else phenotypes);
              bin_std := built_std phenotypes log_transform f <$> stdeviations0;
              bin_err := built_err phenotypes log_transform n_replicates f
                           <$> stdeviations0 |}.
Proof.
  unfold GenotypePhenotypeMap_init.
  destruct logbase0 as [f|]; simpl; [|discriminate].
  unfold genotypes_setter. destruct genotypes as [|g0 genotypes]; simpl; [discriminate|].
  unfold phenotypes_setter, resolve_phenotypes. simpl.
  destruct (length phenotypes =? S (length genotypes)) eqn:Hlen; simpl; [|discriminate].
  apply Nat.eqb_eq in Hlen.
  unfold _construct_errors.
  destruct stdeviations0 as [sd|], log_transform; simpl; intros [= <-]; simpl;
    exists f; repeat split; solve [reflexivity | assumption | lia].
Qed.

(** The constructor succeeds on any non-empty list of genotypes with as
    many phenotypes. *)
Lemma init_total wildtype genotypes phenotypes stdeviations0 log_transform mutations
    n_replicates f :
  0 < length genotypes ->
  length phenotypes = length genotypes ->
  exists self,
    GenotypePhenotypeMap_init wildtype genotypes phenotypes stdeviations0 log_transform
      mutations n_replicates (Callable f) = Ok self.
Proof.
  intros Hne Hlen. unfold GenotypePhenotypeMap_init. simpl.
  unfold genotypes_setter. destruct genotypes as [|g0 genotypes]; simpl in *; [lia|].
  unfold phenotypes_setter, resolve_phenotypes. simpl.
  rewrite Hlen, Nat.eqb_refl. simpl.
  unfold _construct_errors.
  destruct stdeviations0 as [sd|], log_transform; simpl; eauto.
Qed.

End Construction.

(** ** Uncertainty views under a log transform *)

Section Errors.
Context {V : Type}.
Implicit Types (self : GenotypePhenotypeMap V).

(** On a log-transformed map with standard deviations, the two views of
    the raw map are built from the map's own, transformed phenotypes
    (with [log_transform=False]); the map-level views are built from
    the raw phenotypes (with [log_transform=True]); the four views get
    the same standard deviations. *)
Lemma construct_errors_log_views self sd raw :
  _log_transform self = true ->
  Raw self = Some raw ->
  exists self' raw',
    _construct_errors self (Some sd) = Ok self' /\
    Raw self' = Some raw' /\
    raw_phenotypes raw' = raw_phenotypes raw /\
    raw_std raw' = Some (built_std (_phenotypes self) false (logbase self) sd) /\
    raw_err raw' =
      Some (built_err (_phenotypes self) false (_n_replicates self) (logbase self) sd) /\
    std self' = Some (built_std (raw_phenotypes raw) true (logbase self) sd) /\
    err self' =
      Some (built_err (raw_phenotypes raw) true (_n_replicates self) (logbase self) sd).
Proof.
  intros Hlog Hraw. unfold _construct_errors. rewrite Hlog, Hraw.
  eexists _, _. repeat split; reflexivity.
Qed.

End Errors.

(** C1, evaluated on the map with wildtype [AA], genotypes [AA, AT, TA,
    TT], phenotypes [4, 16, 16, 256], standard deviations [1, 1, 1, 2],
    [log_transform=True] and the base-2 logarithm: the raw view holds
    the phenotypes as given, the map-level [std] and [err] are built
    from them, but [Raw.std] and [Raw.err] are built from the
    transformed phenotypes [2, 4, 4, 8], not from the raw ones. *)
Theorem C1_raw_views_built_from_transformed :
  exists self raw Raw_std Raw_err map_std map_err,
    Demo.logged = Ok self /\
    Raw self = Some raw /\
    raw_phenotypes raw = [4; 16; 16; 256]%Z /\
    raw_std raw = Some Raw_std /\ raw_err raw = Some Raw_err /\
    std self = Some map_std /\ err self = Some map_err /\
    sd_phenotypes Raw_std = [2; 4; 4; 8]%Z /\
    se_phenotypes Raw_err = [2; 4; 4; 8]%Z /\
    sd_phenotypes Raw_std <> raw_phenotypes raw /\
    se_phenotypes Raw_err <> raw_phenotypes raw /\
    sd_log_transform Raw_std = false /\ se_log_transform Raw_err = false /\
    sd_phenotypes map_std = raw_phenotypes raw /\
    se_phenotypes map_err = raw_phenotypes raw /\
    sd_log_transform map_std = true /\ se_log_transform map_err = true /\
    sd_stdeviations Raw_std = [1; 1; 1; 2]%Z /\
    se_stdeviations Raw_err = [1; 1; 1; 2]%Z /\
    sd_stdeviations map_std = [1; 1; 1; 2]%Z /\
    se_stdeviations map_err = [1; 1; 1; 2]%Z.
Proof.
  unfold Demo.logged.
  destruct (init_total "AA" Demo.genotypes4 [4; 16; 16; 256]%Z (Some [1; 1; 1; 2]%Z)
              true None 4 Z.log2) as [self Hself]; [simpl; lia | reflexivity |].
  destruct (init_Ok_inv _ _ _ _ _ _ _ _ _ Hself)
    as (f & [= <-] & _ & _ & _ & _ & _ & _ & _ & _ & _ & _ & _ & Hstd & Herr & Hraw & _).
  exists self. eexists _, _, _, _, _.
  split; [exact Hself|].
  split; [exact Hraw|]. simpl.
  split; [reflexivity|].
  split; [reflexivity|]. split; [reflexivity|].
  split; [exact Hstd|]. split; [exact Herr|].
  simpl. repeat split; try reflexivity; discriminate.
Qed.

(** ** The phenotypes setter *)

Section Setter.
Context {V : Type}.
Implicit Types (self : GenotypePhenotypeMap V) (values : list V).

Lemma resolve_array self values :
  length values = length (_genotypes self) ->
  resolve_phenotypes self (ByArray values) = Ok values.
Proof. intros Hlen. simpl. rewrite Hlen, Nat.eqb_refl. reflexivity. Qed.

Lemma resolve_array_mismatch self values :
  length values <> length (_genotypes self) ->
  resolve_phenotypes self (ByArray values) =
    Raise (ValueError "Number of phenotypes does not equal number of genotypes.").
Proof.
  intros Hlen. simpl. apply Nat.eqb_neq in Hlen. rewrite Hlen. reflexivity.
Qed.

(** What the setter stores once its argument is resolved. *)
Lemma phenotypes_setter_resolved self phenotypes values :
  resolve_phenotypes self phenotypes = Ok values ->
  exists self',
    phenotypes_setter self phenotypes = Ok self' /\
    _genotypes self' = _genotypes self /\
    _n self' = _n self /\
    _indices self' = _indices self /\
    _missing_genotypes self' = _missing_genotypes self /\
    _log_transform self' = _log_transform self /\
    logbase self' = logbase self /\
    std self' = std self /\ err self' = err self /\
    _phenotypes self' =
      (if _log_transform self then map (logbase self) values else values) /\
    Raw self' =
      (if _log_transform self then Some (RawMap_new (_genotypes self) values)
       else Raw self) /\
    bin_phenotypes <$> Binary self' = (fun _ => _phenotypes self') <$> Binary self.
Proof.
  intros Hres. unfold phenotypes_setter. rewrite Hres. simpl.
  eexists. split; [reflexivity|]. simpl.
  repeat split. destruct (Binary self); reflexivity.
Qed.

(** C2: on a map with [log_transform=True], assigning an array of
    phenotypes (one per genotype) makes the raw view hold the array
    exactly as given, in the order of the map's genotypes, and makes the
    map's own phenotypes [logbase] of it, element by element.  Whenever
    [exp] undoes [logbase] on the given values up to the tolerance
    [approx] (as [10**] does for [log10]), the raw phenotypes are [exp]
    of the map's phenotypes, element by element, up to [approx]. *)
Theorem C2_raw_view_and_log_phenotypes self values :
  _log_transform self = true ->
  length values = length (_genotypes self) ->
  exists self' raw,
    phenotypes_setter self (ByArray values) = Ok self' /\
    Raw self' = Some raw /\
    raw_phenotypes raw = values /\
    raw_genotypes raw = _genotypes self' /\
    _phenotypes self' = map (logbase self') values /\
    forall (approx : V -> V -> Prop) (exp : V -> V),
      Forall (fun x => approx x (exp (logbase self' x))) values ->
      Forall2 approx (raw_phenotypes raw) (map exp (_phenotypes self')).
Proof.
  intros Hlog Hlen.
  destruct (phenotypes_setter_resolved self (ByArray values) values)
    as (self' & Hset & Hgen & _ & _ & _ & _ & Hbase & _ & _ & Hphen & Hraw & _).
  { apply resolve_array. assumption. }
  rewrite Hlog in Hphen, Hraw.
  exists self', (RawMap_new (_genotypes self) values).
  rewrite Hbase, Hgen. repeat split; try assumption.
  intros approx exp Hinv. simpl. rewrite Hphen, map_map.
  clear -Hinv. induction Hinv; simpl; constructor; assumption.
Qed.

(** C7: on a map whose [n] is its number of genotypes, a dict that has
    every genotype as a key is resolved into the array of its values in
    the order of the genotypes, and that array is stored; an array is
    rejected with the length-mismatch [ValueError] exactly when its
    length differs from [n], and is otherwise stored as it is, index by
    index.  ("Stored": as the map's phenotypes, or as the raw view's
    phenotypes with the map's phenotypes their [logbase], when the map
    is log-transformed.) *)
Theorem C7_setter_accepts_dict_or_aligned_array self :
  _n self = length (_genotypes self) ->
  (forall dictionary : gmap string V,
     Forall (fun g => is_Some (dictionary !! g)) (_genotypes self) ->
     exists values self',
       _if_dict self dictionary = Ok values /\
       length values = _n self /\
       (forall i g, _genotypes self !! i = Some g -> values !! i = dictionary !! g) /\
       phenotypes_setter self (ByDict dictionary) = Ok self' /\
       _genotypes self' = _genotypes self /\
       _phenotypes self' =
         (if _log_transform self then map (logbase self) values else values) /\
       (_log_transform self = true -> raw_phenotypes <$> Raw self' = Some values)) /\
  (forall values,
     (phenotypes_setter self (ByArray values) =
        Raise (ValueError "Number of phenotypes does not equal number of genotypes.")
      <-> length values <> _n self) /\
     (length values = _n self ->
      exists self',
        phenotypes_setter self (ByArray values) = Ok self' /\
        _genotypes self' = _genotypes self /\
        _phenotypes self' =
          (if _log_transform self then map (logbase self) values else values) /\
        (_log_transform self = true -> raw_phenotypes <$> Raw self' = Some values))).
Proof.
  intros Hn. split.
  - intros dictionary Hkeys.
    assert (exists values, _if_dict self dictionary = Ok values) as [values Hvalues].
    { unfold _if_dict. apply traverse_total. apply Forall_forall.
      intros i Hi. apply elem_of_seq in Hi. rewrite Hn in Hi.
      destruct (lookup_lt_is_Some_2 (_genotypes self) i) as [g Hg]; [lia|].
      rewrite (getitem_Some _ _ _ Hg). simpl.
      rewrite Forall_forall in Hkeys.
      destruct (Hkeys g) as [v Hv]; [eapply list_elem_of_lookup_2; eassumption|].
      exists v. apply dict_get_Ok. assumption. }
    destruct (phenotypes_setter_resolved self (ByDict dictionary) values Hvalues)
      as (self' & Hset & Hgen & _ & _ & _ & _ & _ & _ & _ & Hphen & Hraw & _).
    exists values, self'. split; [assumption|].
    split; [rewrite (traverse_length _ _ _ Hvalues); apply length_seq|].
    split.
    { intros i g Hg.
      assert (seq 0 (_n self) !! i = Some i) as Hi.
      { apply lookup_seq. split; [reflexivity|]. rewrite Hn.
        eapply lookup_lt_Some. eassumption. }
      destruct (traverse_lookup _ _ _ _ _ Hvalues Hi) as (v & Hv & ->).
      rewrite (getitem_Some _ _ _ Hg) in Hv. simpl in Hv.
      apply dict_get_Ok in Hv. congruence. }
    repeat split; try assumption.
    intros Hlog. rewrite Hraw, Hlog. reflexivity.
  - intros values. split.
    + split.
      * intros Hraise Hlen.
        unfold phenotypes_setter in Hraise.
        rewrite resolve_array in Hraise by congruence. discriminate.
      * intros Hlen. unfold phenotypes_setter.
        rewrite resolve_array_mismatch by congruence. reflexivity.
    + intros Hlen.
      destruct (phenotypes_setter_resolved self (ByArray values) values)
        as (self' & Hset & Hgen & _ & _ & _ & _ & _ & _ & _ & Hphen & Hraw & _).
      { apply resolve_array. congruence. }
      exists self'. repeat split; try assumption.
      intros Hlog. rewrite Hraw, Hlog. reflexivity.
Qed.

End Setter.

(** ** Re-assigning the current phenotypes *)

(** C4 fails on a log-transformed map: on the map [Demo.logged] (raw
    phenotypes [4, 16, 16, 256], base-2 logarithm), assigning the map's
    phenotypes to themselves twice leaves a raw view that holds [1, 2,
    2, 3] and binary phenotypes [0, 1, 1, 1], where they were [4, 16,
    16, 256] and [2, 4, 4, 8]. *)
Lemma C4_counterexample :
  exists self self1 self2 : GenotypePhenotypeMap Z,
    Demo.logged = Ok self /\
    phenotypes_setter self (ByArray (_phenotypes self)) = Ok self1 /\
    phenotypes_setter self1 (ByArray (_phenotypes self1)) = Ok self2 /\
    raw_phenotypes <$> Raw self = Some [4; 16; 16; 256]%Z /\
    raw_phenotypes <$> Raw self2 = Some [1; 2; 2; 3]%Z /\
    bin_phenotypes <$> Binary self = Some [2; 4; 4; 8]%Z /\
    bin_phenotypes <$> Binary self2 = Some [0; 1; 1; 1]%Z /\
    Raw self2 <> Raw self /\
    bin_phenotypes <$> Binary self2 <> bin_phenotypes <$> Binary self.
Proof.
  destruct (init_total "AA" Demo.genotypes4 [4; 16; 16; 256]%Z (Some [1; 1; 1; 2]%Z)
              true None 4 Z.log2) as [self Hself]; [simpl; lia | reflexivity |].
  destruct (init_Ok_inv _ _ _ _ _ _ _ _ _ Hself)
    as (f & [= <-] & _ & _ & _ & Hgen & _ & _ & Hlog & Hbase & _ & Hphen & _ & _ & _
        & Hraw & Hbin).
  simpl in Hphen.
  destruct (phenotypes_setter_resolved self (ByArray (_phenotypes self)) (_phenotypes self))
    as (self1 & Hset1 & Hgen1 & _ & _ & _ & Hlog1 & Hbase1 & _ & _ & Hphen1 & Hraw1 & Hbin1).
  { apply resolve_array. rewrite Hphen, Hgen. reflexivity. }
  rewrite Hlog, Hbase, Hphen in Hphen1. simpl in Hphen1.
  destruct (phenotypes_setter_resolved self1 (ByArray (_phenotypes self1)) (_phenotypes self1))
    as (self2 & Hset2 & _ & _ & _ & _ & _ & _ & _ & _ & Hphen2 & Hraw2 & Hbin2).
  { apply resolve_array. rewrite Hphen1, Hgen1, Hgen. reflexivity. }
  rewrite Hlog1, Hlog, Hbase1, Hbase, Hphen1 in Hphen2. simpl in Hphen2.
  rewrite Hlog1, Hlog, Hphen1 in Hraw2.
  rewrite Hbin in Hbin1. simpl in Hbin1.
  assert (bin_phenotypes <$> Binary self2 = Some [0; 1; 1; 1]%Z) as Hbin2'.
  { rewrite Hbin2, Hphen2. destruct (Binary self1); [reflexivity | discriminate]. }
  exists self, self1, self2.
  rewrite Hraw, Hraw2, Hbin, Hbin2'. simpl.
  repeat split; try assumption; discriminate.
Qed.

Section Idempotence.
Context {V : Type}.
Implicit Types (self : GenotypePhenotypeMap V).

(** C4, amended: on a constructed map, assigning the map's phenotypes to
    themselves twice succeeds and leaves the [std] and [err] views as
    they were; when the map is not log-transformed it also leaves the
    raw view (absent), the map's phenotypes and the binary view's
    phenotypes as they were. *)
Theorem C4_reassigning_phenotypes wildtype genotypes phenotypes stdeviations0
    log_transform mutations n_replicates logbase0 self :
  GenotypePhenotypeMap_init wildtype genotypes phenotypes stdeviations0 log_transform
    mutations n_replicates logbase0 = Ok self ->
  exists self1 self2,
    phenotypes_setter self (ByArray (_phenotypes self)) = Ok self1 /\
    phenotypes_setter self1 (ByArray (_phenotypes self1)) = Ok self2 /\
    std self2 = std self /\
    err self2 = err self /\
    (log_transform = false ->
     Raw self2 = Raw self /\
     _phenotypes self2 = _phenotypes self /\
     bin_phenotypes <$> Binary self2 = bin_phenotypes <$> Binary self).
Proof.
  intros Hself.
  destruct (init_Ok_inv _ _ _ _ _ _ _ _ _ Hself)
    as (f & -> & _ & Hlen & _ & Hgen & _ & _ & Hlog & _ & _ & Hphen & _ & _ & _
        & _ & Hbin).
  assert (length (_phenotypes self) = length (_genotypes self)) as Hlen0.
  { rewrite Hphen, Hgen. destruct log_transform; [rewrite length_map|]; assumption. }
  destruct (phenotypes_setter_resolved self (ByArray (_phenotypes self)) (_phenotypes self))
    as (self1 & Hset1 & Hgen1 & _ & _ & _ & Hlog1 & _ & Hstd1 & Herr1 & Hphen1 & Hraw1
        & Hbin1).
  { apply resolve_array. assumption. }
  assert (length (_phenotypes self1) = length (_genotypes self1)) as Hlen1.
  { rewrite Hphen1, Hgen1. destruct (_log_transform self); [rewrite length_map|];
      assumption. }
  destruct (phenotypes_setter_resolved self1 (ByArray (_phenotypes self1))
              (_phenotypes self1))
    as (self2 & Hset2 & _ & _ & _ & _ & _ & _ & Hstd2 & Herr2 & Hphen2 & Hraw2 & Hbin2).
  { apply resolve_array. assumption. }
  exists self1, self2.
  split; [assumption|]. split; [assumption|].
  split; [rewrite Hstd2; exact Hstd1|].
  split; [rewrite Herr2; exact Herr1|].
  intros ->. rewrite Hlog1, Hlog in Hphen2, Hraw2. rewrite Hlog in Hphen1, Hraw1.
  simpl in Hphen1, Hraw1, Hphen2, Hraw2.
  split; [rewrite Hraw2; exact Hraw1|].
  split; [rewrite Hphen2; exact Hphen1|].
  rewrite Hbin2, Hphen2, Hphen1, Hbin. rewrite Hbin in Hbin1. simpl in *.
  destruct (Binary self1); simpl in *; [rewrite Hphen; reflexivity | discriminate].
Qed.

End Idempotence.

(** ** Size invariants *)

(** C8 fails after a genotypes assignment: on the four-genotype map
    [Demo.plain], assigning the two genotypes [AA, TT] returns normally
    and leaves a map with [n = 2], two genotypes and four phenotypes. *)
Lemma C8_counterexample :
  exists self self' : GenotypePhenotypeMap Z,
    Demo.plain = Ok self /\
    assign self (SetGenotypes ["AA"; "TT"]) = Ok self' /\
    reachable (fun _ _ => True) self' /\
    _n self' = 2 /\
    length (_genotypes self') = 2 /\
    length (_phenotypes self') = 4 /\
    length (_genotypes self') <> length (_phenotypes self').
Proof.
  destruct (init_total "AA" Demo.genotypes4 [1; 2; 2; 4]%Z None
              false None 1 Z.log2) as [self Hself]; [simpl; lia | reflexivity |].
  destruct (init_Ok_inv _ _ _ _ _ _ _ _ _ Hself)
    as (f & _ & _ & _ & _ & _ & _ & _ & _ & _ & _ & Hphen & _).
  exists self. eexists. split; [exact Hself|].
  split; [reflexivity|].
  split.
  { eapply (reachable_assign _ self (SetGenotypes ["AA"; "TT"]));
      [eapply reachable_init; exact Hself | exact I | reflexivity]. }
  simpl. rewrite Hphen. simpl. repeat split; try reflexivity; discriminate.
Qed.

Section Invariants.
Context {V : Type}.
Implicit Types (self : GenotypePhenotypeMap V).

Lemma resolve_length self phenotypes values :
  _n self = length (_genotypes self) ->
  resolve_phenotypes self phenotypes = Ok values ->
  length values = _n self.
Proof.
  intros Hn. destruct phenotypes as [l|d]; simpl.
  - destruct (length l =? length (_genotypes self)) eqn:Hlen; simpl; [|discriminate].
    apply Nat.eqb_eq in Hlen. intros [= <-]. congruence.
  - intros Hd. apply traverse_length in Hd. rewrite Hd. apply length_seq.
Qed.

(** C8, amended: after construction and after any sequence of setter
    assignments that returned normally, [len(genotypes) == n], [indices]
    is [0..n-1] and [complete_genotypes] is [genotypes] followed by
    [missing_genotypes], of size [len(genotypes) +
    len(missing_genotypes)]; [len(phenotypes) == n] holds as well when
    no genotypes assignment in the sequence changed the number of
    genotypes. *)
Theorem C8_size_invariants (allowed : GenotypePhenotypeMap V -> assignment V -> Prop) self :
  reachable allowed self ->
  (length (_genotypes self) = _n self /\
   _indices self = seq 0 (_n self) /\
   complete_genotypes self = (_genotypes self ++ _missing_genotypes self)%list /\
   length (complete_genotypes self) =
     length (_genotypes self) + length (_missing_genotypes self)) /\
  ((forall s a, allowed s a -> keeps_count s a) ->
   length (_phenotypes self) = _n self).
Proof.
  intros Hreach.
  assert (forall s : GenotypePhenotypeMap V,
            length (_genotypes s) = _n s ->
            _indices s = seq 0 (_n s) ->
            length (_genotypes s) = _n s /\
            _indices s = seq 0 (_n s) /\
            complete_genotypes s = (_genotypes s ++ _missing_genotypes s)%list /\
            length (complete_genotypes s) =
              length (_genotypes s) + length (_missing_genotypes s)) as Hgeno.
  { intros s Hn Hidx. repeat split; try assumption.
    unfold complete_genotypes. apply length_app. }
  induction Hreach as [wildtype genotypes phenotypes stdeviations0 log_transform
                         mutations n_replicates logbase0 self Hself
                      | self a self' Hreach [(Hn & Hidx & _) Hphen] Hallowed Hstep].
  - destruct (init_Ok_inv _ _ _ _ _ _ _ _ _ Hself)
      as (f & _ & _ & Hlen & _ & Hgen & Hn & Hidx & _ & _ & _ & Hphen & _).
    split.
    + apply Hgeno; congruence.
    + intros _. rewrite Hphen, Hn.
      destruct log_transform; [rewrite length_map|]; assumption.
  - destruct a as [l|p|w|m|b|k]; simpl in Hstep.
    + unfold genotypes_setter in Hstep.
      destruct (getitem l 0); simpl in Hstep; [|discriminate].
      injection Hstep as <-.
      split; [apply Hgeno; reflexivity|].
      intros Hkeeps. simpl. pose proof (Hkeeps _ _ Hallowed) as Hcount.
      simpl in Hcount. rewrite Hcount. apply Hphen. assumption.
    + unfold phenotypes_setter in Hstep.
      destruct (resolve_phenotypes self p) as [values|] eqn:Hres; simpl in Hstep;
        [|discriminate].
      injection Hstep as <-.
      split; [apply Hgeno; assumption|].
      intros _. simpl. apply resolve_length in Hres; [|congruence].
      destruct (_log_transform self); [rewrite length_map|]; assumption.
    + injection Hstep as <-. split; [apply Hgeno; assumption | exact Hphen].
    + injection Hstep as <-. split; [apply Hgeno; assumption | exact Hphen].
    + injection Hstep as <-. split; [apply Hgeno; assumption | exact Hphen].
    + injection Hstep as <-. split; [apply Hgeno; assumption | exact Hphen].
Qed.

End Invariants.

(** ** Sampling *)

Section SamplingProperties.
Context {V G : Type} `{Numeric V} `{ErrorBounds V} `{RandomState G V} `{Rounding}.
Implicit Types (self : GenotypePhenotypeMap V) (g : G).

Lemma py_lt_true x y : (x < y)%Q -> py_lt x y = true.
Proof.
  intros Hlt. unfold py_lt. destruct (Qle_bool y x) eqn:Hle; [|reflexivity].
  apply Qle_bool_iff in Hle. destruct (Qlt_not_le _ _ Hlt Hle).
Qed.

Lemma py_lt_false x y : (y <= x)%Q -> py_lt x y = false.
Proof.
  intros Hle. unfold py_lt. apply Qle_bool_iff in Hle. rewrite Hle. reflexivity.
Qed.

(** C9: with [genotypes=None], a fraction below 0 or above 1 makes
    [sample] raise the exception "fraction is invalid."; the generator
    is returned in the state it was passed in, so no index has been
    selected and nothing has been drawn. *)
Theorem C9_fraction_out_of_range self g n_samples fraction derived :
  (fraction < 0 \/ 1 < fraction)%Q ->
  sample self g n_samples None fraction derived =
    (Raise (PyException "fraction is invalid."), g).
Proof.
  intros Hrange. unfold sample, select_indices.
  assert (py_lt fraction 0 || py_gt fraction 1 = true) as ->; [|reflexivity].
  destruct Hrange as [Hlow|Hhigh].
  - rewrite (py_lt_true _ _ Hlow). reflexivity.
  - unfold py_gt. rewrite (py_lt_true _ _ Hhigh). apply orb_true_r.
Qed.

Lemma merge_sort_length (l : list nat) : length (merge_sort le l) = length l.
Proof. apply Permutation_length, merge_sort_Permutation. Qed.

Lemma merge_sort_Forall (P : nat -> Prop) (l : list nat) :
  Forall P l -> Forall P (merge_sort le l).
Proof.
  intros Hall. rewrite merge_sort_Permutation. exact Hall.
Qed.

(** [int] sees the number, not the fraction that denotes it. *)
Lemma py_int_Qeq (p q : Q) : (p == q)%Q -> py_int p = py_int q.
Proof.
  unfold Qeq, py_int. intros Heq.
  rewrite <- (Z.quot_mul_cancel_r (Qnum p) (Z.pos (Qden p)) (Z.pos (Qden q))) by lia.
  rewrite Heq, (Z.mul_comm (Z.pos (Qden p))).
  apply Z.quot_mul_cancel_r; lia.
Qed.

Lemma py_int_le (q : Q) (z : Z) : (q <= inject_Z z)%Q -> (py_int q <= z)%Z.
Proof.
  unfold Qle, py_int. cbn [Qnum Qden inject_Z]. intros Hle.
  apply Z.quot_le_upper_bound; [reflexivity|].
  rewrite Z.mul_1_r in Hle. rewrite Z.mul_comm. exact Hle.
Qed.

Lemma py_int_inject_Z (z : Z) : py_int (inject_Z z) = z.
Proof. unfold py_int. simpl. apply Z.quot_1_r. Qed.

(** The rounded product of an integer and [n] is their product. *)
Lemma round_whole_product (z : Z) (n : nat) :
  py_int (round_double (inject_Z z * inject_Z (Z.of_nat n))) = (z * Z.of_nat n)%Z.
Proof.
  rewrite <- (py_int_inject_Z (z * Z.of_nat n)). apply py_int_Qeq.
  transitivity (round_double (inject_Z (z * Z.of_nat n))).
  - apply round_double_proper. rewrite inject_Z_mult. reflexivity.
  - apply round_double_whole.
Qed.

(** After the range check the rounded product is at most [n]. *)
Lemma round_fraction_le (fraction : Q) (n : nat) :
  (fraction <= 1)%Q ->
  (py_int (round_double (fraction * inject_Z (Z.of_nat n))) <= Z.of_nat n)%Z.
Proof.
  intros Hhigh. apply py_int_le.
  apply Qle_trans with (round_double (inject_Z (Z.of_nat n))).
  - apply round_double_le.
    rewrite <- (Qmult_1_l (inject_Z (Z.of_nat n))) at 2.
    apply Qmult_le_compat_r; [assumption|].
    rewrite <- (Zle_Qle 0). lia.
  - pose proof (round_double_whole (Z.of_nat n)) as Hwhole.
    rewrite Hwhole. apply Qle_refl.
Qed.

(** C10, amended: with [genotypes=None], [derived=True] and a fraction
    in [0, 1] for which [int(fraction * n)], taken of the product as
    rounded to a double, is 0 - as it is for the fraction 0 -, no index
    is selected and forcing the last one raises [IndexError]. *)
Theorem C10_empty_selection_raises self g n_samples :
  choice_ok ->
  (sample self g n_samples None 0 true).1 = Raise IndexError /\
  (forall fraction,
     (0 <= fraction)%Q -> (fraction <= 1)%Q ->
     py_int (round_double (fraction * inject_Z (Z.of_nat (_n self)))) = 0%Z ->
     (sample self g n_samples None fraction true).1 = Raise IndexError).
Proof.
  intros Hchoice.
  assert (forall fraction,
            (0 <= fraction)%Q -> (fraction <= 1)%Q ->
            py_int (round_double (fraction * inject_Z (Z.of_nat (_n self)))) = 0%Z ->
            (sample self g n_samples None fraction true).1 = Raise IndexError) as Hempty.
  { intros fraction Hlow Hhigh Hzero. unfold sample, select_indices.
    rewrite (py_lt_false _ _ Hlow). unfold py_gt. rewrite (py_lt_false _ _ Hhigh).
    simpl. rewrite Hzero. change (Z.to_nat 0) with 0.
    destruct (Hchoice g (_n self) 0) as [Hlen _]; [lia|].
    destruct (random_choice g (_n self) 0) as [chosen g1]. simpl in Hlen.
    destruct chosen; [|discriminate]. reflexivity. }
  split; [|exact Hempty].
  apply Hempty; [discriminate | discriminate |].
  exact (round_whole_product 0 (_n self)).
Qed.

End SamplingProperties.

(** C10 as stated fails where the exact product is below 1 and the
    double product is not: with Python's [1/3] on the three genotypes of
    [Demo.three_sd_map], [floor(fraction * n)] is 0, but the product
    rounds to 1.0; one index is selected and set to [n-1], and [sample]
    returns a [Sample] of the last genotype. *)
Lemma C10_counterexample :
  (0 <= Demo.third)%Q /\ (Demo.third <= 1)%Q /\
  Qfloor (Demo.third * inject_Z (Z.of_nat (_n Demo.three_sd_map))) = 0%Z /\
  py_int (round_double (Demo.third * inject_Z (Z.of_nat (_n Demo.three_sd_map)))) = 1%Z /\
  exists s,
    sample Demo.three_sd_map tt 2 None Demo.third true = (Ok s, tt) /\
    sample_indices s = [2] /\
    sample_genotypes s = ["TA"].
Proof.
  split; [discriminate|]. split; [discriminate|].
  split; [vm_compute; reflexivity|]. split; [vm_compute; reflexivity|].
  destruct (sample Demo.three_sd_map tt 2 None Demo.third true) as [[s|e] []] eqn:Hsample;
    [|vm_compute in Hsample; discriminate].
  exists s. split; [reflexivity|].
  vm_compute in Hsample. injection Hsample as <-. split; reflexivity.
Qed.

Lemma traverse_raise_inv {A B} (f : A -> result B) (l : list A) e e0 :
  (forall a e', f a = Raise e' -> e' = e0) ->
  traverse f l = Raise e -> e = e0.
Proof.
  intros Hexn. induction l as [|a l IH]; simpl; [discriminate|].
  destruct (f a) as [b|e'] eqn:Hfa; simpl.
  - destruct (traverse f l) as [bs|e'']; simpl; [discriminate|].
    intros [= <-]. apply IH. reflexivity.
  - intros [= <-]. eapply Hexn. eassumption.
Qed.

Lemma getitem_raise {A} (l : list A) i e : getitem l i = Raise e -> e = IndexError.
Proof. unfold getitem. destruct (l !! i); [discriminate | intros [= <-]; reflexivity]. Qed.

Lemma store_U_id width s : String.length s <= width -> store_U width s = s.
Proof.
  unfold store_U. revert width. induction s as [|c s IH]; intros width Hlen.
  - destruct width; reflexivity.
  - destruct width as [|width]; simpl in Hlen; [lia|].
    simpl. rewrite IH by lia. reflexivity.
Qed.

Lemma randn_length {G V} `{RandomState G V} (g : G) k : length (randn g k).1 = k.
Proof.
  revert g. induction k as [|k IH]; intros g; simpl; [reflexivity|].
  destruct (random_normal g) as [z g1]. specialize (IH g1).
  destruct (randn g1 k) as [zs g2]. simpl in *. rewrite IH. reflexivity.
Qed.

Section SamplingRows.
Context {V G : Type} `{Numeric V} `{ErrorBounds V} `{RandomState G V} `{Rounding}.
Implicit Types (self : GenotypePhenotypeMap V) (g : G).

(** The [try] block runs to its end when every selected index is within
    the genotypes, the error magnitudes and the centres. *)
Lemma sample_rows_Ok self n_samples stdevs centres random_indices g :
  sampling_stdevs self = Ok stdevs ->
  sampling_centres self = Ok centres ->
  Forall (fun i => i < length (_genotypes self) /\ i < length stdevs /\ i < length centres)
    random_indices ->
  exists grows prows g',
    sample_rows self n_samples random_indices g = (Ok (grows, prows), g') /\
    Forall2 (fun i row => exists s, _genotypes self !! i = Some s /\
                            row = replicate n_samples (store_U (_length self) s))
      random_indices grows /\
    length prows = length random_indices /\
    Forall (fun row => length row = n_samples) prows.
Proof.
  intros Hstdevs Hcentres Hall. revert g.
  induction Hall as [|index rest (Hg & Hs & Hc) _ IH]; intros g.
  - exists [], [], g. repeat split; constructor.
  - destruct (lookup_lt_is_Some_2 _ _ Hg) as [seq0 Hseq0].
    destruct (lookup_lt_is_Some_2 _ _ Hs) as [s0 Hs0].
    destruct (lookup_lt_is_Some_2 _ _ Hc) as [c0 Hc0].
    simpl. rewrite (getitem_Some _ _ _ Hseq0), Hstdevs. simpl.
    rewrite (getitem_Some _ _ _ Hs0). simpl.
    pose proof (randn_length g n_samples) as Hzs.
    destruct (randn g n_samples) as [zs g1]. simpl in Hzs.
    rewrite Hcentres. simpl. rewrite (getitem_Some _ _ _ Hc0).
    destruct (IH g1) as (grows & prows & g2 & -> & Hgrows & Hlen & Hrows).
    eexists _, _, _. split; [reflexivity|].
    split; [constructor; eauto|].
    split; [simpl; rewrite Hlen; reflexivity|].
    constructor; [rewrite length_map; assumption | assumption].
Qed.

(** Without an error view the [try] block raises at the first selected
    index. *)
Lemma sample_rows_Raise self n_samples random_indices g e :
  sampling_stdevs self = Raise e ->
  random_indices <> [] ->
  exists e' g', sample_rows self n_samples random_indices g = (Raise e', g').
Proof.
  intros Hstdevs Hne. destruct random_indices as [|index rest]; [congruence|].
  simpl. destruct (getitem (_genotypes self) index); simpl; [|eauto].
  rewrite Hstdevs. simpl. eauto.
Qed.

(** What [sample] does without an error view once at least one index is
    selected: more than one sample is refused; the fallback for a single
    sample hands one-axis arrays to [Sample], whose constructor indexes
    them along two axes. *)
Lemma sample_degenerate self g n_samples genotypes fraction derived random_indices g1 e :
  sampling_stdevs self = Raise e ->
  select_indices self genotypes fraction derived g = (Ok random_indices, g1) ->
  random_indices <> [] ->
  (sample self g n_samples genotypes fraction derived).1 =
    if n_samples =? 1 then Raise IndexError
    else Raise (PyException "Won't create samples if sample error is not given.").
Proof.
  intros Hstdevs Hsel Hne. unfold sample. rewrite Hsel.
  destruct (sample_rows_Raise self n_samples random_indices g1 e Hstdevs Hne)
    as (e' & g2 & ->).
  destruct (n_samples =? 1); simpl; [|reflexivity].
  destruct (traverse (getitem (_genotypes self)) random_indices) as [gs|e1] eqn:Hgs; simpl.
  - destruct (traverse (getitem (_phenotypes self)) random_indices) as [ps|e2] eqn:Hps;
      simpl; [reflexivity|].
    f_equal. eapply traverse_raise_inv; [|exact Hps]. intros a e3. apply getitem_raise.
  - f_equal. eapply traverse_raise_inv; [|exact Hgs]. intros a e3. apply getitem_raise.
Qed.

End SamplingRows.

Section FullSample.
Context {V G : Type} `{Numeric V} `{ErrorBounds V} `{RandomState G V} `{Rounding}.
Implicit Types (self : GenotypePhenotypeMap V) (g : G).

(** Column 0 of the genotype matrix: the genotype of each row. *)
Lemma column0_rows self n_samples random_indices grows :
  0 < n_samples ->
  Forall2 (fun i row => exists s, _genotypes self !! i = Some s /\
                          row = replicate n_samples (store_U (_length self) s))
    random_indices grows ->
  exists genotypes0,
    column0 (Array2 n_samples grows) = Ok genotypes0 /\
    Forall2 (fun i s0 => exists s, _genotypes self !! i = Some s /\
                           s0 = store_U (_length self) s)
      random_indices genotypes0.
Proof.
  intros Hpos Hrows. unfold column0.
  destruct n_samples as [|k]; [lia|].
  induction Hrows as [|i row idxs rows (s & Hs & ->) _ (gs & Hgs & Hall)]; simpl.
  - exists []. split; [reflexivity | constructor].
  - rewrite Hgs. simpl. eexists. split; [reflexivity|].
    constructor; eauto.
Qed.

(** With [fraction=1.0] and [derived=True] every index is selected, the
    last one being [n-1]. *)
Lemma select_all_indices self g :
  choice_ok -> 0 < _n self ->
  exists random_indices g1,
    select_indices self None 1 true g = (Ok random_indices, g1) /\
    length random_indices = _n self /\
    Forall (fun i => i < _n self) random_indices /\
    last random_indices = Some (_n self - 1).
Proof.
  intros Hchoice Hpos. unfold select_indices.
  change (py_lt 1 0 || py_gt 1 1) with false. cbv iota.
  change 1%Q with (inject_Z 1). rewrite round_whole_product, Z.mul_1_l, Nat2Z.id.
  destruct (Hchoice g (_n self) (_n self)) as [Hlen Hall]; [lia|].
  destruct (random_choice g (_n self) (_n self)) as [chosen g1]. simpl in Hlen, Hall.
  pose proof (merge_sort_length chosen) as Hlen'.
  pose proof (merge_sort_Forall _ _ Hall) as Hall'.
  set (sorted := merge_sort le chosen) in *.
  unfold set_last.
  destruct (length sorted) as [|m] eqn:Hm; [lia|].
  eexists _, _. split; [reflexivity|].
  split; [rewrite length_insert; lia|].
  split.
  - apply Forall_insert; [assumption | lia].
  - rewrite last_lookup, length_insert, Hm. simpl.
    rewrite list_lookup_insert_eq by lia. reflexivity.
Qed.

(** A full sample of a map that has genotypes, error magnitudes and
    centres for each of its [n] indices. *)
Lemma sample_full self g n_samples stdevs centres :
  choice_ok ->
  0 < n_samples -> 0 < _n self ->
  length (_genotypes self) = _n self ->
  sampling_stdevs self = Ok stdevs -> _n self <= length stdevs ->
  sampling_centres self = Ok centres -> _n self <= length centres ->
  exists s g',
    sample self g n_samples None 1 true = (Ok s, g') /\
    shape (replicate_phenotypes s) = [_n self; n_samples] /\
    shape (replicate_genotypes s) = [_n self; n_samples] /\
    length (sample_genotypes s) = _n self /\
    last (sample_indices s) = Some (_n self - 1) /\
    last (sample_genotypes s) =
      store_U (_length self) <$> _genotypes self !! (_n self - 1).
Proof.
  intros Hchoice Hpos Hn Hgen Hstdevs Hs Hcentres Hc.
  destruct (select_all_indices self g Hchoice Hn)
    as (random_indices & g1 & Hsel & Hlen & Hall & Hlast).
  unfold sample. rewrite Hsel.
  destruct (sample_rows_Ok self n_samples stdevs centres random_indices g1 Hstdevs Hcentres)
    as (grows & prows & g2 & -> & Hgrows & Hprows & _).
  { eapply Forall_impl; [exact Hall|]. simpl. intros i Hi. lia. }
  destruct (column0_rows self n_samples random_indices grows Hpos Hgrows)
    as (genotypes0 & Hcol & Hgenotypes0).
  unfold Sample_init. rewrite Hcol. simpl.
  eexists _, _. split; [reflexivity|]. simpl.
  pose proof (Forall2_length _ _ _ Hgrows) as Hlen1.
  pose proof (Forall2_length _ _ _ Hgenotypes0) as Hlen2.
  split; [f_equal; lia|].
  split; [f_equal; lia|].
  split; [lia|].
  split; [assumption|].
  rewrite last_lookup in Hlast.
  destruct (Forall2_lookup_l _ _ _ _ _ Hgenotypes0 Hlast) as (s0 & Hs0 & s & Hlook & ->).
  rewrite last_lookup, <- Hlen2, Hs0, Hlook. reflexivity.
Qed.

(** C5, amended: on a map constructed with standard deviations
    (index-aligned with the genotypes, which all have the map's
    [length]; the error view exposes one magnitude per phenotype),
    [sample(n_samples, genotypes=None, fraction=1.0, derived=True)] with
    [n_samples >= 1] returns a [Sample] whose [replicate_phenotypes] has
    shape [(n, n_samples)] and whose last genotype is
    [genotypes[n-1]]. *)
Theorem C5_full_sample_shape wildtype genotypes phenotypes sd log_transform mutations
    n_replicates logbase0 self g n_samples :
  choice_ok ->
  upper_aligned ->
  0 < n_samples ->
  GenotypePhenotypeMap_init wildtype genotypes phenotypes (Some sd) log_transform
    mutations n_replicates logbase0 = Ok self ->
  length sd = length genotypes ->
  Forall (fun s => String.length s = _length self) (_genotypes self) ->
  exists s g',
    sample self g n_samples None 1 true = (Ok s, g') /\
    shape (replicate_phenotypes s) = [_n self; n_samples] /\
    last (sample_genotypes s) = _genotypes self !! (_n self - 1) /\
    is_Some (_genotypes self !! (_n self - 1)).
Proof.
  intros Hchoice Haligned Hpos Hself Hsd Hwidth.
  destruct (init_Ok_inv _ _ _ _ _ _ _ _ _ Hself)
    as (f & -> & Hne & Hlen & _ & Hgen & Hn & _ & Hlog & _ & _ & Hphen & _ & _ & Herr
        & Hraw & _).
  simpl in Herr, Hraw.
  assert (exists stdevs, sampling_stdevs self = Ok stdevs /\ _n self <= length stdevs)
    as (stdevs & Hstdevs & Hs).
  { unfold sampling_stdevs. rewrite Hlog, Hraw, Herr.
    destruct log_transform; simpl; eexists; (split; [reflexivity|]);
      rewrite Haligned; simpl; rewrite ?length_map; lia. }
  assert (exists centres, sampling_centres self = Ok centres /\ _n self <= length centres)
    as (centres & Hcentres & Hc).
  { unfold sampling_centres. rewrite Hlog, Hraw, Hphen.
    destruct log_transform; simpl; eexists; (split; [reflexivity|]); lia. }
  destruct (sample_full self g n_samples stdevs centres)
    as (s & g' & Hsample & Hshape & _ & _ & _ & Hlast); try assumption; try lia.
  { rewrite Hgen. lia. }
  destruct (lookup_lt_is_Some_2 (_genotypes self) (_n self - 1)) as [s0 Hs0].
  { rewrite Hgen. lia. }
  exists s, g'. split; [assumption|]. split; [assumption|].
  split; [|eauto].
  rewrite Hlast, Hs0. simpl. f_equal. apply store_U_id.
  rewrite Forall_forall in Hwidth.
  rewrite (Hwidth s0); [lia|]. eapply list_elem_of_lookup_2. eassumption.
Qed.

End FullSample.

(** The generator of [Demo] meets the contract of [np.random.choice]. *)
Lemma Demo_choice_ok : @choice_ok unit Z Demo.RandomState_unit.
Proof.
  intros g n k Hk. simpl. split; [apply length_seq|].
  apply Forall_forall. intros i Hi. apply elem_of_seq in Hi. lia.
Qed.

Lemma Demo_upper_aligned : @upper_aligned Z Demo.ErrorBounds_Z.
Proof. intros e Hlen. exact Hlen. Qed.

(** C6, evaluated on the map with wildtype [AA], genotypes [AA, AT, TA,
    TT], phenotypes [1, 2, 2, 4] and no standard deviations: the map has
    no error view; [sample] with [n_samples=1] raises [IndexError], for
    the whole space and for the single genotype [AT] alike, instead of
    returning the recorded values; with [n_samples=5] it raises the
    exception that refuses to sample. *)
Theorem C6_degenerate_sample_raises :
  exists self : GenotypePhenotypeMap Z,
    Demo.plain = Ok self /\
    stdeviations self = None /\ std self = None /\ err self = None /\
    (sample self tt 1 None 1 true).1 = Raise IndexError /\
    (sample self tt 1 (Some ["AT"]) 1 true).1 = Raise IndexError /\
    (sample self tt 5 None 1 true).1 =
      Raise (PyException "Won't create samples if sample error is not given.").
Proof.
  unfold Demo.plain.
  destruct (init_total "AA" Demo.genotypes4 [1; 2; 2; 4]%Z None
              false None 1 Z.log2) as [self Hself]; [simpl; lia | reflexivity |].
  destruct (init_Ok_inv _ _ _ _ _ _ _ _ _ Hself)
    as (f & _ & _ & _ & _ & Hgen & Hn & Hidx & Hlog & _ & _ & _ & Hsd & Hstd & Herr & _).
  simpl in Hstd, Herr.
  assert (sampling_stdevs self = Raise AttributeError) as Hstdevs.
  { unfold sampling_stdevs. rewrite Hlog, Herr. reflexivity. }
  destruct (select_all_indices self tt Demo_choice_ok)
    as (random_indices & g1 & Hsel & Hlen & _); [rewrite Hn; simpl; lia|].
  assert (random_indices <> []) as Hne.
  { intros ->. rewrite Hn in Hlen. discriminate. }
  assert (select_indices self (Some ["AT"]) 1 true tt = (Ok [1], tt)) as Hsel'.
  { unfold select_indices, map_genotypes. rewrite Hgen, Hidx.
    vm_compute. reflexivity. }
  exists self. split; [exact Hself|].
  split; [exact Hsd|]. split; [exact Hstd|]. split; [exact Herr|].
  split; [exact (sample_degenerate self tt 1 None 1 true _ _ _ Hstdevs Hsel Hne)|].
  split.
  - apply (sample_degenerate self tt 1 (Some ["AT"]) 1 true _ _ _ Hstdevs Hsel').
    discriminate.
  - exact (sample_degenerate self tt 5 None 1 true _ _ _ Hstdevs Hsel Hne).
Qed.

(** ** The sub-lattice between two genotypes *)

Lemma length_list_ascii_of_string s :
  length (list_ascii_of_string s) = String.length s.
Proof. induction s as [|c s IH]; simpl; [reflexivity | rewrite IH; reflexivity]. Qed.

Lemma length_join_imap {A B} (f : nat -> A -> list B) (l : list A) m :
  (forall j a, length (f j a) = m) ->
  length (mjoin (imap f l)) = length l * m.
Proof.
  intros Hf. revert f Hf. induction l as [|a l IH]; intros f Hf; [reflexivity|].
  rewrite imap_cons. csimpl. rewrite length_app, Hf, IH; [lia|].
  intros j a'. apply Hf.
Qed.

Lemma site_product_length encoding :
  length (site_product encoding) = foldr (fun alphabet acc => length alphabet * acc) 1 encoding.
Proof.
  induction encoding as [|alphabet rest IH]; simpl; [reflexivity|].
  rewrite (length_join_imap _ _ (length (site_product rest))).
  - rewrite IH. reflexivity.
  - intros j a. apply length_map.
Qed.

(** Between two sequences of the same length, the encoding is the list
    of the per-site alphabets. *)
Lemma encode_binary genotype1 genotype2 :
  String.length genotype1 = String.length genotype2 ->
  encode_mutations genotype1 (binary_mutations_map genotype1 genotype2) =
    zip_with site_alphabet (list_ascii_of_string genotype1) (list_ascii_of_string genotype2).
Proof.
  intros Hlen. unfold encode_mutations, binary_mutations_map.
  rewrite <- !length_list_ascii_of_string in Hlen.
  apply list_eq. intros i.
  rewrite list_lookup_imap, lookup_zip_with.
  destruct (list_ascii_of_string genotype1 !! i) as [a|] eqn:Ha; simpl; [|reflexivity].
  rewrite lookup_map_seq_0, lookup_zip_with, Ha. simpl.
  destruct (list_ascii_of_string genotype2 !! i) as [b|] eqn:Hb; simpl; [reflexivity|].
  apply lookup_lt_Some in Ha. apply lookup_ge_None in Hb. lia.
Qed.

Lemma binary_product (l1 l2 : list ascii) :
  length l1 = length l2 ->
  foldr (fun alphabet acc => length alphabet * acc) 1 (zip_with site_alphabet l1 l2) =
    2 ^ length (filter (fun p : ascii * ascii => p.1 <> p.2) (zip l1 l2)).
Proof.
  revert l2. induction l1 as [|a l1 IH]; intros [|b l2] Hlen; simpl in Hlen;
    try discriminate; [reflexivity|].
  simpl. rewrite IH by lia. unfold site_alphabet.
  destruct (decide (a = b)) as [Heq|Hne].
  - rewrite filter_cons_False by (simpl; intros Hne; apply Hne; exact Heq).
    simpl. lia.
  - rewrite filter_cons_True by exact Hne.
    simpl. lia.
Qed.

(** Two genotypes that differ at [k] sites span [2**k] genotypes. *)
Lemma sublattice_length genotype1 genotype2 :
  String.length genotype1 = String.length genotype2 ->
  length (sublattice genotype1 genotype2) = 2 ^ hamming_distance genotype1 genotype2.
Proof.
  intros Hlen. unfold sublattice, construct_genotypes. simpl.
  rewrite length_map, site_product_length, encode_binary by assumption.
  apply binary_product. rewrite !length_list_ascii_of_string. assumption.
Qed.

(** The members of the product are the sequences that take, at each
    site, one of the symbols of that site. *)
Lemma site_product_elem encoding (cs : list ascii) :
  (exists binary, (cs, binary) ∈ site_product encoding) <->
  Forall2 (fun c alphabet => c ∈ alphabet) cs encoding.
Proof.
  revert cs. induction encoding as [|alphabet rest IH]; intros cs; simpl.
  - split.
    + intros [binary Hin]. apply list_elem_of_singleton in Hin.
      injection Hin as -> _. constructor.
    + intros Hall. inversion Hall. exists []. apply list_elem_of_singleton. reflexivity.
  - split.
    + intros [binary Hin].
      apply list_elem_of_join in Hin. destruct Hin as (row & Hin & Hrow).
      apply elem_of_lookup_imap in Hrow. destruct Hrow as (j & c & -> & Hc).
      apply list_elem_of_fmap in Hin. destruct Hin as ([cs' binary'] & [= -> ->] & Ht).
      simpl. constructor.
      * eapply list_elem_of_lookup_2. eassumption.
      * apply IH. eauto.
    + intros Hall. inversion Hall as [|c alphabet' cs' rest' Hc Hrest]; subst.
      apply IH in Hrest. destruct Hrest as [binary Hin].
      apply list_elem_of_lookup in Hc. destruct Hc as [j Hj].
      exists (j :: binary). apply list_elem_of_join.
      eexists. split; [|apply (elem_of_lookup_imap_2 _ _ _ _ Hj)].
      apply list_elem_of_fmap. exists (cs', binary). split; [reflexivity | assumption].
Qed.

Lemma site_alphabet_elem (a b c : ascii) : c ∈ site_alphabet a b <-> c = a \/ c = b.
Proof.
  unfold site_alphabet. destruct (decide (a = b)) as [<-|Hne].
  - rewrite list_elem_of_singleton. tauto.
  - rewrite elem_of_cons, list_elem_of_singleton. tauto.
Qed.

(** The sub-lattice spanned by two genotypes of the same length consists
    of the sequences that agree, site by site, with one endpoint or the
    other. *)
Lemma sublattice_elem genotype1 genotype2 g :
  String.length genotype1 = String.length genotype2 ->
  g ∈ sublattice genotype1 genotype2 <->
  Forall2 (fun c ends => c = ends.1 \/ c = ends.2)
    (list_ascii_of_string g)
    (zip (list_ascii_of_string genotype1) (list_ascii_of_string genotype2)).
Proof.
  intros Hlen. unfold sublattice, construct_genotypes. cbn [fst].
  rewrite encode_binary by assumption.
  assert (Forall2 (fun c alphabet => c ∈ alphabet) (list_ascii_of_string g)
            (zip_with site_alphabet (list_ascii_of_string genotype1)
               (list_ascii_of_string genotype2)) <->
          Forall2 (fun c ends => c = ends.1 \/ c = ends.2)
            (list_ascii_of_string g)
            (zip (list_ascii_of_string genotype1) (list_ascii_of_string genotype2)))
    as <-.
  { generalize (list_ascii_of_string g) as cs.
    generalize (list_ascii_of_string genotype2) as l2.
    induction (list_ascii_of_string genotype1) as [|a l1 IH]; intros l2 cs.
    - simpl. split; intros Hall; inversion Hall; constructor.
    - destruct l2 as [|b l2]; simpl.
      + split; intros Hall; inversion Hall; constructor.
      + split; intros Hall; inversion Hall; subst; constructor;
          try (apply IH; assumption); apply site_alphabet_elem; assumption. }
  rewrite <- site_product_elem. split.
  - intros Hin. apply list_elem_of_fmap in Hin. destruct Hin as ([cs binary] & -> & Hin).
    simpl. rewrite list_ascii_of_string_of_list_ascii. eauto.
  - intros [binary Hin]. apply list_elem_of_fmap.
    exists (list_ascii_of_string g, binary). split; [|assumption].
    simpl. rewrite string_of_list_ascii_of_string. reflexivity.
Qed.

(** ** Subspaces *)

Section Subspace.
Context {V : Type}.
Implicit Types (parent sub : GenotypePhenotypeMap V).

(** The lookup [subspace] builds on a constructed map goes from the
    map's genotypes to the phenotypes the map was constructed from, and
    comes with the standard deviations it was constructed with. *)
Lemma subspace_lookup wildtype genotypes phenotypes stdeviations0 log_transform mutations
    n_replicates logbase0 parent :
  GenotypePhenotypeMap_init wildtype genotypes phenotypes stdeviations0 log_transform
    mutations n_replicates logbase0 = Ok parent ->
  (if _log_transform parent then
     do raw <- getattr (Raw parent);
     do mapping <- map_genotypes parent (raw_phenotypes raw);
     do sd <- getattr (raw_stdeviations raw);
     Ok (mapping, sd)
   else
     do mapping <- map_genotypes parent (_phenotypes parent);
     Ok (mapping, stdeviations parent)) =
  Ok (list_to_map (reverse (zip genotypes phenotypes)), stdeviations0).
Proof.
  intros Hparent.
  destruct (init_Ok_inv _ _ _ _ _ _ _ _ _ Hparent)
    as (f & _ & _ & Hlen & _ & Hgen & _ & _ & Hlog & _ & _ & Hphen & Hsd & _ & _
        & Hraw & _).
  unfold map_genotypes. rewrite Hlog, Hraw, Hgen, Hphen, Hsd.
  destruct log_transform; simpl; rewrite _map_Ok by lia; reflexivity.
Qed.

(** C3, amended: for a constructed parent map and two genotypes of the same
    length that differ at [k] sites, the sub-lattice they span has
    [2**k] genotypes; when all of them are genotypes of the parent,
    [subspace] returns a map over exactly these genotypes, with
    [genotype1] as wildtype, whose phenotype at each genotype is the
    parent's phenotype at an index holding the same genotype; when one
    of them is not a genotype of the parent, [subspace] raises
    [KeyError]. *)
Theorem C3_subspace_of_sublattice wildtype genotypes phenotypes stdeviations0 log_transform
    mutations n_replicates logbase0 parent genotype1 genotype2 k :
  GenotypePhenotypeMap_init wildtype genotypes phenotypes stdeviations0 log_transform
    mutations n_replicates logbase0 = Ok parent ->
  String.length genotype1 = String.length genotype2 ->
  hamming_distance genotype1 genotype2 = k ->
  length (sublattice genotype1 genotype2) = 2 ^ k /\
  (Forall (fun g => g ∈ _genotypes parent) (sublattice genotype1 genotype2) ->
   exists sub,
     subspace parent genotype1 genotype2 = Ok sub /\
     _genotypes sub = sublattice genotype1 genotype2 /\
     _n sub = 2 ^ k /\
     length (_genotypes sub) = 2 ^ k /\
     length (_phenotypes sub) = 2 ^ k /\
     _wildtype sub = genotype1 /\
     forall i g, _genotypes sub !! i = Some g ->
       exists j v,
         _genotypes parent !! j = Some g /\
         _phenotypes parent !! j = Some v /\
         _phenotypes sub !! i = Some v) /\
  (~ Forall (fun g => g ∈ _genotypes parent) (sublattice genotype1 genotype2) ->
   subspace parent genotype1 genotype2 = Raise KeyError).
Proof.
  intros Hparent Hsame Hk.
  pose proof (sublattice_length genotype1 genotype2 Hsame) as Hsize.
  rewrite Hk in Hsize.
  split; [exact Hsize|].
  pose proof (subspace_lookup _ _ _ _ _ _ _ _ _ Hparent) as Hlookup.
  destruct (init_Ok_inv _ _ _ _ _ _ _ _ _ Hparent)
    as (f & -> & _ & Hlen & _ & Hgen & _ & _ & Hlog & Hbase & Hrep & Hphen & _).
  set (mapping := list_to_map (reverse (zip genotypes phenotypes)) : gmap string V)
    in Hlookup.
  assert (_map genotypes phenotypes = Ok mapping) as Hmap by (apply _map_Ok; lia).
  assert (forall g, (exists v, dict_get mapping g = Ok v) <-> g ∈ genotypes) as Hdom.
  { intros g. split.
    - intros [v Hv]. apply dict_get_Ok in Hv.
      destruct (_map_lookup _ _ _ _ _ (eq_sym Hlen) Hmap Hv) as (j & Hj & _).
      eapply list_elem_of_lookup_2. eassumption.
    - intros Hg. destruct (_map_is_Some _ _ _ g (eq_sym Hlen) Hmap Hg) as [v Hv].
      exists v. apply dict_get_Ok. assumption. }
  unfold sublattice in *.
  destruct (construct_genotypes
              (encode_mutations genotype1 (binary_mutations_map genotype1 genotype2)))
    as [lattice binary] eqn:Hlattice.
  cbn [fst] in *.
  unfold subspace. rewrite Hlookup, Hlattice. cbn [bind fst snd].
  rewrite Hgen. split.
  - intros Hall.
    destruct (traverse_total (dict_get mapping) lattice) as [values Hvalues].
    { eapply Forall_impl; [exact Hall|]. intros g Hg. apply Hdom. assumption. }
    rewrite Hvalues. cbn [bind].
    pose proof (traverse_length _ _ _ Hvalues) as Hlen'.
    destruct (init_total genotype1 lattice values stdeviations0 (_log_transform parent)
                (Some (binary_mutations_map genotype1 genotype2))
                (_n_replicates parent) (logbase parent)) as [sub Hinit].
    { rewrite Hsize. apply Nat.lt_le_trans with (2 ^ 0); [simpl; lia|].
      apply Nat.pow_le_mono_r; lia. }
    { assumption. }
    destruct (init_Ok_inv _ _ _ _ _ _ _ _ _ Hinit)
      as (f' & [= <-] & _ & _ & Hw & Hgen' & Hn' & _ & _ & _ & _ & Hphen' & _).
    exists sub. split; [exact Hinit|].
    split; [exact Hgen'|]. split; [rewrite Hn'; exact Hsize|].
    split; [rewrite Hgen'; exact Hsize|].
    split.
    { rewrite Hphen'. destruct (_log_transform parent);
        rewrite ?length_map, Hlen'; exact Hsize. }
    split; [exact Hw|].
    intros i g Hi. rewrite Hgen' in Hi.
    destruct (traverse_lookup _ _ _ _ _ Hvalues Hi) as (v & Hv & Hvi).
    apply dict_get_Ok in Hv.
    destruct (_map_lookup _ _ _ _ _ (eq_sym Hlen) Hmap Hv) as (j & Hj & Hpj).
    rewrite Hphen', Hphen, Hlog, Hbase.
    destruct log_transform.
    + exists j, (f v). split; [exact Hj|].
      rewrite !list_lookup_fmap, Hpj, Hvi. split; reflexivity.
    + exists j, v. split; [exact Hj|]. split; assumption.
  - intros Hnot.
    rewrite (traverse_raise (dict_get mapping) lattice KeyError); [reflexivity | |].
    + intros g e. apply dict_get_raise.
    + intros Hall. apply Hnot. eapply Forall_impl; [exact Hall|].
      intros g Hg. apply Hdom. assumption.
Qed.

End Subspace.

(** C5 fails for [n_samples=0]: on the map [Demo.plain_sd_map], which
    has an error view, [sample(0, genotypes=None, fraction=1.0,
    derived=True)] fills two matrices of shape [(4, 0)] and [Sample]
    then raises [IndexError] on their column 0.  It also fails on a map
    with an error view that is not as the constructor left it: once
    [log_transform] is set on [Demo.plain_sd_map], [sample] looks for
    the raw view and refuses to sample. *)
Lemma C5_counterexample :
  Demo.plain_sd = Ok Demo.plain_sd_map /\
  is_Some (err Demo.plain_sd_map) /\
  (sample Demo.plain_sd_map tt 0 None 1 true).1 = Raise IndexError /\
  is_Some (err (log_transform_setter Demo.plain_sd_map true)) /\
  (sample (log_transform_setter Demo.plain_sd_map true) tt 3 None 1 true).1 =
    Raise (PyException "Won't create samples if sample error is not given.").
Proof.
  split; [reflexivity|]. split; [eexists; reflexivity|].
  split; [vm_compute; reflexivity|]. split; [eexists; reflexivity|].
  vm_compute. reflexivity.
Qed.

(** C3 fails on a parent that is not as the constructor left it: once
    [log_transform] is set on [Demo.plain_sd_map], which holds the whole
    sub-lattice between [AA] and [TT], [subspace] looks for the raw view
    and raises [AttributeError]: neither a map nor [KeyError]. *)
Lemma C3_counterexample :
  reachable (fun _ _ => True) (log_transform_setter Demo.plain_sd_map true) /\
  String.length "AA" = String.length "TT" /\
  hamming_distance "AA" "TT" = 2 /\
  Forall (fun g => g ∈ _genotypes (log_transform_setter Demo.plain_sd_map true))
    (sublattice "AA" "TT") /\
  subspace (log_transform_setter Demo.plain_sd_map true) "AA" "TT" = Raise AttributeError.
Proof.
  split.
  { apply (reachable_assign _ Demo.plain_sd_map (SetLogTransform true)).
    - apply (reachable_init _ "AA" Demo.genotypes4 [1; 2; 2; 4]%Z (Some [1; 1; 1; 2]%Z)
               false None 4 (Callable Z.log2)). reflexivity.
    - exact I.
    - reflexivity. }
  split; [reflexivity|]. split; [vm_compute; reflexivity|].
  split; [apply (bool_decide_unpack _); vm_compute; reflexivity|].
  reflexivity.
Qed.

(** A sample of no genotype never reaches the error view: it returns an
    empty [Sample], with or without standard deviations, also when more
    than one sample is asked for. *)
Remark sample_of_no_genotype :
  match (sample Demo.plain_map tt 5 (Some []) 1 true).1 with
  | Ok s => shape (replicate_phenotypes s) = [0; 5] /\ sample_genotypes s = []
  | Raise _ => False
  end.
Proof. vm_compute. split; reflexivity. Qed.

(** * Instances on the concrete maps *)

(** C2 on [Demo.logged_map], assigned the phenotypes [1, 2, 4, 8]. *)
Lemma C2_witness :
  _log_transform Demo.logged_map = true /\
  length [1; 2; 4; 8]%Z = length (_genotypes Demo.logged_map) /\
  exists self' raw,
    phenotypes_setter Demo.logged_map (ByArray [1; 2; 4; 8]%Z) = Ok self' /\
    Raw self' = Some raw /\
    raw_phenotypes raw = [1; 2; 4; 8]%Z /\
    _phenotypes self' = map (logbase self') [1; 2; 4; 8]%Z.
Proof.
  split; [reflexivity|]. split; [reflexivity|].
  destruct (C2_raw_view_and_log_phenotypes Demo.logged_map [1; 2; 4; 8]%Z
              eq_refl eq_refl) as (self' & raw & Hset & Hraw & Hvalues & _ & Hphen & _).
  exists self', raw. repeat split; assumption.
Defined.

(** C3 on [Demo.plain_map], between the genotypes [AT] and [TA], which
    differ at both sites and span the whole map. *)
Lemma C3_witness :
  GenotypePhenotypeMap_init "AA" Demo.genotypes4 [1; 2; 2; 4]%Z None false None 1
    (Callable Z.log2) = Ok Demo.plain_map /\
  String.length "AT" = String.length "TA" /\
  hamming_distance "AT" "TA" = 2 /\
  Forall (fun g => g ∈ _genotypes Demo.plain_map) (sublattice "AT" "TA") /\
  length (sublattice "AT" "TA") = 2 ^ 2 /\
  exists sub,
    subspace Demo.plain_map "AT" "TA" = Ok sub /\
    _n sub = 2 ^ 2 /\
    _wildtype sub = "AT".
Proof.
  assert (Forall (fun g => g ∈ _genotypes Demo.plain_map) (sublattice "AT" "TA")) as Hall.
  { apply (bool_decide_unpack _). vm_compute. reflexivity. }
  split; [reflexivity|]. split; [reflexivity|]. split; [vm_compute; reflexivity|].
  split; [exact Hall|].
  destruct (C3_subspace_of_sublattice "AA" Demo.genotypes4 [1; 2; 2; 4]%Z None false None 1
              (Callable Z.log2) Demo.plain_map "AT" "TA" 2 eq_refl eq_refl eq_refl)
    as (Hsize & Hok & _).
  split; [exact Hsize|].
  destruct (Hok Hall) as (sub & Hsub & _ & Hn & _ & _ & Hw & _).
  exists sub. repeat split; assumption.
Defined.

(** C4, amended, on [Demo.plain_sd_map], which is not log-transformed. *)
Lemma C4_witness :
  GenotypePhenotypeMap_init "AA" Demo.genotypes4 [1; 2; 2; 4]%Z (Some [1; 1; 1; 2]%Z)
    false None 4 (Callable Z.log2) = Ok Demo.plain_sd_map /\
  exists self1 self2,
    phenotypes_setter Demo.plain_sd_map (ByArray (_phenotypes Demo.plain_sd_map)) = Ok self1 /\
    phenotypes_setter self1 (ByArray (_phenotypes self1)) = Ok self2 /\
    std self2 = std Demo.plain_sd_map /\
    err self2 = err Demo.plain_sd_map /\
    Raw self2 = Raw Demo.plain_sd_map /\
    bin_phenotypes <$> Binary self2 = bin_phenotypes <$> Binary Demo.plain_sd_map.
Proof.
  split; [reflexivity|].
  destruct (C4_reassigning_phenotypes "AA" Demo.genotypes4 [1; 2; 2; 4]%Z
              (Some [1; 1; 1; 2]%Z) false None 4 (Callable Z.log2) Demo.plain_sd_map eq_refl)
    as (self1 & self2 & Hset1 & Hset2 & Hstd & Herr & Hplain).
  destruct (Hplain eq_refl) as (Hraw & _ & Hbin).
  exists self1, self2. repeat split; assumption.
Defined.

(** C5, amended, on [Demo.logged_map] with three samples per genotype. *)
Lemma C5_witness :
  @choice_ok unit Z Demo.RandomState_unit /\
  @upper_aligned Z Demo.ErrorBounds_Z /\
  0 < 3 /\
  GenotypePhenotypeMap_init "AA" Demo.genotypes4 [4; 16; 16; 256]%Z (Some [1; 1; 1; 2]%Z)
    true None 4 (Callable Z.log2) = Ok Demo.logged_map /\
  length [1; 1; 1; 2]%Z = length Demo.genotypes4 /\
  Forall (fun s => String.length s = _length Demo.logged_map) (_genotypes Demo.logged_map) /\
  exists s g',
    sample Demo.logged_map tt 3 None 1 true = (Ok s, g') /\
    shape (replicate_phenotypes s) = [_n Demo.logged_map; 3] /\
    last (sample_genotypes s) = Some "TT".
Proof.
  assert (Forall (fun s => String.length s = _length Demo.logged_map)
            (_genotypes Demo.logged_map)) as Hwidth.
  { repeat constructor. }
  split; [exact Demo_choice_ok|]. split; [exact Demo_upper_aligned|].
  split; [lia|]. split; [reflexivity|]. split; [reflexivity|]. split; [exact Hwidth|].
  destruct (C5_full_sample_shape "AA" Demo.genotypes4 [4; 16; 16; 256]%Z [1; 1; 1; 2]%Z
              true None 4 (Callable Z.log2) Demo.logged_map tt 3
              Demo_choice_ok Demo_upper_aligned (Nat.lt_0_succ 2)
              eq_refl eq_refl Hwidth)
    as (s & g' & Hsample & Hshape & Hlast & _).
  exists s, g'. repeat split; assumption.
Defined.

(** C7 on [Demo.plain_map]: an array of four values, an array of one
    value, and a dict over the four genotypes. *)
Lemma C7_witness :
  _n Demo.plain_map = length (_genotypes Demo.plain_map) /\
  (exists self',
     phenotypes_setter Demo.plain_map (ByArray [5; 6; 7; 8]%Z) = Ok self' /\
     _phenotypes self' = [5; 6; 7; 8]%Z) /\
  phenotypes_setter Demo.plain_map (ByArray [5]%Z) =
    Raise (ValueError "Number of phenotypes does not equal number of genotypes.") /\
  (exists values self',
     phenotypes_setter Demo.plain_map
       (ByDict (list_to_map [("TT", 8); ("TA", 7); ("AT", 6); ("AA", 5)]%Z)) = Ok self' /\
     _phenotypes self' = values /\
     values !! 0 = Some 5%Z).
Proof.
  split; [reflexivity|].
  destruct (C7_setter_accepts_dict_or_aligned_array Demo.plain_map eq_refl)
    as [Hdict Harray].
  split; [|split].
  - destruct (Harray [5; 6; 7; 8]%Z) as [_ Hok].
    destruct (Hok eq_refl) as (self' & Hset & _ & Hphen & _).
    exists self'. split; assumption.
  - apply (Harray [5]%Z). simpl. lia.
  - destruct (Hdict (list_to_map [("TT", 8); ("TA", 7); ("AT", 6); ("AA", 5)]%Z))
      as (values & self' & _ & _ & Hlookup & Hset & _ & Hphen & _).
    { apply (bool_decide_unpack _). vm_compute. reflexivity. }
    exists values, self'. split; [assumption|]. split; [assumption|].
    rewrite (Hlookup 0 "AA" eq_refl). vm_compute. reflexivity.
Defined.

(** C8, amended, on [Demo.plain_map] as constructed. *)
Lemma C8_witness :
  reachable keeps_count Demo.plain_map /\
  length (_genotypes Demo.plain_map) = _n Demo.plain_map /\
  _indices Demo.plain_map = seq 0 (_n Demo.plain_map) /\
  length (complete_genotypes Demo.plain_map) =
    length (_genotypes Demo.plain_map) + length (_missing_genotypes Demo.plain_map) /\
  length (_phenotypes Demo.plain_map) = _n Demo.plain_map.
Proof.
  assert (reachable keeps_count Demo.plain_map) as Hreach.
  { apply (reachable_init _ "AA" Demo.genotypes4 [1; 2; 2; 4]%Z None false None 1
             (Callable Z.log2)). reflexivity. }
  split; [exact Hreach|].
  destruct (C8_size_invariants keeps_count Demo.plain_map Hreach)
    as ((Hn & Hidx & _ & Hsize) & Hphen).
  split; [exact Hn|]. split; [exact Hidx|]. split; [exact Hsize|].
  apply Hphen. intros s a Hkeeps. exact Hkeeps.
Defined.

(** C9 on [Demo.plain_map] with the fraction 3/2. *)
Lemma C9_witness :
  ((3 # 2) < 0 \/ 1 < (3 # 2))%Q /\
  sample Demo.plain_map tt 1 None (3 # 2) true =
    (Raise (PyException "fraction is invalid."), tt).
Proof.
  split; [right; reflexivity|].
  apply C9_fraction_out_of_range. right. reflexivity.
Defined.

(** C10, amended, on [Demo.plain_sd_map] (four genotypes) with the
    fractions 1/8 and 0. *)
Lemma C10_witness :
  @choice_ok unit Z Demo.RandomState_unit /\
  (0 <= 1 # 8)%Q /\ (1 # 8 <= 1)%Q /\
  py_int (round_double ((1 # 8) * inject_Z (Z.of_nat (_n Demo.plain_sd_map)))) = 0%Z /\
  (sample Demo.plain_sd_map tt 1 None (1 # 8) true).1 = Raise IndexError /\
  (sample Demo.plain_sd_map tt 1 None 0 true).1 = Raise IndexError.
Proof.
  assert (0 <= 1 # 8)%Q as Hlow by discriminate.
  assert (1 # 8 <= 1)%Q as Hhigh by discriminate.
  assert (py_int (round_double ((1 # 8) * inject_Z (Z.of_nat (_n Demo.plain_sd_map)))) = 0%Z)
    as Hzero by (vm_compute; reflexivity).
  split; [exact Demo_choice_ok|]. split; [exact Hlow|]. split; [exact Hhigh|].
  split; [exact Hzero|].
  destruct (C10_empty_selection_raises Demo.plain_sd_map tt 1 Demo_choice_ok)
    as [Hnone Hsmall].
  split; [exact (Hsmall (1 # 8) Hlow Hhigh Hzero)|exact Hnone].
Defined.

(** * Further properties of the code *)

(** ** [BaseMap._map] and [BaseMap._if_dict] *)

Lemma zip_take_r {A B} (l : list A) (k : list B) :
  zip l (take (length l) k) = zip l k.
Proof.
  revert k. induction l as [|a l IH]; intros [|b k]; simpl; try reflexivity.
  rewrite IH. reflexivity.
Qed.

Lemma _map_Ok_le {A} (keys : list string) (values : list A) :
  length keys <= length values ->
  _map keys values = Ok (list_to_map (reverse (zip keys values))).
Proof.
  intros Hlen. unfold _map. rewrite traverse_pairs by assumption.
  rewrite zip_take_r. reflexivity.
Qed.

(** X1: with distinct keys and at least as many values, [_map] returns a
    dict that sends each key to the value at the same index and has no
    other key; values beyond the keys are ignored. *)
Theorem X1_map_lookup_roundtrip {A} (keys : list string) (values : list A) :
  NoDup keys ->
  length keys <= length values ->
  exists m,
    _map keys values = Ok m /\
    (forall i k, keys !! i = Some k -> m !! k = values !! i) /\
    (forall k, m !! k = None <-> k ∉ keys) /\
    size m = length keys.
Proof.
  intros Hnodup Hlen. rewrite _map_Ok_le by assumption.
  eexists. split; [reflexivity|].
  assert ((reverse (zip keys values)).*1 = reverse keys) as Hfst.
  { rewrite fmap_reverse, fst_zip by assumption. reflexivity. }
  assert (NoDup (reverse (zip keys values)).*1) as Hnodup'.
  { rewrite Hfst, reverse_Permutation. assumption. }
  split; [|split].
  - intros i k Hk.
    destruct (lookup_lt_is_Some_2 values i) as [v Hv].
    { apply lookup_lt_Some in Hk. lia. }
    rewrite Hv. apply elem_of_list_to_map; [assumption|].
    rewrite elem_of_reverse. apply list_elem_of_lookup. exists i.
    apply lookup_zip_with_Some. eauto.
  - intros k. rewrite <- not_elem_of_list_to_map, Hfst, elem_of_reverse. reflexivity.
  - rewrite map_size_list_to_map by assumption.
    rewrite length_reverse, length_zip_with. lia.
Qed.

(** X2: a later pair with the same key replaces an earlier one: the
    dict sends a key to the value at the index of its last
    occurrence. *)
Theorem X2_map_last_occurrence_wins {A} (keys1 keys2 : list string) (k : string)
    (values1 values2 : list A) (v : A) :
  length keys1 = length values1 ->
  length keys2 <= length values2 ->
  k ∉ keys2 ->
  exists m,
    _map (keys1 ++ k :: keys2) (values1 ++ v :: values2) = Ok m /\
    m !! k = Some v.
Proof.
  intros Hlen1 Hlen2 Hlast.
  rewrite _map_Ok_le by (rewrite !length_app; simpl; lia).
  eexists. split; [reflexivity|].
  rewrite zip_with_app by assumption. simpl.
  rewrite reverse_app, reverse_cons, <- app_assoc. simpl.
  rewrite list_to_map_app. apply lookup_union_Some_raw. right. split.
  - apply not_elem_of_list_to_map.
    rewrite fmap_reverse, elem_of_reverse, fst_zip by assumption. assumption.
  - simpl. apply lookup_insert_eq.
Qed.

(** X3: with fewer values than keys, [_map] raises [IndexError]. *)
Theorem X3_map_short_values_raise {A} (keys : list string) (values : list A) :
  length values < length keys ->
  _map keys values = Raise IndexError.
Proof.
  intros Hlen. unfold _map.
  rewrite (traverse_raise _ _ IndexError); [reflexivity | |].
  - intros i e. destruct (getitem keys i) as [k|e1] eqn:Hk; simpl.
    + destruct (getitem values i) as [v|e2] eqn:Hv; simpl; [discriminate|].
      intros [= <-]. eapply getitem_raise. eassumption.
    + intros [= <-]. eapply getitem_raise. eassumption.
  - intros Hall. rewrite Forall_forall in Hall.
    destruct (Hall (length values)) as [[k v] Hkv].
    { apply elem_of_seq. lia. }
    destruct (getitem keys (length values)); simpl in Hkv; [|discriminate].
    unfold getitem in Hkv. rewrite lookup_ge_None_2 in Hkv by lia. discriminate.
Qed.

Lemma traverse_raise_in {A B} (f : A -> result B) (l : list A) e :
  (forall a e', a ∈ l -> f a = Raise e' -> e' = e) ->
  ~ Forall (fun a => exists b, f a = Ok b) l ->
  traverse f l = Raise e.
Proof.
  induction l as [|a l IH]; intros Hexn Hnot; simpl.
  - destruct Hnot. constructor.
  - destruct (f a) as [b|e'] eqn:Hfa; simpl.
    + rewrite IH; [reflexivity | |].
      * intros a' e' Ha'. apply Hexn. apply list_elem_of_further. assumption.
      * intros Hall. apply Hnot. constructor; eauto.
    + rewrite (Hexn a e' (list_elem_of_here _ _) Hfa). reflexivity.
Qed.

Lemma traverse_ext_in {A B} (f1 f2 : A -> result B) (l : list A) :
  (forall a, a ∈ l -> f1 a = f2 a) -> traverse f1 l = traverse f2 l.
Proof.
  induction l as [|a l IH]; intros Hext; simpl; [reflexivity|].
  rewrite (Hext a (list_elem_of_here _ _)), IH; [reflexivity|].
  intros a' Ha'. apply Hext. apply list_elem_of_further. assumption.
Qed.

Section IfDict.
Context {V : Type}.
Implicit Types (self : GenotypePhenotypeMap V) (dictionary : gmap string V).

(** X4: when a genotype of the map is not a key of the dict, [_if_dict]
    and the phenotypes setter raise [KeyError]; keys of the dict that
    are not genotypes of the map play no role. *)
Theorem X4_if_dict_missing_key self :
  _n self = length (_genotypes self) ->
  (forall dictionary,
     ~ Forall (fun g => is_Some (dictionary !! g)) (_genotypes self) ->
     _if_dict self dictionary = Raise KeyError /\
     phenotypes_setter self (ByDict dictionary) = Raise KeyError) /\
  (forall dictionary dictionary',
     Forall (fun g => dictionary !! g = dictionary' !! g) (_genotypes self) ->
     _if_dict self dictionary = _if_dict self dictionary').
Proof.
  intros Hn.
  assert (forall i, i ∈ seq 0 (_n self) -> exists g, _genotypes self !! i = Some g)
    as Hwithin.
  { intros i Hi. apply elem_of_seq in Hi. apply lookup_lt_is_Some_2. lia. }
  split.
  - intros dictionary Hmissing.
    assert (_if_dict self dictionary = Raise KeyError) as Hraise.
    { unfold _if_dict. apply traverse_raise_in.
      - intros i e Hi. destruct (Hwithin i Hi) as [g Hg].
        rewrite (getitem_Some _ _ _ Hg). simpl. apply dict_get_raise.
      - intros Hall. apply Hmissing. apply Forall_lookup. intros i g Hg.
        rewrite Forall_forall in Hall.
        destruct (Hall i) as [v Hv].
        { apply elem_of_seq. rewrite Hn. apply lookup_lt_Some in Hg. lia. }
        rewrite (getitem_Some _ _ _ Hg) in Hv. simpl in Hv.
        apply dict_get_Ok in Hv. eauto. }
    split; [exact Hraise|].
    unfold phenotypes_setter. simpl. rewrite Hraise. reflexivity.
  - intros dictionary dictionary' Hagree. unfold _if_dict.
    apply traverse_ext_in. intros i Hi. destruct (Hwithin i Hi) as [g Hg].
    rewrite (getitem_Some _ _ _ Hg). simpl.
    rewrite Forall_forall in Hagree. unfold dict_get.
    rewrite (Hagree g); [reflexivity|]. eapply list_elem_of_lookup_2. eassumption.
Qed.

End IfDict.

(** ** Failures of the constructor *)

Section ConstructorFailures.
Context {V : Type}.
Implicit Types (self : GenotypePhenotypeMap V).

(** X5: with a mutations dict given, the constructor raises its
    "Logbase must be a callable" exception for a [logbase] that is not
    callable, whatever the other arguments; with a callable one it
    raises [IndexError] for an empty list of genotypes, and the
    length-mismatch [ValueError] for a non-empty list of genotypes with
    another number of phenotypes. *)
Theorem X5_constructor_failures wildtype genotypes phenotypes stdeviations0 log_transform
    (mutations : gmap nat (list ascii)) n_replicates :
  GenotypePhenotypeMap_init (V:=V) wildtype genotypes phenotypes stdeviations0 log_transform
    (Some mutations) n_replicates NotCallable =
    Raise (PyException
      "Logbase must be a callable function to transform             phenotypes.(i.e. np.log(...)).") /\
  (forall f,
     GenotypePhenotypeMap_init wildtype [] phenotypes stdeviations0 log_transform
       (Some mutations) n_replicates (Callable f) = Raise IndexError) /\
  (forall f,
     genotypes <> [] ->
     length phenotypes <> length genotypes ->
     GenotypePhenotypeMap_init wildtype genotypes phenotypes stdeviations0 log_transform
       (Some mutations) n_replicates (Callable f) =
       Raise (ValueError "Number of phenotypes does not equal number of genotypes.")).
Proof.
  split; [reflexivity|]. split; [reflexivity|].
  intros f Hne Hlen. unfold GenotypePhenotypeMap_init. simpl.
  unfold genotypes_setter. destruct genotypes as [|g0 genotypes]; [congruence|]. simpl.
  unfold phenotypes_setter, resolve_phenotypes. simpl.
  apply Nat.eqb_neq in Hlen. simpl in Hlen. rewrite Hlen. reflexivity.
Qed.

(** X6: [_construct_errors] fails only on a log-transformed map without
    a raw view: with standard deviations it raises its "RawMap must be
    initialized" exception, without them [AttributeError].  After a
    phenotypes assignment that returned normally it always succeeds. *)
Theorem X6_construct_errors_needs_raw_view self :
  (_log_transform self = true -> Raw self = None ->
   (forall sd, _construct_errors self (Some sd) =
      Raise (PyException
        "A RawMap must be initialized as an attribute before we can transform the errors.")) /\
   _construct_errors self None = Raise AttributeError) /\
  (forall phenotypes self' stdeviations0,
     phenotypes_setter self phenotypes = Ok self' ->
     exists self'',
       _construct_errors self' stdeviations0 = Ok self'' /\
       stdeviations self'' = stdeviations0 /\
       _phenotypes self'' = _phenotypes self' /\
       (is_Some stdeviations0 -> is_Some (std self'') /\ is_Some (err self''))).
Proof.
  split.
  - intros Hlog Hraw. unfold _construct_errors. rewrite Hlog, Hraw. split; reflexivity.
  - intros phenotypes self' stdeviations0 Hset.
    unfold phenotypes_setter in Hset.
    destruct (resolve_phenotypes self phenotypes) as [values|]; simpl in Hset;
      [|discriminate].
    injection Hset as <-. unfold _construct_errors. simpl.
    destruct stdeviations0 as [sd|], (_log_transform self); simpl;
      eexists; (split; [reflexivity|]); simpl;
      (split; [reflexivity|]); (split; [reflexivity|]); intros [sd' Hsd];
      try discriminate; split; eexists; reflexivity.
Qed.

End ConstructorFailures.

(** ** What assignments keep and what they leave behind *)

Section Assignments.
Context {V : Type}.
Implicit Types (self : GenotypePhenotypeMap V).

(** X7: the phenotypes setter does not rebuild the uncertainty views.
    On a map constructed with standard deviations, after new phenotypes
    were assigned the map's phenotypes are the new ones (their [logbase]
    when log-transformed), while [std] and [err] are still the views
    built from the phenotypes given to the constructor. *)
Theorem X7_setter_keeps_old_uncertainty wildtype genotypes phenotypes sd log_transform
    mutations n_replicates f self values :
  GenotypePhenotypeMap_init wildtype genotypes phenotypes (Some sd) log_transform
    mutations n_replicates (Callable f) = Ok self ->
  length values = length genotypes ->
  exists self',
    phenotypes_setter self (ByArray values) = Ok self' /\
    _phenotypes self' = (if log_transform then map f values else values) /\
    std self' = Some (built_std phenotypes log_transform f sd) /\
    err self' = Some (built_err phenotypes log_transform n_replicates f sd).
Proof.
  intros Hself Hlen.
  destruct (init_Ok_inv _ _ _ _ _ _ _ _ _ Hself)
    as (f' & [= <-] & _ & _ & _ & Hgen & _ & _ & Hlog & Hbase & _ & _ & _ & Hstd & Herr & _).
  destruct (phenotypes_setter_resolved self (ByArray values) values)
    as (self' & Hset & _ & _ & _ & _ & _ & _ & Hstd' & Herr' & Hphen' & _).
  { apply resolve_array. rewrite Hgen. assumption. }
  exists self'. split; [assumption|].
  rewrite Hlog, Hbase in Hphen'. split; [assumption|].
  rewrite Hstd', Herr', Hstd, Herr. split; reflexivity.
Qed.

(** X8: on every map a program can hold, the binary view exists and its
    phenotypes are the map's phenotypes. *)
Theorem X8_binary_view_mirrors_phenotypes
    (allowed : GenotypePhenotypeMap V -> assignment V -> Prop) self :
  reachable allowed self ->
  exists b, Binary self = Some b /\ bin_phenotypes b = _phenotypes self.
Proof.
  induction 1 as [wildtype genotypes phenotypes stdeviations0 log_transform
                    mutations n_replicates logbase0 self Hself
                 | self a self' _ (b & Hb & Hmirror) _ Hstep].
  - destruct (init_Ok_inv _ _ _ _ _ _ _ _ _ Hself)
      as (f & _ & _ & _ & _ & _ & _ & _ & _ & _ & _ & Hphen & _ & _ & _ & _ & Hbin).
    eexists. split; [exact Hbin|]. simpl. rewrite Hphen. reflexivity.
  - destruct a as [l|p|w|m|lt|k]; simpl in Hstep.
    + unfold genotypes_setter in Hstep.
      destruct (getitem l 0); simpl in Hstep; [|discriminate].
      injection Hstep as <-. simpl. eauto.
    + unfold phenotypes_setter in Hstep.
      destruct (resolve_phenotypes self p) as [values|]; simpl in Hstep; [|discriminate].
      injection Hstep as <-. simpl. rewrite Hb. eexists. split; reflexivity.
    + injection Hstep as <-. simpl. eauto.
    + injection Hstep as <-. simpl. eauto.
    + injection Hstep as <-. simpl. eauto.
    + injection Hstep as <-. simpl. eauto.
Qed.

(** X9: as long as [log_transform] is not re-assigned, a map has a raw
    view exactly when it is log-transformed, and its phenotypes are then
    [logbase] of the raw phenotypes, element by element. *)
Theorem X9_phenotypes_are_log_of_raw
    (allowed : GenotypePhenotypeMap V -> assignment V -> Prop) self :
  (forall s a, allowed s a -> forall boolean, a <> SetLogTransform boolean) ->
  reachable allowed self ->
  if _log_transform self then
    exists raw, Raw self = Some raw /\
                _phenotypes self = map (logbase self) (raw_phenotypes raw)
  else Raw self = None.
Proof.
  intros Hallowed.
  induction 1 as [wildtype genotypes phenotypes stdeviations0 log_transform
                    mutations n_replicates logbase0 self Hself
                 | self a self' _ IH Ha Hstep].
  - destruct (init_Ok_inv _ _ _ _ _ _ _ _ _ Hself)
      as (f & _ & _ & _ & _ & _ & _ & _ & Hlog & Hbase & _ & Hphen & _ & _ & _ & Hraw & _).
    rewrite Hlog, Hraw, Hphen, Hbase. destruct log_transform; [|reflexivity].
    eexists. split; reflexivity.
  - destruct a as [l|p|w|m|lt|k]; simpl in Hstep.
    + unfold genotypes_setter in Hstep.
      destruct (getitem l 0); simpl in Hstep; [|discriminate].
      injection Hstep as <-. exact IH.
    + unfold phenotypes_setter in Hstep.
      destruct (resolve_phenotypes self p) as [values|]; simpl in Hstep; [|discriminate].
      injection Hstep as <-. simpl.
      destruct (_log_transform self); [|exact IH].
      eexists. split; reflexivity.
    + injection Hstep as <-. exact IH.
    + injection Hstep as <-. exact IH.
    + destruct (Hallowed _ _ Ha lt). reflexivity.
    + injection Hstep as <-. exact IH.
Qed.

End Assignments.

Section FlagFlip.
Context {V G : Type} `{Numeric V} `{ErrorBounds V} `{RandomState G V} `{Rounding}.
Implicit Types (self : GenotypePhenotypeMap V) (g : G).

(** X10: the [log_transform] setter re-derives nothing.  On a map
    constructed without log transform, setting the flag leaves the
    phenotypes as they were and creates no raw view; a full sample of
    the map then finds no error view to draw from, also when the map
    has one: it raises the refusal exception for [n_samples != 1] and
    [IndexError] for [n_samples = 1]. *)
Theorem X10_flag_set_after_construction wildtype genotypes phenotypes stdeviations0
    mutations n_replicates logbase0 self g n_samples :
  choice_ok ->
  GenotypePhenotypeMap_init wildtype genotypes phenotypes stdeviations0 false
    mutations n_replicates logbase0 = Ok self ->
  _phenotypes (log_transform_setter self true) = phenotypes /\
  Raw (log_transform_setter self true) = None /\
  err (log_transform_setter self true) = err self /\
  (sample (log_transform_setter self true) g n_samples None 1 true).1 =
    if n_samples =? 1 then Raise IndexError
    else Raise (PyException "Won't create samples if sample error is not given.").
Proof.
  intros Hchoice Hself.
  destruct (init_Ok_inv _ _ _ _ _ _ _ _ _ Hself)
    as (f & _ & Hne & _ & _ & _ & Hn & _ & _ & _ & _ & Hphen & _ & _ & _ & Hraw & _).
  split; [exact Hphen|]. split; [exact Hraw|]. split; [reflexivity|].
  set (self' := log_transform_setter self true).
  assert (sampling_stdevs self' = Raise AttributeError) as Hstdevs.
  { unfold sampling_stdevs. simpl. rewrite Hraw. reflexivity. }
  destruct (select_all_indices self' g Hchoice)
    as (random_indices & g1 & Hsel & Hlen & _); [simpl; lia|].
  apply (sample_degenerate self' g n_samples None 1 true random_indices g1 _ Hstdevs Hsel).
  intros ->. simpl in Hlen. lia.
Qed.

End FlagFlip.

(** ** More on sampling *)

Section SampleContents.
Context {V G : Type} `{Numeric V} `{ErrorBounds V} `{RandomState G V} `{Rounding}.
Implicit Types (self : GenotypePhenotypeMap V) (g : G).

(** What the rows are when the [try] block runs to its end. *)
Lemma sample_rows_inv self n_samples random_indices g grows prows g' :
  sample_rows self n_samples random_indices g = (Ok (grows, prows), g') ->
  Forall2 (fun i row => exists s, _genotypes self !! i = Some s /\
                          row = replicate n_samples (store_U (_length self) s))
    random_indices grows /\
  Forall2 (fun i row => exists stdevs centres s c zs,
                          sampling_stdevs self = Ok stdevs /\ stdevs !! i = Some s /\
                          sampling_centres self = Ok centres /\ centres !! i = Some c /\
                          length zs = n_samples /\
                          row = map (fun z => fadd (fmul s z) c) zs)
    random_indices prows.
Proof.
  revert g grows prows g'. induction random_indices as [|index rest IH];
    intros g grows prows g'; simpl.
  - intros [= <- <- _]. split; constructor.
  - destruct (getitem (_genotypes self) index) as [seq0|] eqn:Hseq0; simpl;
      [|discriminate].
    destruct (sampling_stdevs self) as [stdevs|] eqn:Hstdevs; simpl; [|discriminate].
    destruct (getitem stdevs index) as [s|] eqn:Hs; simpl; [|discriminate].
    pose proof (randn_length g n_samples) as Hzs.
    destruct (randn g n_samples) as [zs g1]. simpl in Hzs.
    destruct (sampling_centres self) as [centres|] eqn:Hcentres; simpl; [|discriminate].
    destruct (getitem centres index) as [c|] eqn:Hc; simpl; [|discriminate].
    destruct (sample_rows self n_samples rest g1) as [[[grows' prows']|e] g2] eqn:Hrest;
      [|discriminate].
    intros [= <- <- _]. destruct (IH _ _ _ _ Hrest) as [Hgrows Hprows].
    apply getitem_Ok in Hseq0, Hs, Hc.
    split; constructor; try assumption.
    + eauto.
    + exists stdevs, centres, s, c, zs. repeat split; assumption.
Qed.

(** [Sample] never accepts the one-axis arrays of the fallback. *)
Lemma Sample_init_Array1 self (genotypes : list string) (phenotypes : list V) indices :
  Sample_init self (Array1 genotypes) (Array1 phenotypes) indices = Raise IndexError.
Proof. reflexivity. Qed.

(** A returned [Sample] refers to the sampled map and has one phenotype
    and one index per genotype. *)
Lemma sample_Ok_inv self g n_samples genotypes fraction derived s g' :
  sample self g n_samples genotypes fraction derived = (Ok s, g') ->
  sample_gpm s = self /\
  length (sample_phenotypes s) = length (sample_genotypes s) /\
  length (sample_genotypes s) = length (sample_indices s).
Proof.
  unfold sample.
  destruct (select_indices self genotypes fraction derived g) as [[random_indices|e] g1];
    [|discriminate].
  destruct (sample_rows self n_samples random_indices g1) as [[[grows prows]|e] g2] eqn:Hrows.
  - destruct (sample_rows_inv _ _ _ _ _ _ _ Hrows) as [Hgrows Hprows].
    destruct n_samples as [|k]; [discriminate|].
    destruct (column0_rows self (S k) random_indices grows (Nat.lt_0_succ k) Hgrows)
      as (genotypes0 & Hcol & Hgenotypes0).
    unfold Sample_init. rewrite Hcol. simpl.
    intros [= <- _]. simpl.
    pose proof (Forall2_length _ _ _ Hprows) as Hlen1.
    pose proof (Forall2_length _ _ _ Hgenotypes0) as Hlen2.
    rewrite length_map. split; [reflexivity|]. split; lia.
  - destruct (negb (n_samples =? 1)); [discriminate|].
    destruct (traverse (getitem (_genotypes self)) random_indices); simpl; [|discriminate].
    destruct (traverse (getitem (_phenotypes self)) random_indices); simpl; discriminate.
Qed.

(** X13: whenever [sample] returns, it went through the [try] block to
    its end: there is at least one sample per genotype, each row of
    [replicate_genotypes] repeats the genotype at the selected index
    [n_samples] times, each row of [replicate_phenotypes] holds
    [n_samples] values [stdev * z + centre], where [stdev] is the upper
    error and [centre] the phenotype at that index - those of the raw
    view when the map is log-transformed -, and the sample's phenotypes
    and standard deviations are the mean and the corrected deviation of
    each row. *)
Theorem X13_sample_contents self g n_samples genotypes fraction derived s g' :
  sample self g n_samples genotypes fraction derived = (Ok s, g') ->
  0 < n_samples /\
  sample_gpm s = self /\
  exists grows prows,
    replicate_genotypes s = Array2 n_samples grows /\
    replicate_phenotypes s = Array2 n_samples prows /\
    Forall2 (fun i row => exists seq0, _genotypes self !! i = Some seq0 /\
                            row = replicate n_samples (store_U (_length self) seq0))
      (sample_indices s) grows /\
    Forall2 (fun i row => exists stdevs centres sd c zs,
                            sampling_stdevs self = Ok stdevs /\ stdevs !! i = Some sd /\
                            sampling_centres self = Ok centres /\ centres !! i = Some c /\
                            length zs = n_samples /\
                            row = map (fun z => fadd (fmul sd z) c) zs)
      (sample_indices s) prows /\
    Forall2 (fun i s0 => exists seq0, _genotypes self !! i = Some seq0 /\
                           s0 = store_U (_length self) seq0)
      (sample_indices s) (sample_genotypes s) /\
    sample_phenotypes s = map np_mean prows /\
    sample_stdeviations s = map np_std_ddof1 prows.
Proof.
  unfold sample.
  destruct (select_indices self genotypes fraction derived g) as [[random_indices|e] g1];
    [|discriminate].
  destruct (sample_rows self n_samples random_indices g1) as [[[grows prows]|e] g2] eqn:Hrows.
  - destruct (sample_rows_inv _ _ _ _ _ _ _ Hrows) as [Hgrows Hprows].
    destruct n_samples as [|k]; [discriminate|].
    destruct (column0_rows self (S k) random_indices grows (Nat.lt_0_succ k) Hgrows)
      as (genotypes0 & Hcol & Hgenotypes0).
    unfold Sample_init. rewrite Hcol. simpl.
    intros [= <- _]. simpl.
    split; [lia|]. split; [reflexivity|].
    exists grows, prows. repeat split; assumption.
  - destruct (negb (n_samples =? 1)); [discriminate|].
    destruct (traverse (getitem (_genotypes self)) random_indices); simpl; [|discriminate].
    destruct (traverse (getitem (_phenotypes self)) random_indices); simpl; discriminate.
Qed.

End SampleContents.

Section SampleSelection.
Context {V G : Type} `{Numeric V} `{ErrorBounds V} `{RandomState G V} `{Rounding}.
Implicit Types (self : GenotypePhenotypeMap V) (g : G).

(** The lookup from genotypes to indices sends a genotype to an index
    that holds it. *)
Lemma genotype_index self mapping key i :
  _indices self = seq 0 (length (_genotypes self)) ->
  map_genotypes self (_indices self) = Ok mapping ->
  mapping !! key = Some i ->
  _genotypes self !! i = Some key.
Proof.
  intros Hidx Hmap Hi. unfold map_genotypes in Hmap. rewrite Hidx in Hmap.
  destruct (_map_lookup _ _ _ _ _ (eq_sym (length_seq _ _)) Hmap Hi) as (j & Hj & Hseq).
  apply lookup_seq in Hseq. destruct Hseq as [-> _]. exact Hj.
Qed.

(** X11: asked for a genotype the map does not have, [sample] raises
    [KeyError] before anything is drawn, whatever the fraction. *)
Theorem X11_sample_unknown_genotype self g n_samples genotypes fraction derived key :
  _indices self = seq 0 (length (_genotypes self)) ->
  key ∈ genotypes ->
  key ∉ _genotypes self ->
  sample self g n_samples (Some genotypes) fraction derived = (Raise KeyError, g).
Proof.
  intros Hidx Hin Hnot. unfold sample, select_indices, map_genotypes.
  rewrite Hidx, _map_Ok by (rewrite length_seq; reflexivity). simpl.
  rewrite (traverse_raise _ genotypes KeyError); [reflexivity | |].
  - intros k e. apply dict_get_raise.
  - intros Hall. rewrite Forall_forall in Hall. destruct (Hall key Hin) as [i Hi].
    apply dict_get_Ok in Hi.
    pose proof (_map_None (_genotypes self) (seq 0 (length (_genotypes self))) _ key
                  (eq_sym (length_seq _ _))
                  (_map_Ok _ _ (eq_sym (length_seq _ _))) Hnot) as Hnone.
    congruence.
Qed.

(** X12: asked for genotypes the map has, on a map constructed with
    standard deviations, [sample] returns one row per requested
    genotype, in the order of the request, each at an index of the map
    that holds the genotype; [fraction] and [derived] play no role. *)
Theorem X12_sample_of_given_genotypes wildtype genotypes0 phenotypes sd log_transform
    mutations n_replicates logbase0 self g n_samples genotypes fraction derived :
  upper_aligned ->
  0 < n_samples ->
  GenotypePhenotypeMap_init wildtype genotypes0 phenotypes (Some sd) log_transform
    mutations n_replicates logbase0 = Ok self ->
  length sd = length genotypes0 ->
  Forall (fun s => String.length s = _length self) (_genotypes self) ->
  Forall (fun key => key ∈ _genotypes self) genotypes ->
  exists s g',
    sample self g n_samples (Some genotypes) fraction derived = (Ok s, g') /\
    sample_genotypes s = genotypes /\
    shape (replicate_phenotypes s) = [length genotypes; n_samples] /\
    Forall2 (fun key i => _genotypes self !! i = Some key) genotypes (sample_indices s).
Proof.
  intros Haligned Hpos Hself Hsd Hwidth Hknown.
  destruct (init_Ok_inv _ _ _ _ _ _ _ _ _ Hself)
    as (f & -> & Hne & Hlen & _ & Hgen & Hn & Hidx & Hlog & _ & _ & Hphen & _ & _ & Herr
        & Hraw & _).
  simpl in Herr, Hraw. rewrite <- Hgen in Hidx.
  assert (exists stdevs, sampling_stdevs self = Ok stdevs /\
                         length (_genotypes self) <= length stdevs)
    as (stdevs & Hstdevs & Hs).
  { unfold sampling_stdevs. rewrite Hlog, Hraw, Herr, Hgen.
    destruct log_transform; simpl; eexists; (split; [reflexivity|]);
      rewrite Haligned; simpl; rewrite ?length_map; lia. }
  assert (exists centres, sampling_centres self = Ok centres /\
                          length (_genotypes self) <= length centres)
    as (centres & Hcentres & Hc).
  { unfold sampling_centres. rewrite Hlog, Hraw, Hphen, Hgen.
    destruct log_transform; simpl; eexists; (split; [reflexivity|]); lia. }
  assert (exists mapping, map_genotypes self (_indices self) = Ok mapping)
    as [mapping Hmap].
  { unfold map_genotypes. rewrite _map_Ok; [eauto|]. rewrite Hidx, length_seq. reflexivity. }
  destruct (traverse_total (dict_get mapping) genotypes) as [random_indices Hindices].
  { eapply Forall_impl; [exact Hknown|]. intros key Hkey. simpl.
    destruct (_map_is_Some (_genotypes self) (_indices self) mapping key) as [i Hi];
      [rewrite Hidx, length_seq; reflexivity | exact Hmap | exact Hkey |].
    exists i. apply dict_get_Ok. assumption. }
  assert (Forall2 (fun key i => _genotypes self !! i = Some key) genotypes random_indices)
    as Hheld.
  { apply traverse_Forall2 in Hindices.
    eapply Forall2_impl; [exact Hindices|]. intros key i Hi. simpl in Hi.
    apply dict_get_Ok in Hi. eapply genotype_index; eassumption. }
  assert (Forall (fun i => i < length (_genotypes self) /\ i < length stdevs /\
                           i < length centres) random_indices) as Hwithin.
  { apply Forall_forall. intros i Hi. apply list_elem_of_lookup in Hi. destruct Hi as [j Hj].
    destruct (Forall2_lookup_r _ _ _ _ _ Hheld Hj) as (key & _ & Hkey).
    apply lookup_lt_Some in Hkey. lia. }
  unfold sample, select_indices. rewrite Hmap. cbn [bind]. rewrite Hindices.
  destruct (sample_rows_Ok self n_samples stdevs centres random_indices g Hstdevs Hcentres
              Hwithin) as (grows & prows & g2 & -> & Hgrows & Hprows & _).
  destruct (column0_rows self n_samples random_indices grows Hpos Hgrows)
    as (names & Hcol & Hnames).
  unfold Sample_init. rewrite Hcol. simpl.
  eexists _, _. split; [reflexivity|]. simpl.
  split; [|split; [|exact Hheld]].
  - symmetry. apply list_eq_Forall2.
    clear -Hheld Hnames Hwidth. revert names Hnames.
    induction Hheld as [|key i gs idxs Hkey _ IH]; intros names Hnames;
      inversion Hnames as [|? name ? names' (s & Hs & ->) Hrest]; subst; constructor.
    + assert (s = key) as -> by congruence.
      symmetry. apply store_U_id. rewrite Forall_forall in Hwidth.
      rewrite (Hwidth key); [lia|]. eapply list_elem_of_lookup_2. eassumption.
    + apply IH. assumption.
  - rewrite Hprows. f_equal. symmetry. exact (Forall2_length _ _ _ Hheld).
Qed.

End SampleSelection.

Lemma StronglySorted_le_lt (l : list nat) :
  StronglySorted le l -> NoDup l -> StronglySorted lt l.
Proof.
  induction 1 as [|x l Hsorted IH Hall]; intros Hnodup; constructor.
  - apply IH. apply NoDup_cons in Hnodup. tauto.
  - apply NoDup_cons in Hnodup. destruct Hnodup as [Hx _].
    rewrite Forall_forall in *. intros y Hy.
    assert (x <> y) by (intros ->; apply Hx; assumption).
    specialize (Hall y Hy). lia.
Qed.

Section RandomSelection.
Context {V G : Type} `{Numeric V} `{ErrorBounds V} `{RandomState G V} `{Rounding}.
Implicit Types (self : GenotypePhenotypeMap V) (g : G).

(** X14: with [genotypes=None] and a fraction in [0, 1], the selection
    holds [int(fraction * n)] indices of the map - the product being
    rounded to a double before [int] truncates it -, in strictly
    increasing order; with [derived=True] (and at least one index to
    select) the last of them is [n-1]. *)
Theorem X14_random_selection self g fraction derived :
  choice_ok -> choice_distinct ->
  (0 <= fraction)%Q -> (fraction <= 1)%Q ->
  (derived = true ->
   0 < Z.to_nat (py_int (round_double (fraction * inject_Z (Z.of_nat (_n self)))))) ->
  exists random_indices g1,
    select_indices self None fraction derived g = (Ok random_indices, g1) /\
    length random_indices =
      Z.to_nat (py_int (round_double (fraction * inject_Z (Z.of_nat (_n self))))) /\
    length random_indices <= _n self /\
    Forall (fun i => i < _n self) random_indices /\
    StronglySorted lt random_indices /\
    (derived = true -> last random_indices = Some (_n self - 1)).
Proof.
  intros Hchoice Hdistinct Hlow Hhigh Hderived. unfold select_indices.
  rewrite (py_lt_false _ _ Hlow). unfold py_gt. rewrite (py_lt_false _ _ Hhigh).
  cbn [orb].
  pose proof (round_fraction_le fraction (_n self) Hhigh) as Hk.
  set (k := Z.to_nat (py_int (round_double (fraction * inject_Z (Z.of_nat (_n self))))))
    in *.
  assert (k <= _n self) as Hk' by lia.
  destruct (Hchoice g (_n self) k Hk') as [Hlen Hall].
  pose proof (Hdistinct g (_n self) k Hk') as Hnodup.
  destruct (random_choice g (_n self) k) as [chosen g1]. simpl in Hlen, Hall, Hnodup.
  pose proof (merge_sort_length chosen) as Hlen'.
  pose proof (merge_sort_Forall _ _ Hall) as Hall'.
  assert (StronglySorted lt (merge_sort le chosen)) as Hsorted.
  { apply StronglySorted_le_lt.
    - apply (StronglySorted_merge_sort le).
    - rewrite merge_sort_Permutation. assumption. }
  set (sorted := merge_sort le chosen) in *.
  destruct derived.
  - specialize (Hderived eq_refl).
    destruct sorted as [|x sorted'] using rev_ind; [simpl in Hlen'; lia|].
    clear IHsorted'. unfold set_last.
    rewrite length_app in *. simpl in *.
    replace (length sorted' + 1) with (S (length sorted')) by lia.
    replace (<[length sorted' := _n self - 1]> (sorted' ++ [x])%list)
      with (sorted' ++ [_n self - 1])%list.
    2:{ rewrite <- (Nat.add_0_r (length sorted')) at 1. rewrite insert_app_r. reflexivity. }
    eexists _, _. split; [reflexivity|].
    rewrite length_app. simpl.
    split; [lia|]. split; [lia|].
    apply Forall_app in Hall'. destruct Hall' as [Hinit Hx].
    rewrite Forall_singleton in Hx.
    split; [|split].
    + apply Forall_app. split; [assumption|]. apply Forall_singleton. lia.
    + apply StronglySorted_app in Hsorted. destruct Hsorted as (Hbelow & Hs1 & _).
      apply StronglySorted_app. split; [|split].
      * intros x1 x2 Hx1 Hx2. apply list_elem_of_singleton in Hx2. subst x2.
        specialize (Hbelow x1 x (Hx1)). 
        assert (x1 < x) by (apply Hbelow; apply list_elem_of_singleton; reflexivity).
        lia.
      * assumption.
      * repeat constructor.
    + intros _. apply last_snoc.
  - eexists _, _. split; [reflexivity|].
    split; [lia|]. split; [lia|]. split; [assumption|]. split; [assumption|].
    discriminate.
Qed.

End RandomSelection.

(** ** From a sample back to a map *)

Lemma init_mutations {V} wildtype genotypes (phenotypes : list V) stdeviations0 log_transform
    mutations n_replicates logbase0 self :
  GenotypePhenotypeMap_init wildtype genotypes phenotypes stdeviations0 log_transform
    (Some mutations) n_replicates logbase0 = Ok self ->
  _mutations self = mutations.
Proof.
  unfold GenotypePhenotypeMap_init.
  destruct logbase0 as [f|]; simpl; [|discriminate].
  unfold genotypes_setter. destruct genotypes as [|g0 genotypes]; simpl; [discriminate|].
  unfold phenotypes_setter, resolve_phenotypes. simpl.
  destruct (length phenotypes =? S (length genotypes)); simpl; [|discriminate].
  unfold _construct_errors.
  destruct stdeviations0 as [sd|], log_transform; simpl; intros [= <-]; reflexivity.
Qed.

Section GetGpm.
Context {V G : Type} `{Numeric V} `{ErrorBounds V} `{RandomState G V} `{Rounding}.
Implicit Types (self : GenotypePhenotypeMap V) (g : G).

(** X15: [get_gpm] on a returned sample of at least one genotype builds
    a map over the sampled genotypes, with the wildtype, mutations,
    [log_transform], [n_replicates] and [logbase] of the sampled map,
    the per-genotype means as phenotypes (log-transformed again when the
    map is) and the per-genotype sample deviations as standard
    deviations; on a sample of no genotype it raises [IndexError]. *)
Theorem X15_get_gpm_of_sample self g n_samples genotypes fraction derived s g' :
  sample self g n_samples genotypes fraction derived = (Ok s, g') ->
  (sample_genotypes s = [] -> get_gpm s = Raise IndexError) /\
  (sample_genotypes s <> [] ->
   exists gpm',
     get_gpm s = Ok gpm' /\
     _genotypes gpm' = sample_genotypes s /\
     _n gpm' = length (sample_indices s) /\
     _wildtype gpm' = _wildtype self /\
     _mutations gpm' = _mutations self /\
     _log_transform gpm' = _log_transform self /\
     _n_replicates gpm' = _n_replicates self /\
     logbase gpm' = logbase self /\
     stdeviations gpm' = Some (sample_stdeviations s) /\
     _phenotypes gpm' =
       (if _log_transform self then map (logbase self) (sample_phenotypes s)
        else sample_phenotypes s)).
Proof.
  intros Hsample.
  destruct (sample_Ok_inv _ _ _ _ _ _ _ _ Hsample) as (Hgpm & Hlen1 & Hlen2).
  unfold get_gpm. rewrite Hgpm. split.
  - intros ->. reflexivity.
  - intros Hne.
    destruct (init_total (_wildtype self) (sample_genotypes s) (sample_phenotypes s)
                (Some (sample_stdeviations s)) (_log_transform self)
                (Some (_mutations self)) (_n_replicates self) (logbase self))
      as [gpm' Hinit].
    { destruct (sample_genotypes s); [congruence | simpl; lia]. }
    { exact Hlen1. }
    pose proof (init_mutations _ _ _ _ _ _ _ _ _ Hinit) as Hmut.
    destruct (init_Ok_inv _ _ _ _ _ _ _ _ _ Hinit)
      as (f & [= <-] & _ & _ & Hw & Hgen & Hn & _ & Hlog & Hbase & Hrep & Hphen & Hsd & _).
    exists gpm'. rewrite Hn, Hlen2.
    repeat split; assumption.
Qed.

End GetGpm.

(** ** What a subspace inherits *)

Section SubspaceInheritance.
Context {V : Type}.
Implicit Types (parent sub : GenotypePhenotypeMap V).

(** [subspace] on a constructed map, in terms of the constructor. *)
Lemma subspace_unfold wildtype genotypes phenotypes stdeviations0 log_transform mutations
    n_replicates logbase0 parent genotype1 genotype2 :
  GenotypePhenotypeMap_init wildtype genotypes phenotypes stdeviations0 log_transform
    mutations n_replicates logbase0 = Ok parent ->
  subspace parent genotype1 genotype2 =
    do values <- traverse (dict_get (list_to_map (reverse (zip genotypes phenotypes))))
                   (sublattice genotype1 genotype2);
    GenotypePhenotypeMap_init genotype1 (sublattice genotype1 genotype2) values
      stdeviations0 (_log_transform parent)
      (Some (binary_mutations_map genotype1 genotype2))
      (_n_replicates parent) (Callable (logbase parent)).
Proof.
  intros Hparent.
  pose proof (subspace_lookup _ _ _ _ _ _ _ _ _ Hparent) as Hlookup.
  unfold subspace, sublattice. rewrite Hlookup. cbn [bind fst snd].
  destruct (construct_genotypes
              (encode_mutations genotype1 (binary_mutations_map genotype1 genotype2)))
    as [lattice binary].
  reflexivity.
Qed.

(** X16: the map [subspace] returns has the parent's [log_transform],
    [n_replicates] and [logbase], the binary alphabet of the two
    endpoints as mutations, and the parent's standard deviations - the
    whole array, as the parent was constructed with, whatever the size
    of the sub-lattice: its error view pairs the phenotypes of the
    sub-lattice with all the standard deviations of the parent. *)
Theorem X16_subspace_inherits wildtype genotypes phenotypes stdeviations0 log_transform
    mutations n_replicates logbase0 parent genotype1 genotype2 sub :
  GenotypePhenotypeMap_init wildtype genotypes phenotypes stdeviations0 log_transform
    mutations n_replicates logbase0 = Ok parent ->
  subspace parent genotype1 genotype2 = Ok sub ->
  _log_transform sub = _log_transform parent /\
  _n_replicates sub = _n_replicates parent /\
  logbase sub = logbase parent /\
  _mutations sub = binary_mutations_map genotype1 genotype2 /\
  stdeviations sub = stdeviations parent /\
  stdeviations sub = stdeviations0 /\
  (forall sd, stdeviations0 = Some sd ->
     exists e, err sub = Some e /\
               se_stdeviations e = sd /\
               length (se_phenotypes e) = length (sublattice genotype1 genotype2)).
Proof.
  intros Hparent Hsub.
  rewrite (subspace_unfold _ _ _ _ _ _ _ _ _ _ _ Hparent) in Hsub.
  destruct (traverse _ (sublattice genotype1 genotype2)) as [values|] eqn:Hvalues;
    simpl in Hsub; [|discriminate].
  pose proof (init_mutations _ _ _ _ _ _ _ _ _ Hsub) as Hmut.
  destruct (init_Ok_inv _ _ _ _ _ _ _ _ _ Hparent)
    as (f0 & _ & _ & _ & _ & _ & _ & _ & _ & _ & _ & _ & Hsd0 & _).
  destruct (init_Ok_inv _ _ _ _ _ _ _ _ _ Hsub)
    as (f & [= <-] & _ & Hlen & _ & _ & _ & _ & Hlog & Hbase & Hrep & _ & Hsd & _ & Herr & _).
  repeat split; try assumption.
  - rewrite Hsd, Hsd0. reflexivity.
  - intros sd ->. simpl in Herr. eexists. split; [exact Herr|]. split; [reflexivity|].
    simpl. exact Hlen.
Qed.

End SubspaceInheritance.

(** ** Loading *)

Section Loading.
Context {V : Type}.
Implicit Types (data : json_data V) (kwargs : json_kwargs V).

(** X17: [from_json] raises [LoadingException] exactly when one of
    [wildtype], [genotypes], [phenotypes] is missing from the data, and
    the message names the first missing one in this order; keyword
    arguments do not make up for a missing key. *)
Theorem X17_from_json_required_keys np_log10 data kwargs msg :
  from_json np_log10 data kwargs = LoadingException msg <->
  (data_wildtype data = None /\ msg = loading_message "wildtype") \/
  (is_Some (data_wildtype data) /\ data_genotypes data = None /\
   msg = loading_message "genotypes") \/
  (is_Some (data_wildtype data) /\ is_Some (data_genotypes data) /\
   data_phenotypes data = None /\ msg = loading_message "phenotypes").
Proof.
  unfold from_json.
  destruct (data_wildtype data) as [w|]; [|split].
  - destruct (data_genotypes data) as [gs|]; [|split].
    + destruct (data_phenotypes data) as [ps|]; [|split].
      * destruct (GenotypePhenotypeMap_init _ _ _ _ _ _ _ _); split;
          try discriminate;
          intros [[[=] _]|[(_ & [=] & _)|(_ & _ & [=] & _)]].
      * intros [= <-]. right. right. repeat split; eauto.
      * intros [[[=] _]|[(_ & [=] & _)|(_ & _ & _ & ->)]]. reflexivity.
    + intros [= <-]. right. left. repeat split; eauto.
    + intros [[[=] _]|[(_ & _ & ->)|(_ & [? [=]] & _)]]. reflexivity.
  - intros [= <-]. left. split; reflexivity.
  - intros [[_ ->]|[([? [=]] & _)|([? [=]] & _)]]. reflexivity.
Qed.

(** X18: in a loaded map every option of the constructor has the value
    of the keyword argument when one is given, else the value found in
    the data, else the default: no standard deviations, no log
    transform, one replicate, [np.log10]. *)
Theorem X18_from_json_option_precedence np_log10 data kwargs gpm :
  from_json np_log10 data kwargs = Loaded gpm ->
  _log_transform gpm =
    default (default false (data_log_transform data)) (kw_log_transform kwargs) /\
  _n_replicates gpm =
    default (default 1 (data_n_replicates data)) (kw_n_replicates kwargs) /\
  stdeviations gpm =
    default (default None (data_stdeviations data)) (kw_stdeviations kwargs) /\
  Callable (logbase gpm) =
    default (default (Callable np_log10) (data_logbase data)) (kw_logbase kwargs) /\
  Some (_wildtype gpm) = data_wildtype data /\
  Some (_genotypes gpm) = data_genotypes data.
Proof.
  unfold from_json.
  destruct (data_wildtype data) as [w|]; [|discriminate].
  destruct (data_genotypes data) as [gs|]; [|discriminate].
  destruct (data_phenotypes data) as [ps|]; [|discriminate].
  destruct (GenotypePhenotypeMap_init _ _ _ _ _ _ _ _) as [self|] eqn:Hinit;
    [|discriminate].
  intros [= <-].
  destruct (init_Ok_inv _ _ _ _ _ _ _ _ _ Hinit)
    as (f & Hf & _ & _ & Hw & Hgen & _ & _ & Hlog & Hbase & Hrep & _ & Hsd & _).
  rewrite Hlog, Hrep, Hsd, Hw, Hgen, Hbase, <- Hf.
  unfold option_value.
  destruct (kw_log_transform kwargs), (data_log_transform data),
    (kw_n_replicates kwargs), (data_n_replicates data),
    (kw_stdeviations kwargs), (data_stdeviations data),
    (kw_logbase kwargs), (data_logbase data); repeat split; reflexivity.
Qed.

End Loading.

(** ** The mutation view *)

Section MutationView.
Context {V : Type}.
Implicit Types (self : GenotypePhenotypeMap V).

(** X19: as long as [mutations] is not re-assigned, the [Mutations]
    view of a map records the map's wildtype, through every assignment
    of [wildtype], and its [n] was never assigned.  An assignment of
    [mutations] replaces the view by one that has [n], the size of the
    dict, and no wildtype, while the map keeps its wildtype. *)
Theorem X19_mutation_view_follows_map
    (allowed : GenotypePhenotypeMap V -> assignment V -> Prop) self :
  reachable allowed self ->
  ((forall s a, allowed s a -> forall mutations, a <> SetMutations mutations) ->
   mm_wildtype (Mutations self) = Some (_wildtype self) /\
   mm_n (Mutations self) = None) /\
  (forall mutations self',
     assign self (SetMutations mutations) = Ok self' ->
     mm_wildtype (Mutations self') = None /\
     mm_n (Mutations self') = Some (size mutations) /\
     _wildtype self' = _wildtype self).
Proof.
  intros Hreach. split.
  - intros Hallowed.
    induction Hreach as [wildtype genotypes phenotypes stdeviations0 log_transform
                           mutations n_replicates logbase0 self Hself
                        | self a self' _ IH Ha Hstep].
    + unfold GenotypePhenotypeMap_init in Hself.
      destruct logbase0 as [f|]; simpl in Hself; [|discriminate].
      unfold genotypes_setter in Hself.
      destruct genotypes as [|g0 genotypes]; simpl in Hself; [discriminate|].
      unfold phenotypes_setter, resolve_phenotypes in Hself. simpl in Hself.
      destruct (length phenotypes =? S (length genotypes)); simpl in Hself; [|discriminate].
      unfold _construct_errors in Hself.
      destruct stdeviations0 as [sd|], log_transform; simpl in Hself;
        injection Hself as <-; split; reflexivity.
    + destruct a as [l|p|w|m|lt|k]; simpl in Hstep.
      * unfold genotypes_setter in Hstep.
        destruct (getitem l 0); simpl in Hstep; [|discriminate].
        injection Hstep as <-. exact IH.
      * unfold phenotypes_setter in Hstep.
        destruct (resolve_phenotypes self p) as [values|]; simpl in Hstep; [|discriminate].
        injection Hstep as <-. exact IH.
      * injection Hstep as <-. simpl. split; [reflexivity|]. exact (proj2 IH).
      * destruct (Hallowed _ _ Ha m). reflexivity.
      * injection Hstep as <-. exact IH.
      * injection Hstep as <-. exact IH.
  - intros mutations self' [= <-]. split; [reflexivity|]. split; reflexivity.
Qed.

End MutationView.

(** * Instances of the further properties *)

Lemma Demo_choice_distinct : @choice_distinct unit Z Demo.RandomState_unit.
Proof. intros g n k _. simpl. apply NoDup_seq. Qed.

(** X1 on two keys and three values. *)
Lemma X1_witness :
  NoDup ["AA"; "AT"] /\
  length ["AA"; "AT"] <= length [1; 2; 3]%Z /\
  exists m,
    _map ["AA"; "AT"] [1; 2; 3]%Z = Ok m /\
    m !! "AT" = Some 2%Z /\
    size m = 2.
Proof.
  assert (NoDup ["AA"; "AT"]) as Hnodup.
  { apply (bool_decide_unpack _). vm_compute. reflexivity. }
  assert (length ["AA"; "AT"] <= length [1; 2; 3]%Z) as Hlen by (simpl; lia).
  split; [exact Hnodup|]. split; [exact Hlen|].
  destruct (X1_map_lookup_roundtrip ["AA"; "AT"] [1; 2; 3]%Z Hnodup Hlen)
    as (m & Hmap & Hlookup & _ & Hsize).
  exists m. split; [exact Hmap|]. split; [|exact Hsize].
  exact (Hlookup 1 "AT" eq_refl).
Defined.

(** X2 on the keys [AA, AA, AT]: the second [AA] wins. *)
Lemma X2_witness :
  length ["AA"] = length [1%Z] /\
  length ["AT"] <= length [2%Z] /\
  ("AA" ∉ ["AT"]) /\
  exists m,
    _map ["AA"; "AA"; "AT"] [1; 5; 2]%Z = Ok m /\
    m !! "AA" = Some 5%Z.
Proof.
  assert ("AA" ∉ ["AT"]) as Hnot.
  { apply (bool_decide_unpack _). vm_compute. reflexivity. }
  split; [reflexivity|]. split; [simpl; lia|]. split; [exact Hnot|].
  exact (X2_map_last_occurrence_wins ["AA"] ["AT"] "AA" [1%Z] [2%Z] 5%Z
           eq_refl (le_n 1) Hnot).
Defined.

(** X3 on two keys and one value. *)
Lemma X3_witness :
  length [1%Z] < length ["AA"; "AT"] /\
  _map ["AA"; "AT"] [1%Z] = Raise IndexError.
Proof.
  split; [simpl; lia|].
  apply X3_map_short_values_raise. simpl. lia.
Defined.

(** X4 on [Demo.plain_map] and a dict that only has the key [AA]. *)
Lemma X4_witness :
  _n Demo.plain_map = length (_genotypes Demo.plain_map) /\
  ~ Forall (fun g => is_Some ((<["AA" := 5%Z]> ∅ : gmap string Z) !! g))
      (_genotypes Demo.plain_map) /\
  phenotypes_setter Demo.plain_map (ByDict (<["AA" := 5%Z]> ∅)) = Raise KeyError.
Proof.
  assert (~ Forall (fun g => is_Some ((<["AA" := 5%Z]> ∅ : gmap string Z) !! g))
            (_genotypes Demo.plain_map)) as Hmissing.
  { apply (bool_decide_unpack _). vm_compute. reflexivity. }
  split; [reflexivity|]. split; [exact Hmissing|].
  destruct (X4_if_dict_missing_key Demo.plain_map eq_refl) as [Hraise _].
  exact (proj2 (Hraise _ Hmissing)).
Defined.

(** X5 on one genotype and two phenotypes. *)
Lemma X5_witness :
  ["AA"] <> [] /\
  length [1; 2]%Z <> length ["AA"] /\
  GenotypePhenotypeMap_init "AA" ["AA"] [1; 2]%Z None false (Some ∅) 1 (Callable Z.log2) =
    Raise (ValueError "Number of phenotypes does not equal number of genotypes.").
Proof.
  assert (["AA"] <> @nil string) as Hne by discriminate.
  assert (length [1; 2]%Z <> length ["AA"]) as Hlen by (simpl; lia).
  split; [exact Hne|]. split; [exact Hlen|].
  destruct (X5_constructor_failures (V:=Z) "AA" ["AA"] [1; 2]%Z None false ∅ 1)
    as (_ & _ & Hmismatch).
  exact (Hmismatch Z.log2 Hne Hlen).
Defined.

(** X6 on [Demo.plain_map] after its [log_transform] flag was set, and
    on [Demo.plain_map] after an assignment of phenotypes. *)
Lemma X6_witness :
  _log_transform (log_transform_setter Demo.plain_map true) = true /\
  Raw (log_transform_setter Demo.plain_map true) = None /\
  _construct_errors (log_transform_setter Demo.plain_map true) None = Raise AttributeError /\
  exists self' self'',
    phenotypes_setter Demo.plain_map (ByArray [5; 6; 7; 8]%Z) = Ok self' /\
    _construct_errors self' (Some [1; 1; 1; 1]%Z) = Ok self'' /\
    is_Some (err self'').
Proof.
  split; [reflexivity|]. split; [reflexivity|]. split.
  - destruct (X6_construct_errors_needs_raw_view
                (log_transform_setter Demo.plain_map true)) as [Hraise _].
    exact (proj2 (Hraise eq_refl eq_refl)).
  - destruct (phenotypes_setter Demo.plain_map (ByArray [5; 6; 7; 8]%Z))
      as [self'|e] eqn:Hset; [|vm_compute in Hset; discriminate].
    destruct (X6_construct_errors_needs_raw_view Demo.plain_map) as [_ Hok].
    destruct (Hok _ self' (Some [1; 1; 1; 1]%Z) Hset) as (self'' & Herrors & _ & _ & Hviews).
    exists self', self''. split; [reflexivity|]. split; [exact Herrors|].
    apply Hviews. eexists. reflexivity.
Defined.

(** X7 on [Demo.plain_sd_map], assigned the phenotypes [5, 6, 7, 8]. *)
Lemma X7_witness :
  GenotypePhenotypeMap_init "AA" Demo.genotypes4 [1; 2; 2; 4]%Z (Some [1; 1; 1; 2]%Z)
    false None 4 (Callable Z.log2) = Ok Demo.plain_sd_map /\
  length [5; 6; 7; 8]%Z = length Demo.genotypes4 /\
  exists self',
    phenotypes_setter Demo.plain_sd_map (ByArray [5; 6; 7; 8]%Z) = Ok self' /\
    _phenotypes self' = [5; 6; 7; 8]%Z /\
    std self' = Some (built_std [1; 2; 2; 4]%Z false Z.log2 [1; 1; 1; 2]%Z).
Proof.
  split; [reflexivity|]. split; [reflexivity|].
  destruct (X7_setter_keeps_old_uncertainty "AA" Demo.genotypes4 [1; 2; 2; 4]%Z
              [1; 1; 1; 2]%Z false None 4 Z.log2 Demo.plain_sd_map [5; 6; 7; 8]%Z
              eq_refl eq_refl) as (self' & Hset & Hphen & Hstd & _).
  exists self'. split; [exact Hset|]. split; [exact Hphen|]. exact Hstd.
Defined.

(** X8 on [Demo.logged_map] as constructed. *)
Lemma X8_witness :
  reachable keeps_count Demo.logged_map /\
  exists b, Binary Demo.logged_map = Some b /\
            bin_phenotypes b = _phenotypes Demo.logged_map.
Proof.
  assert (reachable keeps_count Demo.logged_map) as Hreach.
  { apply (reachable_init _ "AA" Demo.genotypes4 [4; 16; 16; 256]%Z (Some [1; 1; 1; 2]%Z)
             true None 4 (Callable Z.log2)). reflexivity. }
  split; [exact Hreach|].
  exact (X8_binary_view_mirrors_phenotypes keeps_count Demo.logged_map Hreach).
Defined.

(** X9 on [Demo.logged_map], with every assignment allowed but those of
    [log_transform]. *)
Lemma X9_witness :
  (forall (s : GenotypePhenotypeMap Z) (a : assignment Z),
     (forall boolean, a <> SetLogTransform boolean) ->
     forall boolean, a <> SetLogTransform boolean) /\
  reachable (fun _ a => forall boolean, a <> SetLogTransform boolean) Demo.logged_map /\
  exists raw,
    Raw Demo.logged_map = Some raw /\
    _phenotypes Demo.logged_map = map (logbase Demo.logged_map) (raw_phenotypes raw).
Proof.
  assert (reachable (fun _ (a : assignment Z) => forall boolean, a <> SetLogTransform boolean)
            Demo.logged_map) as Hreach.
  { apply (reachable_init _ "AA" Demo.genotypes4 [4; 16; 16; 256]%Z (Some [1; 1; 1; 2]%Z)
             true None 4 (Callable Z.log2)). reflexivity. }
  split; [intros s a Ha; exact Ha|]. split; [exact Hreach|].
  exact (X9_phenotypes_are_log_of_raw
           (fun _ a => forall boolean, a <> SetLogTransform boolean) Demo.logged_map
           (fun s a Ha => Ha) Hreach).
Defined.

(** X10 on [Demo.plain_sd_map], which has an error view, with two
    samples per genotype. *)
Lemma X10_witness :
  @choice_ok unit Z Demo.RandomState_unit /\
  GenotypePhenotypeMap_init "AA" Demo.genotypes4 [1; 2; 2; 4]%Z (Some [1; 1; 1; 2]%Z)
    false None 4 (Callable Z.log2) = Ok Demo.plain_sd_map /\
  is_Some (err (log_transform_setter Demo.plain_sd_map true)) /\
  (sample (log_transform_setter Demo.plain_sd_map true) tt 2 None 1 true).1 =
    Raise (PyException "Won't create samples if sample error is not given.").
Proof.
  split; [exact Demo_choice_ok|]. split; [reflexivity|].
  destruct (X10_flag_set_after_construction "AA" Demo.genotypes4 [1; 2; 2; 4]%Z
              (Some [1; 1; 1; 2]%Z) None 4 (Callable Z.log2) Demo.plain_sd_map tt 2
              Demo_choice_ok eq_refl) as (_ & _ & Herr & Hsample).
  split; [|exact Hsample].
  rewrite Herr. eexists. reflexivity.
Defined.

(** X11 on [Demo.plain_map], asked for [AA] and [GG]. *)
Lemma X11_witness :
  _indices Demo.plain_map = seq 0 (length (_genotypes Demo.plain_map)) /\
  ("GG" ∈ ["AA"; "GG"]) /\
  ("GG" ∉ _genotypes Demo.plain_map) /\
  sample Demo.plain_map tt 3 (Some ["AA"; "GG"]) 1 true = (Raise KeyError, tt).
Proof.
  assert ("GG" ∈ ["AA"; "GG"]) as Hin.
  { apply (bool_decide_unpack _). vm_compute. reflexivity. }
  assert ("GG" ∉ _genotypes Demo.plain_map) as Hnot.
  { apply (bool_decide_unpack _). vm_compute. reflexivity. }
  split; [reflexivity|]. split; [exact Hin|]. split; [exact Hnot|].
  exact (X11_sample_unknown_genotype Demo.plain_map tt 3 ["AA"; "GG"] 1 true "GG"
           eq_refl Hin Hnot).
Defined.

(** X12 on [Demo.plain_sd_map], asked for [TT] and [AA], two samples
    each. *)
Lemma X12_witness :
  @upper_aligned Z Demo.ErrorBounds_Z /\
  0 < 2 /\
  GenotypePhenotypeMap_init "AA" Demo.genotypes4 [1; 2; 2; 4]%Z (Some [1; 1; 1; 2]%Z)
    false None 4 (Callable Z.log2) = Ok Demo.plain_sd_map /\
  length [1; 1; 1; 2]%Z = length Demo.genotypes4 /\
  Forall (fun s => String.length s = _length Demo.plain_sd_map)
    (_genotypes Demo.plain_sd_map) /\
  Forall (fun key => key ∈ _genotypes Demo.plain_sd_map) ["TT"; "AA"] /\
  exists s g',
    sample Demo.plain_sd_map tt 2 (Some ["TT"; "AA"]) (1 # 3) false = (Ok s, g') /\
    sample_genotypes s = ["TT"; "AA"] /\
    shape (replicate_phenotypes s) = [2; 2].
Proof.
  assert (Forall (fun s => String.length s = _length Demo.plain_sd_map)
            (_genotypes Demo.plain_sd_map)) as Hwidth.
  { repeat constructor. }
  assert (Forall (fun key => key ∈ _genotypes Demo.plain_sd_map) ["TT"; "AA"]) as Hknown.
  { apply (bool_decide_unpack _). vm_compute. reflexivity. }
  split; [exact Demo_upper_aligned|]. split; [lia|]. split; [reflexivity|].
  split; [reflexivity|]. split; [exact Hwidth|]. split; [exact Hknown|].
  destruct (X12_sample_of_given_genotypes "AA" Demo.genotypes4 [1; 2; 2; 4]%Z
              [1; 1; 1; 2]%Z false None 4 (Callable Z.log2) Demo.plain_sd_map tt 2
              ["TT"; "AA"] (1 # 3) false
              Demo_upper_aligned (Nat.lt_0_succ 1) eq_refl eq_refl Hwidth Hknown)
    as (s & g' & Hsample & Hgenotypes & Hshape & _).
  exists s, g'. split; [exact Hsample|]. split; [exact Hgenotypes|]. exact Hshape.
Defined.

(** X13 on the sample of [TT] from [Demo.plain_sd_map], two draws. *)
Lemma X13_witness :
  exists s g',
    sample Demo.plain_sd_map tt 2 (Some ["TT"]) 1 true = (Ok s, g') /\
    0 < 2 /\
    sample_gpm s = Demo.plain_sd_map /\
    exists prows,
      replicate_phenotypes s = Array2 2 prows /\
      sample_phenotypes s = map np_mean prows.
Proof.
  destruct (sample Demo.plain_sd_map tt 2 (Some ["TT"]) 1 true) as [[s|e] g'] eqn:Hsample;
    [|vm_compute in Hsample; discriminate].
  destruct (X13_sample_contents _ _ _ _ _ _ _ _ Hsample)
    as (Hpos & Hgpm & grows & prows & _ & Hrows & _ & _ & _ & Hmeans & _).
  exists s, g'. split; [reflexivity|]. split; [exact Hpos|]. split; [exact Hgpm|].
  exists prows. split; [exact Hrows|exact Hmeans].
Defined.

(** X14 on [Demo.plain_sd_map] with the fraction 1/2: two of the four
    indices. *)
Lemma X14_witness :
  @choice_ok unit Z Demo.RandomState_unit /\
  @choice_distinct unit Z Demo.RandomState_unit /\
  (0 <= 1 # 2)%Q /\ (1 # 2 <= 1)%Q /\
  0 < Z.to_nat (py_int (round_double
                           ((1 # 2) * inject_Z (Z.of_nat (_n Demo.plain_sd_map))))) /\
  exists random_indices g1,
    select_indices Demo.plain_sd_map None (1 # 2) true tt = (Ok random_indices, g1) /\
    length random_indices = 2 /\
    StronglySorted lt random_indices /\
    last random_indices = Some 3.
Proof.
  assert (0 <= 1 # 2)%Q as Hlow by discriminate.
  assert (1 # 2 <= 1)%Q as Hhigh by discriminate.
  assert (0 < Z.to_nat (py_int (round_double
                                  ((1 # 2) * inject_Z (Z.of_nat (_n Demo.plain_sd_map))))))
    as Hpos.
  { vm_compute. repeat constructor. }
  split; [exact Demo_choice_ok|]. split; [exact Demo_choice_distinct|].
  split; [exact Hlow|]. split; [exact Hhigh|]. split; [exact Hpos|].
  destruct (X14_random_selection Demo.plain_sd_map tt (1 # 2) true
              Demo_choice_ok Demo_choice_distinct Hlow Hhigh (fun _ => Hpos))
    as (random_indices & g1 & Hsel & Hlen & _ & _ & Hsorted & Hlast).
  exists random_indices, g1. split; [exact Hsel|]. split; [exact Hlen|].
  split; [exact Hsorted|]. exact (Hlast eq_refl).
Defined.

(** X15 on the sample of [TT] and [AA] from [Demo.logged_map], two
    draws each. *)
Lemma X15_witness :
  exists s g' gpm',
    sample Demo.logged_map tt 2 (Some ["TT"; "AA"]) 1 true = (Ok s, g') /\
    sample_genotypes s <> [] /\
    get_gpm s = Ok gpm' /\
    _genotypes gpm' = ["TT"; "AA"] /\
    _log_transform gpm' = true /\
    stdeviations gpm' = Some (sample_stdeviations s).
Proof.
  destruct (sample Demo.logged_map tt 2 (Some ["TT"; "AA"]) 1 true) as [[s|e] g']
    eqn:Hsample; [|vm_compute in Hsample; discriminate].
  assert (sample_genotypes s = ["TT"; "AA"]) as Hgenotypes.
  { pose proof Hsample as Hvalue. vm_compute in Hvalue.
    injection Hvalue as Hs _. rewrite <- Hs. reflexivity. }
  assert (sample_genotypes s <> []) as Hne by (rewrite Hgenotypes; discriminate).
  destruct (X15_get_gpm_of_sample _ _ _ _ _ _ _ _ Hsample) as [_ Hok].
  destruct (Hok Hne) as (gpm' & Hget & Hgen & _ & _ & _ & Hlog & _ & _ & Hsd & _).
  exists s, g', gpm'. split; [reflexivity|]. split; [exact Hne|]. split; [exact Hget|].
  split; [rewrite Hgen; exact Hgenotypes|]. split; [exact Hlog|]. exact Hsd.
Defined.

(** X16 on [Demo.plain_sd_map], between [AA] and [AT]: a sub-lattice of
    two genotypes with the four standard deviations of the parent. *)
Lemma X16_witness :
  GenotypePhenotypeMap_init "AA" Demo.genotypes4 [1; 2; 2; 4]%Z (Some [1; 1; 1; 2]%Z)
    false None 4 (Callable Z.log2) = Ok Demo.plain_sd_map /\
  exists sub e,
    subspace Demo.plain_sd_map "AA" "AT" = Ok sub /\
    _n sub = 2 /\
    stdeviations sub = Some [1; 1; 1; 2]%Z /\
    err sub = Some e /\
    se_stdeviations e = [1; 1; 1; 2]%Z /\
    length (se_phenotypes e) = 2.
Proof.
  split; [reflexivity|].
  destruct (subspace Demo.plain_sd_map "AA" "AT") as [sub|e0] eqn:Hsub;
    [|vm_compute in Hsub; discriminate].
  assert (_n sub = 2) as Hn.
  { pose proof Hsub as Hvalue. vm_compute in Hvalue.
    injection Hvalue as Hs. rewrite <- Hs. reflexivity. }
  destruct (X16_subspace_inherits "AA" Demo.genotypes4 [1; 2; 2; 4]%Z
              (Some [1; 1; 1; 2]%Z) false None 4 (Callable Z.log2) Demo.plain_sd_map
              "AA" "AT" sub eq_refl Hsub) as (_ & _ & _ & _ & _ & Hsd & Herr).
  destruct (Herr _ eq_refl) as (e & He & Hall & Hlen).
  exists sub, e. split; [reflexivity|]. split; [exact Hn|]. split; [exact Hsd|].
  split; [exact He|]. split; [exact Hall|]. exact Hlen.
Defined.

(** X18 on data that asks for a log transform and three replicates,
    loaded with the keyword argument [log_transform=False]. *)
Lemma X18_witness :
  exists gpm,
    from_json Z.log2
      {| data_wildtype := Some "AA"; data_genotypes := Some Demo.genotypes4;
         data_phenotypes := Some [1; 2; 2; 4]%Z; data_stdeviations := None;
         data_log_transform := Some true; data_mutations := None;
         data_n_replicates := Some 3; data_logbase := None |}
      {| kw_stdeviations := None; kw_log_transform := Some false;
         kw_mutations := None; kw_n_replicates := None; kw_logbase := None |} =
      Loaded gpm /\
    _log_transform gpm = false /\
    _n_replicates gpm = 3 /\
    stdeviations gpm = None.
Proof.
  set (data := {| data_wildtype := Some "AA"; data_genotypes := Some Demo.genotypes4;
                  data_phenotypes := Some [1; 2; 2; 4]%Z; data_stdeviations := None;
                  data_log_transform := Some true; data_mutations := None;
                  data_n_replicates := Some 3; data_logbase := None |}).
  set (kwargs := {| kw_stdeviations := None; kw_log_transform := Some false;
                    kw_mutations := None; kw_n_replicates := None;
                    kw_logbase := @None (logbase_arg Z) |}).
  destruct (from_json Z.log2 data kwargs) as [gpm|msg|e] eqn:Hload;
    [|vm_compute in Hload; discriminate|vm_compute in Hload; discriminate].
  destruct (X18_from_json_option_precedence Z.log2 data kwargs gpm Hload)
    as (Hlog & Hrep & Hsd & _).
  exists gpm. split; [reflexivity|]. split; [exact Hlog|]. split; [exact Hrep|exact Hsd].
Defined.

(** X19 on [Demo.plain_map], assigned the wildtype [TT] and then the
    empty dict as mutations. *)
Lemma X19_witness :
  reachable (fun _ a => forall mutations, a <> SetMutations mutations)
    (wildtype_setter Demo.plain_map "TT") /\
  mm_wildtype (Mutations (wildtype_setter Demo.plain_map "TT")) = Some "TT" /\
  exists self',
    assign (wildtype_setter Demo.plain_map "TT") (SetMutations ∅) = Ok self' /\
    mm_wildtype (Mutations self') = None /\
    _wildtype self' = "TT".
Proof.
  assert (reachable (fun _ (a : assignment Z) => forall mutations, a <> SetMutations mutations)
            (wildtype_setter Demo.plain_map "TT")) as Hreach.
  { apply (reachable_assign _ Demo.plain_map (SetWildtype "TT")).
    - apply (reachable_init _ "AA" Demo.genotypes4 [1; 2; 2; 4]%Z None false None 1
               (Callable Z.log2)). reflexivity.
    - intros mutations. discriminate.
    - reflexivity. }
  destruct (X19_mutation_view_follows_map _ _ Hreach) as (Hkept & Hreplaced).
  split; [exact Hreach|]. split; [exact (proj1 (Hkept (fun s a Ha => Ha)))|].
  destruct (Hreplaced ∅ _ eq_refl) as (Hnone & _ & Hwildtype).
  eexists. split; [reflexivity|]. split; [exact Hnone|]. exact Hwildtype.
Defined.
